(** * Altair ground station: packet codec, sensor index and dispatcher

    A shallow embedding of the ground-side service of the NanoSatellite
    repository (ground/src/altair) and the properties of its link-layer
    packet engine and request/response correlator.

    Conventions.
    - A [uint8_t] is a [Z] in [0, 256); a [uint32_t] a [Z] in [0, 2^32);
      wrap-around is written out with [Z.modulo].
    - A [std::vector<uint8_t>] is a [list Z].  [operator[]] is unchecked in
      the source, so every read records the index it used.
    - Whatever the C++ text leaves to the platform (storage that was never
      written, the bytes behind a vector, the C library's formatting of
      times and floats) is a field of the class [Platform]. *)

From Stdlib Require Import ZArith List String Ascii Bool Lia.
From stdpp Require Import base option list gmap strings pretty.
Import ListNotations.

Local Open Scope Z_scope.

(** ** Platform *)

Class Platform := {
  (** the byte an unchecked read finds at index [i] behind a vector's end *)
  beyond : nat -> Z;
  (** the contents of a [MessagePacket::buffer] nobody has written yet *)
  indeterminate : nat -> Z;
  (** [localtime] and [strftime] with "%Y-%m-%d %H:%M:%S %Z" *)
  strftime_local : Z -> string;
  (** [operator<<] of a [float] given by its 32 bits, default format *)
  float_put : Z -> string;
  (** the same under [std::fixed << std::setprecision(2)] *)
  float_put_fixed2 : Z -> string;
  (** [std::to_string(float)] *)
  float_to_string : Z -> string;
  (** [num_get] for [float]: the 32 bits read ([None] when no number could
      be read) and the characters left in the stream *)
  float_get : list ascii -> option Z * list ascii;
  (** [a < b] on two floats given by their bits *)
  float_lt : Z -> Z -> bool
}.

(** ** Machine integers *)

Definition u8 (z : Z) : Z := z mod 256.
Definition u32 (z : Z) : Z := z mod 2 ^ 32.

(** The value of a 4-byte object whose storage holds [b0 b1 b2 b3], lowest
    address first (the host is little-endian, as the satellite is). *)
Definition le32 (b0 b1 b2 b3 : Z) : Z :=
  Z.lor b0 (Z.lor (Z.shiftl b1 8) (Z.lor (Z.shiftl b2 16) (Z.shiftl b3 24))).

(** The byte at offset [i] of the storage of a 4-byte object. *)
Definition byte_of (v : Z) (i : nat) : Z :=
  Z.land (Z.shiftr v (8 * Z.of_nat i)) 255.

(** The character written ["\n"] in the source. *)
Definition nl : string := String (ascii_of_nat 10) EmptyString.

(** ** Unchecked vector reads *)

Module Access.

(** A computation that reads a vector: its result and the indices it
    handed to [operator[]], in order. *)
Record t (A : Type) := Make { result : A; accesses : list nat }.
Arguments Make {A} _ _.
Arguments result {A} _.
Arguments accesses {A} _.

Definition ret {A} (a : A) : t A := Make a [].

Definition bind {A B} (m : t A) (k : A -> t B) : t B :=
  let r := k (result m) in
  Make (result r) (accesses m ++ accesses r).

(** [v[i]] *)
Definition index `{Platform} (v : list Z) (i : nat) : t Z :=
  Make (nth i v (beyond i)) [i].

(** every index used lies inside [v] *)
Definition in_bounds {A} (v : list Z) (m : t A) : bool :=
  forallb (fun i => (i <? length v)%nat) (accesses m).

(** some index used lies outside [v] *)
Definition out_of_bounds {A} (v : list Z) (m : t A) : bool :=
  existsb (fun i => (length v <=? i)%nat) (accesses m).

(** The result of a computation that stayed inside the vector; [None]
    stands for the undefined behaviour of a read outside it. *)
Definition checked {A} (v : list Z) (m : t A) : option A :=
  if in_bounds v m then Some (result m) else None.

End Access.

#[export] Instance access_ret : MRet Access.t := @Access.ret.
#[export] Instance access_bind : MBind Access.t :=
  fun A B k m => Access.bind m k.

(** ** packet_parser.hpp, packet_parser.cpp *)

Definition END_MARK : Z := 0x55.
Definition PACKET_HEADER_SIZE : Z := 5.

(** [enum AltairModes]; a [mode] field holds the raw byte of the cast. *)
Definition ERROR_MODE : Z := 0x01.
Definition SAFE_MODE : Z := 0x02.
Definition OK_MODE : Z := 0x03.

Record SensorData := {
  timestamp : Z;
  temp : Z;
  humid : Z;
  light : Z;
  mode : Z;
  voltage : Z   (* the 32 bits of the float *)
}.

(** [enum AltairEvent], kept as the raw byte of the cast. *)
Definition OK_TO_ERROR : Z := 0.
Definition ERROR_TO_OK : Z := 1.
Definition WD_RESET : Z := 2.
Definition INIT : Z := 3.
Definition OK_TO_SAFE : Z := 4.
Definition SAFE_TO_ERROR : Z := 5.
Definition SAFE_TO_OK : Z := 6.
Definition ERROR_TO_SAFE : Z := 7.

Record EventData := {
  ev_timestamp : Z;
  event : Z
}.

(** [enum ResponseType] *)
Definition BEACON : Z := 0x01.
Definition TIME_SEND : Z := 0x02.
Definition UPDATE_MIN_TEMP : Z := 0x03.
Definition UPDATE_HUMIDITY : Z := 0x04.
Definition UPDATE_VOLTAGE : Z := 0x05.
Definition UPDATE_LIGHT : Z := 0x06.
Definition EVENT : Z := 0x07.
Definition ACK : Z := 0x08.
Definition NACK : Z := 0x09.
Definition UPDATE_MAX_TEMP : Z := 0x0A.
Definition TIME_REQUEST : Z := 0x10.
Definition SENSOR_LOG : Z := 0x11.
Definition TOTAL_LOGS : Z := 0x12.
Definition REQUEST_SENSOR_LOGS : Z := 0x13.
Definition EVENT_LOG : Z := 0x14.
Definition EVENT_LOG_END : Z := 0x15.
Definition REQUEST_EVENT_LOG : Z := 0x16.
Definition REQUEST_CURRENT_TIME : Z := 0x17.
Definition RESPONSE_CURRENT_TIME : Z := 0x18.
Definition UNKNOWN : Z := 0xFF.

Record MessagePacket := {
  data_len : Z;
  packetType : Z;
  m_respnse_id : Z;
  checksum : Z;
  buffer : nat -> Z;      (* uint8_t buffer[128] *)
  end_mark : Z
}.

Module PacketParser.
Section WithPlatform.
Context `{Platform}.

Definition parse_response_type (response : list Z) : Z :=
  if (length response <? 2)%nat then UNKNOWN else nth 1 response 0.

Definition parse_sensor_data (response : list Z) (data : SensorData)
  : Access.t SensorData :=
  let len := length response in
  let idx := 4%nat in
  if (len =? 0)%nat then Access.ret data else
  temp' ← Access.index response idx;
  humid' ← Access.index response (idx + 1);
  light' ← Access.index response (idx + 2);
  mode' ← Access.index response (idx + 3);
  let idx := (idx + 4)%nat in
  v0 ← Access.index response (idx + 0);
  v1 ← Access.index response (idx + 1);
  v2 ← Access.index response (idx + 2);
  v3 ← Access.index response (idx + 3);
  let idx := (idx + 4)%nat in
  let data := {| timestamp := timestamp data; temp := temp'; humid := humid';
                 light := light'; mode := mode';
                 voltage := le32 v0 v1 v2 v3 |} in
  if (idx + 3 <? len)%nat then
    t0 ← Access.index response (idx + 0);
    t1 ← Access.index response (idx + 1);
    t2 ← Access.index response (idx + 2);
    t3 ← Access.index response (idx + 3);
    Access.ret {| timestamp := le32 t0 t1 t2 t3; temp := temp data;
                  humid := humid data; light := light data;
                  mode := mode data; voltage := voltage data |}
  else Access.ret data.

Definition parse_event_data (response : list Z) (event_data : EventData)
  : Access.t EventData :=
  let len := length response in
  let idx := 4%nat in
  event' ← Access.index response idx;
  let idx := (idx + 1)%nat in
  let event_data := {| ev_timestamp := ev_timestamp event_data;
                       event := event' |} in
  if (idx + 3 <? len)%nat then
    t0 ← Access.index response (idx + 0);
    t1 ← Access.index response (idx + 1);
    t2 ← Access.index response (idx + 2);
    t3 ← Access.index response (idx + 3);
    Access.ret {| ev_timestamp := le32 t0 t1 t2 t3;
                  event := event event_data |}
  else Access.ret event_data.

Definition format_timestamp (timestamp : Z) : string :=
  strftime_local timestamp.

Definition get_mode_string (mode : Z) : string :=
  if mode =? ERROR_MODE then "Error"
  else if mode =? SAFE_MODE then "Safe"
  else if mode =? OK_MODE then "OK"
  else "Unknown".

Definition get_event_string (event : Z) : string :=
  if event =? OK_TO_ERROR then "OK to Error"
  else if event =? ERROR_TO_OK then "Error to OK"
  else if event =? WD_RESET then "Watchdog Reset"
  else if event =? INIT then "Initialization"
  else if event =? OK_TO_SAFE then "OK to Safe"
  else if event =? SAFE_TO_ERROR then "Safe to Error"
  else if event =? SAFE_TO_OK then "Safe to OK"
  else if event =? ERROR_TO_SAFE then "Error to safe"
  else "Error to 0K".

Definition sensor_data_to_string (data : SensorData) : string :=
  "Temperature: " +:+ pretty (temp data) +:+ "°C" +:+ nl
  +:+ "Humidity: " +:+ pretty (humid data) +:+ "%" +:+ nl
  +:+ "Light: " +:+ pretty (light data) +:+ "%" +:+ nl
  +:+ "Mode: " +:+ get_mode_string (mode data) +:+ nl
  +:+ "Voltage: " +:+ float_put_fixed2 (voltage data) +:+ "V" +:+ nl
  +:+ "Timestamp: " +:+ pretty (timestamp data) +:+ nl
  +:+ "Local Time: " +:+ format_timestamp (timestamp data) +:+ nl.

Definition event_data_to_string (data : EventData) : string :=
  "Event: " +:+ get_event_string (event data) +:+ nl
  +:+ "Timestamp: " +:+ pretty (ev_timestamp data).

(** [MessagePacket packet;] leaves [buffer] unwritten. *)
Definition create_message_packet (type response_id : Z) : MessagePacket :=
  {| data_len := PACKET_HEADER_SIZE;
     packetType := type;
     m_respnse_id := response_id;
     checksum := 0x00;
     buffer := indeterminate;
     end_mark := END_MARK |}.

Definition is_valid_response (response : list Z) : bool :=
  match response with
  | [] => false
  | _ =>
    if (length response <? Z.to_nat PACKET_HEADER_SIZE)%nat then false
    else if negb (List.last response 0 =? END_MARK) then false
    else if negb (Z.of_nat (length response) =? nth 0 response 0) then false
    else true
  end.

End WithPlatform.
End PacketParser.

(** ** id_generator.hpp, id_generator.cpp *)

Module IDGenerator.

(** [uint8_t id = current_id++; return id;] on the state [current_id]:
    the ID handed out and the counter afterwards. *)
Definition generateID (current_id : Z) : Z * Z :=
  (current_id, u8 (current_id + 1)).

End IDGenerator.

(** ** <algorithm>: the two binary searches of libstdc++ *)

Module Std.
Section Search.
Context {A B : Type} `{Inhabited A}.

(** [std::lower_bound(first, first + len, val, comp)] on the positions of
    [v]; [len] strictly decreases, so [fuel = len] iterations suffice. *)
Fixpoint lower_bound_loop (comp : A -> B -> bool) (v : list A) (val : B)
    (fuel first len : nat) : nat :=
  match fuel with
  | O => first
  | S fuel' =>
    if (0 <? len)%nat then
      let half := Nat.div2 len in
      let middle := (first + half)%nat in
      if comp (v !!! middle) val
      then lower_bound_loop comp v val fuel' (middle + 1) (len - half - 1)
      else lower_bound_loop comp v val fuel' first half
    else first
  end.

Definition lower_bound (comp : A -> B -> bool) (v : list A) (val : B) : nat :=
  lower_bound_loop comp v val (length v) 0 (length v).

(** [std::upper_bound(first, first + len, val, comp)] *)
Fixpoint upper_bound_loop (comp : B -> A -> bool) (v : list A) (val : B)
    (fuel first len : nat) : nat :=
  match fuel with
  | O => first
  | S fuel' =>
    if (0 <? len)%nat then
      let half := Nat.div2 len in
      let middle := (first + half)%nat in
      if comp val (v !!! middle)
      then upper_bound_loop comp v val fuel' first half
      else upper_bound_loop comp v val fuel' (middle + 1) (len - half - 1)
    else first
  end.

Definition upper_bound (comp : B -> A -> bool) (v : list A) (val : B) : nat :=
  upper_bound_loop comp v val (length v) 0 (length v).

End Search.

(** [size_t] and [ptrdiff_t] are 64 bits wide; [sizeof(SensorData)] is 16. *)
Definition size_t (z : Z) : Z := z mod 2 ^ 64.
Definition PTRDIFF_MAX : Z := 2 ^ 63 - 1.
Definition vector_max_size (sizeof_T : Z) : Z := PTRDIFF_MAX / sizeof_T.

End Std.

(** What a call that may throw ends in. *)
Inductive outcome (A : Type) :=
  | Returns (a : A)
  | Throws (what : string).
Arguments Returns {A} _.
Arguments Throws {A} _.

(** ** server_data_manager.hpp, server_data_manager.cpp *)

#[export] Instance SensorData_inhabited : Inhabited SensorData :=
  populate {| timestamp := 0; temp := 0; humid := 0; light := 0; mode := 0;
              voltage := 0 |}.

Module ServerDataManager.

Definition sizeof_SensorData : Z := 16.

(** The state is [m_sensor_data]; the mutex has no sequential meaning. *)
Definition insertSensorData (data : SensorData) (m_sensor_data : list SensorData)
  : bool * list SensorData :=
  let pos := Std.lower_bound (fun a b => timestamp a <? timestamp b)
               m_sensor_data data in
  if negb (pos =? length m_sensor_data)%nat
     && (timestamp (m_sensor_data !!! pos) =? timestamp data)
  then (true, m_sensor_data)
  else (true, take pos m_sensor_data ++ data :: drop pos m_sensor_data).

Definition getSensorDataByTimestamp (timestamp' : Z)
    (m_sensor_data : list SensorData) : option SensorData :=
  let pos := Std.lower_bound (fun a t => timestamp a <? t)
               m_sensor_data timestamp' in
  if negb (pos =? length m_sensor_data)%nat
     && (timestamp (m_sensor_data !!! pos) =? timestamp')
  then Some (m_sensor_data !!! pos)
  else None.

(** [for (auto it = lower; it != upper; ++it) result.push_back( *it );]
    run for [n] iterations. *)
Fixpoint copy_range (m_sensor_data : list SensorData) (n it : nat)
    (result : list SensorData) : list SensorData :=
  match n with
  | O => result
  | S n' => copy_range m_sensor_data n' (it + 1)
              (result ++ [m_sensor_data !!! it])
  end.

Definition getSensorDataInRange (start_time end_time : Z)
    (m_sensor_data : list SensorData) : outcome (option (list SensorData)) :=
  if (length m_sensor_data =? 0)%nat then Returns None
  else if timestamp (List.last m_sensor_data inhabitant) <? start_time
  then Returns None
  else
    let lower := Std.lower_bound (fun a t => timestamp a <? t)
                   m_sensor_data start_time in
    let upper := Std.upper_bound (fun t a => t <? timestamp a)
                   m_sensor_data end_time in
    (* result.reserve(std::distance(lower, upper)) *)
    let distance := Z.of_nat upper - Z.of_nat lower in
    if Std.vector_max_size sizeof_SensorData <? Std.size_t distance
    then Throws "vector::reserve"
    else Returns (Some (copy_range m_sensor_data (upper - lower) lower [])).

Definition getMostRecentData (m_sensor_data : list SensorData)
  : option SensorData :=
  if (length m_sensor_data =? 0)%nat then None
  else Some (List.last m_sensor_data inhabitant).

Definition getAllSensorData (m_sensor_data : list SensorData)
  : list SensorData := m_sensor_data.

Definition size (m_sensor_data : list SensorData) : nat :=
  length m_sensor_data.

Definition clear (m_sensor_data : list SensorData) : list SensorData := [].

End ServerDataManager.

(** ** <sstream>: the part of [std::istringstream] that [handle_request] uses *)

Module Stream.

(** The characters not yet read and the two state bits that matter
    ([badbit] is never set on a string buffer). *)
Record t := { rdbuf : list ascii; eofbit : bool; failbit : bool }.

Definition open (s : string) : t :=
  {| rdbuf := list_ascii_of_string s; eofbit := false; failbit := false |}.

Definition good (s : t) : bool := negb (eofbit s) && negb (failbit s).
Definition fail (s : t) : bool := failbit s.

Definition isspace (c : ascii) : bool :=
  let n := nat_of_ascii c in
  ((n =? 32) || ((9 <=? n) && (n <=? 13)))%nat.

Definition isdigit (c : ascii) : bool :=
  let n := nat_of_ascii c in
  ((48 <=? n) && (n <=? 57))%nat.

Fixpoint skipws (cs : list ascii) : list ascii :=
  match cs with
  | c :: cs' => if isspace c then skipws cs' else cs
  | [] => []
  end.

(** the longest prefix without white space, and what follows it *)
Fixpoint word (cs : list ascii) : list ascii * list ascii :=
  match cs with
  | c :: cs' =>
    if isspace c then ([], cs)
    else let '(w, rest) := word cs' in (c :: w, rest)
  | [] => ([], [])
  end.

(** the decimal digits at the head of [cs]: how many there are, their
    value after [acc], and what follows them *)
Fixpoint digits (cs : list ascii) (count : nat) (acc : Z)
  : nat * Z * list ascii :=
  match cs with
  | c :: cs' =>
    if isdigit c
    then digits cs' (S count) (10 * acc + (Z.of_nat (nat_of_ascii c) - 48))
    else (count, acc, cs)
  | [] => (count, acc, [])
  end.

(** [istream::sentry] of a formatted input function ([skipws] is set). *)
Definition sentry (s : t) : bool * t :=
  if good s then
    match skipws (rdbuf s) with
    | [] => (false, {| rdbuf := []; eofbit := true; failbit := true |})
    | rest => (true, {| rdbuf := rest; eofbit := false; failbit := false |})
    end
  else (false, {| rdbuf := rdbuf s; eofbit := eofbit s; failbit := true |}).

(** [is >> str]: [str] is replaced only when the sentry succeeds. *)
Definition get_string (s : t) (str : string) : string * t :=
  let '(ok, s) := sentry s in
  if ok then
    let '(w, rest) := word (rdbuf s) in
    (string_of_list_ascii w,
     {| rdbuf := rest; eofbit := bool_decide (rest = []); failbit := false |})
  else (str, s).

(** an optional sign, then digits *)
Definition signed_digits (cs : list ascii)
  : bool * (nat * Z * list ascii) :=
  match cs with
  | "-"%char :: cs' => (true, digits cs' 0 0)
  | "+"%char :: cs' => (false, digits cs' 0 0)
  | _ => (false, digits cs 0 0)
  end.

Definition INT_MIN : Z := - 2 ^ 31.
Definition INT_MAX : Z := 2 ^ 31 - 1.
Definition UINT_MAX : Z := 2 ^ 32 - 1.

(** [is >> n] for [int n].  [None] says that [n] was not written, which
    happens exactly when the sentry fails; a failed conversion writes 0
    and an overflowing one the nearest limit, both with [failbit]. *)
Definition get_int (s : t) : option Z * t :=
  let '(ok, s) := sentry s in
  if ok then
    let '(negative, (count, magnitude, rest)) := signed_digits (rdbuf s) in
    let eof := bool_decide (rest = []) in
    let v := if negative then - magnitude else magnitude in
    if (count =? 0)%nat
    then (Some 0, {| rdbuf := rest; eofbit := eof; failbit := true |})
    else if v <? INT_MIN
    then (Some INT_MIN, {| rdbuf := rest; eofbit := eof; failbit := true |})
    else if INT_MAX <? v
    then (Some INT_MAX, {| rdbuf := rest; eofbit := eof; failbit := true |})
    else (Some v, {| rdbuf := rest; eofbit := eof; failbit := false |})
  else (None, s).

(** [is >> n] for [uint32_t n]: a minus sign negates modulo [2^32]. *)
Definition get_uint32 (s : t) : option Z * t :=
  let '(ok, s) := sentry s in
  if ok then
    let '(negative, (count, magnitude, rest)) := signed_digits (rdbuf s) in
    let eof := bool_decide (rest = []) in
    if (count =? 0)%nat
    then (Some 0, {| rdbuf := rest; eofbit := eof; failbit := true |})
    else if UINT_MAX <? magnitude
    then (Some UINT_MAX, {| rdbuf := rest; eofbit := eof; failbit := true |})
    else (Some (if negative then u32 (- magnitude) else magnitude),
          {| rdbuf := rest; eofbit := eof; failbit := false |})
  else (None, s).

(** [is >> f] for [float f], the conversion itself left to the platform. *)
Definition get_float `{Platform} (s : t) : option Z * t :=
  let '(ok, s) := sentry s in
  if ok then
    let '(v, rest) := float_get (rdbuf s) in
    let eof := bool_decide (rest = []) in
    match v with
    | Some bits =>
      (Some bits, {| rdbuf := rest; eofbit := eof; failbit := false |})
    | None => (Some 0, {| rdbuf := rest; eofbit := eof; failbit := true |})
    end
  else (None, s).

End Stream.

(** ** altair_server.hpp, altair_server.cpp *)

(** One line (or block) written to [std::cout]. *)
Inductive Log :=
  | InvalidResponseSize
  | UnknownResponseType (responseType : Z)
  | SatelliteDebug (debug_message : list Z)
  | ReceiveError
  | EventHeading
  | PrintEvent (data : EventData)
  | PrintBeaconData (data : SensorData)
  | SendingTime (epoch_time : Z)
  | ReceivedMessage (message : string).

(** The members of [AltairServer] and the world around it.  A client
    session is known by its [clientId]. *)
Record AltairServer := {
  (** every buffer handed to [m_connection->send], oldest first *)
  m_connection : list (list Z);
  m_latest_data : SensorData;
  (** [current_id] of the [IDGenerator] singleton *)
  m_id_generator : Z;
  (** every [ClientSession::sendMessage] call, oldest first *)
  m_tcp_server : list (nat * string);
  m_request_clients : gmap Z nat;
  m_sensor_data_manager : list SensorData;
  cout : list Log;
  (** what [std::chrono::system_clock::now()] reads, in seconds *)
  system_clock : Z
}.

Module Server.
Section WithPlatform.
Context `{Platform}.

Definition ResponseHandler : Type :=
  list Z -> Z -> AltairServer -> option AltairServer.

(** *** Writing one member *)

Definition send (message : list Z) (st : AltairServer) : AltairServer :=
  {| m_connection := m_connection st ++ [message];
     m_latest_data := m_latest_data st;
     m_id_generator := m_id_generator st;
     m_tcp_server := m_tcp_server st;
     m_request_clients := m_request_clients st;
     m_sensor_data_manager := m_sensor_data_manager st;
     cout := cout st;
     system_clock := system_clock st |}.

Definition set_latest_data (data : SensorData) (st : AltairServer)
  : AltairServer :=
  {| m_connection := m_connection st;
     m_latest_data := data;
     m_id_generator := m_id_generator st;
     m_tcp_server := m_tcp_server st;
     m_request_clients := m_request_clients st;
     m_sensor_data_manager := m_sensor_data_manager st;
     cout := cout st;
     system_clock := system_clock st |}.

Definition set_id_generator (current_id : Z) (st : AltairServer)
  : AltairServer :=
  {| m_connection := m_connection st;
     m_latest_data := m_latest_data st;
     m_id_generator := current_id;
     m_tcp_server := m_tcp_server st;
     m_request_clients := m_request_clients st;
     m_sensor_data_manager := m_sensor_data_manager st;
     cout := cout st;
     system_clock := system_clock st |}.

(** [client->sendMessage(message)] *)
Definition sendMessage (client : nat) (message : string) (st : AltairServer)
  : AltairServer :=
  {| m_connection := m_connection st;
     m_latest_data := m_latest_data st;
     m_id_generator := m_id_generator st;
     m_tcp_server := m_tcp_server st ++ [(client, message)];
     m_request_clients := m_request_clients st;
     m_sensor_data_manager := m_sensor_data_manager st;
     cout := cout st;
     system_clock := system_clock st |}.

Definition set_request_clients (clients : gmap Z nat) (st : AltairServer)
  : AltairServer :=
  {| m_connection := m_connection st;
     m_latest_data := m_latest_data st;
     m_id_generator := m_id_generator st;
     m_tcp_server := m_tcp_server st;
     m_request_clients := clients;
     m_sensor_data_manager := m_sensor_data_manager st;
     cout := cout st;
     system_clock := system_clock st |}.

Definition set_sensor_data_manager (data : list SensorData)
    (st : AltairServer) : AltairServer :=
  {| m_connection := m_connection st;
     m_latest_data := m_latest_data st;
     m_id_generator := m_id_generator st;
     m_tcp_server := m_tcp_server st;
     m_request_clients := m_request_clients st;
     m_sensor_data_manager := data;
     cout := cout st;
     system_clock := system_clock st |}.

Definition print (line : Log) (st : AltairServer) : AltairServer :=
  {| m_connection := m_connection st;
     m_latest_data := m_latest_data st;
     m_id_generator := m_id_generator st;
     m_tcp_server := m_tcp_server st;
     m_request_clients := m_request_clients st;
     m_sensor_data_manager := m_sensor_data_manager st;
     cout := cout st ++ [line];
     system_clock := system_clock st |}.

(** [m_id_generator.generateID()] *)
Definition generateID (st : AltairServer) : Z * AltairServer :=
  let '(id, current_id) := IDGenerator.generateID (m_id_generator st) in
  (id, set_id_generator current_id st).

(** [m_request_clients[id] = client] *)
Definition register (id : Z) (client : nat) (st : AltairServer)
  : AltairServer :=
  set_request_clients (<[id := client]> (m_request_clients st)) st.

(** [m_request_clients.erase(it)] for the entry of [id] *)
Definition erase (id : Z) (st : AltairServer) : AltairServer :=
  set_request_clients (delete id (m_request_clients st)) st.

(** A local [SensorData] or [EventData] declared without initialiser. *)
Definition indeterminate_SensorData : SensorData :=
  {| timestamp := le32 (indeterminate 0) (indeterminate 1)
                       (indeterminate 2) (indeterminate 3);
     temp := indeterminate 4; humid := indeterminate 5;
     light := indeterminate 6; mode := indeterminate 7;
     voltage := le32 (indeterminate 8) (indeterminate 9)
                     (indeterminate 10) (indeterminate 11) |}.

Definition indeterminate_EventData : EventData :=
  {| ev_timestamp := le32 (indeterminate 0) (indeterminate 1)
                          (indeterminate 2) (indeterminate 3);
     event := indeterminate 4 |}.

(** *** Outbound packets *)

(** [packet.buffer[i] = x] *)
Definition buffer_set (packet : MessagePacket) (i : nat) (x : Z)
  : MessagePacket :=
  {| data_len := data_len packet; packetType := packetType packet;
     m_respnse_id := m_respnse_id packet; checksum := checksum packet;
     buffer := fun j => if (j =? i)%nat then x else buffer packet j;
     end_mark := end_mark packet |}.

(** [packet.data_len += n] on a [uint8_t] *)
Definition data_len_add (packet : MessagePacket) (n : Z) : MessagePacket :=
  {| data_len := u8 (data_len packet + n); packetType := packetType packet;
     m_respnse_id := m_respnse_id packet; checksum := checksum packet;
     buffer := buffer packet; end_mark := end_mark packet |}.

(** [buffer[0]], ..., [buffer[n - 1]]; the array has 128 elements and a
    read behind it is undefined. *)
Definition payload (packet : MessagePacket) (n : nat) : option (list Z) :=
  if (128 <? n)%nat then None else Some (map (buffer packet) (seq 0 n)).

Definition send_packet_to_altair (message_packet : MessagePacket)
    (st : AltairServer) : option AltairServer :=
  let message_buffer := [data_len message_packet; packetType message_packet] in
  (* id 0xFF are reserved for satellite callbacks (Beacon, Event)
     if the id is 0xFF, generate a new one *)
  let '(m_respnse_id', st) :=
    if m_respnse_id message_packet =? 0xFF then generateID st
    else (m_respnse_id message_packet, st) in
  let message_buffer := message_buffer ++ [m_respnse_id'] in
  let message_buffer := message_buffer ++ [checksum message_packet] in
  bytes ← payload message_packet
             (Z.to_nat (data_len message_packet - PACKET_HEADER_SIZE));
  let message_buffer := message_buffer ++ bytes in
  let message_buffer := message_buffer ++ [end_mark message_packet] in
  Some (send message_buffer st).

(** [send_value<T>(type, value)], [T] given by [sizeof(T)] and [value] by
    the bytes of its storage. *)
Definition send_value (sizeof_T : nat) (type : Z) (value : Z)
    (st : AltairServer) : option AltairServer :=
  let '(id, st) := generateID st in
  let packet := PacketParser.create_message_packet type id in
  let packet := data_len_add packet (Z.of_nat sizeof_T) in
  let packet :=
    fold_left (fun p i => buffer_set p i (byte_of value i))
              (seq 0 sizeof_T) packet in
  send_packet_to_altair packet st.

Definition send_custom_time (custom_time : Z) := send_value 4 TIME_SEND custom_time.

Definition send_current_time (st : AltairServer) : option AltairServer :=
  let epoch_time := u32 (system_clock st) in
  st ← send_value 4 TIME_SEND epoch_time st;
  Some (print (SendingTime epoch_time) st).

Definition update_max_temp (max_temp : Z) := send_value 1 UPDATE_MAX_TEMP max_temp.
Definition update_min_temp (min_temp : Z) := send_value 1 UPDATE_MIN_TEMP min_temp.
Definition update_humidity (humidity : Z) := send_value 1 UPDATE_HUMIDITY humidity.
Definition update_light (light : Z) := send_value 1 UPDATE_LIGHT light.
Definition update_voltage (voltage : Z) := send_value 4 UPDATE_VOLTAGE voltage.

Definition get_current_time (client : nat) (st : AltairServer)
  : option AltairServer :=
  let '(id, st) := generateID st in
  let packet := PacketParser.create_message_packet REQUEST_CURRENT_TIME id in
  let packet := data_len_add packet 4 in
  let st := register (m_respnse_id packet) client st in
  send_packet_to_altair packet st.

(** the two loops that copy [start] and [end] into [buffer[0..7]] *)
Definition put_range (start end_ : Z) (packet : MessagePacket)
  : MessagePacket :=
  let packet :=
    fold_left (fun p i => buffer_set p i (byte_of start i)) (seq 0 4) packet in
  fold_left (fun p i => buffer_set p (i + 4) (byte_of end_ i)) (seq 0 4) packet.

Definition get_event_in_range (start end_ : Z) (client : nat)
    (st : AltairServer) : option AltairServer :=
  let '(id, st) := generateID st in
  let packet := PacketParser.create_message_packet REQUEST_EVENT_LOG id in
  let packet := data_len_add packet (4 * 2) in
  let st := register (m_respnse_id packet) client st in
  send_packet_to_altair (put_range start end_ packet) st.

Definition get_sensor_in_range (start end_ : Z) (client : nat)
    (st : AltairServer) : option AltairServer :=
  let '(id, st) := generateID st in
  let packet := PacketParser.create_message_packet REQUEST_SENSOR_LOGS id in
  let packet := data_len_add packet (4 * 2) in
  let st := register (m_respnse_id packet) client st in
  send_packet_to_altair (put_range start end_ packet) st.

(** *** Inbound packets *)

Definition handle_time_request (response : list Z) (responseId : Z)
    (st : AltairServer) : option AltairServer :=
  send_current_time st.

Definition handle_sensor_log (response : list Z) (responseId : Z)
    (st : AltairServer) : option AltairServer :=
  sensor_data ← Access.checked response
    (PacketParser.parse_sensor_data response indeterminate_SensorData);
  let '(_, index) :=
    ServerDataManager.insertSensorData sensor_data (m_sensor_data_manager st) in
  let st := set_sensor_data_manager index st in
  (* Check if this log is in response to a client request *)
  match m_request_clients st !! responseId with
  | Some client =>
    let data_str := PacketParser.sensor_data_to_string sensor_data in
    Some (sendMessage client (nl +:+ "Sensor log data:" +:+ nl +:+ data_str) st)
  | None => Some st
  end.

Definition handle_sensor_log_end (response : list Z) (responseId : Z)
    (st : AltairServer) : option AltairServer :=
  match m_request_clients st !! responseId with
  | Some client =>
    let st := sendMessage client ("Completed retrieval of sensor logs." +:+ nl) st in
    (* Remove the request from tracking since it's complete *)
    Some (erase responseId st)
  | None => Some st
  end.

Definition handle_ack (response : list Z) (responseId : Z)
    (st : AltairServer) : option AltairServer :=
  match m_request_clients st !! responseId with
  | Some client =>
    let st := sendMessage client "Sucess operation" st in
    Some (erase responseId st)
  | None => Some st
  end.

Definition handle_nack (response : list Z) (responseId : Z)
    (st : AltairServer) : option AltairServer :=
  match m_request_clients st !! responseId with
  | Some client =>
    let st := sendMessage client "Request failed. Please try again." st in
    Some (erase responseId st)
  | None => Some st
  end.

Definition handle_event (response : list Z) (responseId : Z)
    (st : AltairServer) : option AltairServer :=
  let st := print EventHeading st in
  event_data ← Access.checked response
    (PacketParser.parse_event_data response indeterminate_EventData);
  Some (print (PrintEvent event_data) st).

Definition handle_event_log (response : list Z) (responseId : Z)
    (st : AltairServer) : option AltairServer :=
  event_data ← Access.checked response
    (PacketParser.parse_event_data response indeterminate_EventData);
  let st := print (PrintEvent event_data) st in
  match m_request_clients st !! responseId with
  | Some client =>
    let data_str := PacketParser.event_data_to_string event_data in
    Some (sendMessage client (nl +:+ "Event log data:" +:+ nl +:+ data_str) st)
  | None => Some st
  end.

Definition handle_event_log_end (response : list Z) (responseId : Z)
    (st : AltairServer) : option AltairServer :=
  match m_request_clients st !! responseId with
  | Some client =>
    let st := sendMessage client
                (nl +:+ "Completed retrieval of events logs." +:+ nl) st in
    Some (erase responseId st)
  | None => Some st
  end.

Definition handle_response_current_time (response : list Z) (responseId : Z)
    (st : AltairServer) : option AltairServer :=
  match m_request_clients st !! responseId with
  | Some client =>
    current_time ← Access.checked response
      (b0 ← Access.index response (0 + 4);
       b1 ← Access.index response (1 + 4);
       b2 ← Access.index response (2 + 4);
       b3 ← Access.index response (3 + 4);
       mret (le32 b0 b1 b2 b3));
    let local_time := PacketParser.format_timestamp current_time in
    let st := sendMessage client ("Current time: " +:+ local_time +:+ nl) st in
    Some (erase responseId st)
  | None => Some st
  end.

Definition handle_beacon (response : list Z) (responseId : Z)
    (st : AltairServer) : option AltairServer :=
  data ← Access.checked response
    (PacketParser.parse_sensor_data response (m_latest_data st));
  let st := set_latest_data data st in
  Some (print (PrintBeaconData (m_latest_data st)) st).

(** Map each response type to its handler function *)
Definition init_response_handlers : gmap Z ResponseHandler :=
  let m_response_handlers : gmap Z ResponseHandler := ∅ in
  let m_response_handlers := <[TIME_REQUEST := handle_time_request]> m_response_handlers in
  let m_response_handlers := <[SENSOR_LOG := handle_sensor_log]> m_response_handlers in
  let m_response_handlers := <[TOTAL_LOGS := handle_sensor_log_end]> m_response_handlers in
  let m_response_handlers := <[ACK := handle_ack]> m_response_handlers in
  let m_response_handlers := <[NACK := handle_nack]> m_response_handlers in
  let m_response_handlers := <[EVENT := handle_event]> m_response_handlers in
  let m_response_handlers := <[EVENT_LOG := handle_event_log]> m_response_handlers in
  let m_response_handlers := <[EVENT_LOG_END := handle_event_log_end]> m_response_handlers in
  let m_response_handlers :=
    <[RESPONSE_CURRENT_TIME := handle_response_current_time]> m_response_handlers in
  <[BEACON := handle_beacon]> m_response_handlers.

(** [handle_response] over the member [m_response_handlers]. *)
Definition handle_response (m_response_handlers : gmap Z ResponseHandler)
    (response : list Z) (st : AltairServer) : option AltairServer :=
  if Z.of_nat (length response) <? PACKET_HEADER_SIZE
  then Some (print InvalidResponseSize st)
  else
    let response :=
      if (length response =? 9)%nat then
        (* new_response.push_back(10), then every byte of response *)
        10 :: response
      else response in
    responseType ← Access.checked response (Access.index response 1);
    responseId ← Access.checked response (Access.index response 2);
    match m_response_handlers !! responseType with
    | Some handler => handler response responseId st
    | None => Some (print (UnknownResponseType responseType) st)
    end.

(** *** The listen loop *)

(** [::isalpha] in the "C" locale *)
Definition isalpha (c : Z) : bool :=
  ((65 <=? c) && (c <=? 90)) || ((97 <=? c) && (c <=? 122)).

Section Listen.
(** the call [handle_response(response)] made by the loop *)
Variable handle_response' : list Z -> AltairServer -> option AltairServer.

(** One turn of [while (true)]: [received] is the byte that
    [m_connection->receive(char_buffer, 1)] stored in [char_buffer[0]],
    or [None] when it returned [bytes_received <= 0]; the loop carries
    the vector [response] and the server. *)
Definition listen_iteration (received : option Z)
    (loop : list Z * AltairServer) : option (list Z * AltairServer) :=
  let '(response, st) := loop in
  match received with
  | None => Some (response, print ReceiveError st)
  | Some c =>
    if (c =? 0) && bool_decide (response = []) then Some (response, st)
    else
      let response := response ++ [c] in
      first ← Access.checked response (Access.index response 0);
      if isalpha first || (first =? 10) then
        if c =? 10 then
          let st := if (1 <? length response)%nat
                    then print (SatelliteDebug response) st else st in
          Some ([], st)
        else Some (response, st)
      else
        if c =? END_MARK then
          if first <=? Z.of_nat (length response) then
            st ← handle_response' response st;
            Some ([], st)
          else Some (response, st)
        else Some (response, st)
  end.

(** the loop over what the link delivers, starting with [response] empty *)
Definition listen_from (link : list (option Z))
    (loop : list Z * AltairServer) : option (list Z * AltairServer) :=
  foldl (fun acc received => loop ← acc; listen_iteration received loop)
        (Some loop) link.
End Listen.

Definition listen (link : list (option Z)) (st : AltairServer)
  : option (list Z * AltairServer) :=
  listen_from (handle_response init_response_handlers) link ([], st).

(** *** Operator requests *)

(** the bits of the literals [3.3f] and [0.1f] *)
Definition float_3_3 : Z := 0x40533333.
Definition float_0_1 : Z := 0x3DCCCCCD.

Definition help_message : string :=
  "🛰️ === ALTAIR SATELLITE COMMAND CENTER === 🛰️" +:+ nl +:+ nl
  +:+ "📊 SENSOR DATA COMMANDS:" +:+ nl
  +:+ "  • get_sensor_data         - Get the latest sensor readings" +:+ nl
  +:+ "  • get_recent_sensor_data  - Get sensor data from the last minute" +:+ nl +:+ nl
  +:+ "⏰ TIME MANAGEMENT:" +:+ nl
  +:+ "  • get_current_time        - Get the current time from the satellite" +:+ nl
  +:+ "  • set_time <timestamp>    - Set custom time for the satellite" +:+ nl +:+ nl
  +:+ "🔧 SATELLITE CONFIGURATION:" +:+ nl
  +:+ "  • update_light <value>    - Set light level (0-100)" +:+ nl
  +:+ "  • update_min_temp <value> - Set minimum temperature" +:+ nl
  +:+ "  • update_max_temp <value> - Set maximum temperature" +:+ nl
  +:+ "  • update_humidity <value> - Set humidity level (0-100)" +:+ nl
  +:+ "  • update_voltage <value>  - Set voltage level (0.1-3.3V)" +:+ nl +:+ nl
  +:+ "📝 LOG RETRIEVAL:" +:+ nl
  +:+ "  • get_sensor_logs <start> <end> - Request sensor logs between timestamps (MAX 10)" +:+ nl
  +:+ "  • get_events_logs <start> <end> - Request events logs between timestamps (MAX 10)" +:+ nl +:+ nl
  +:+ "ℹ️ HELP:" +:+ nl
  +:+ "  • help                    - Show this help message" +:+ nl +:+ nl.

(** A local declared without initialiser holds [None] until an extraction
    writes it; reading it before that is undefined, which the [option]
    monad of the handlers renders as [None]. *)
Definition handle_request (message : string) (client : nat)
    (st : AltairServer) : option AltairServer :=
  let st := print (ReceivedMessage message) st in
  (* Parse the command from the message *)
  let iss := Stream.open message in
  let '(command, iss) := Stream.get_string iss "" in
  if String.eqb command "get_sensor_data" then
    (* Return the latest sensor data *)
    let response :=
      "Temperature: " +:+ pretty (temp (m_latest_data st)) +:+ "°C, "
      +:+ "Humidity: " +:+ pretty (humid (m_latest_data st)) +:+ "%, "
      +:+ "Light: " +:+ pretty (light (m_latest_data st)) +:+ "%, "
      +:+ "Voltage: " +:+ float_put (voltage (m_latest_data st)) +:+ "V, "
      +:+ "Mode: "
      +:+ PacketParser.get_mode_string (mode (m_latest_data st)) in
    Some (sendMessage client response st)
  else if String.eqb command "get_recent_sensor_data" then
    if 0 <? timestamp (m_latest_data st) then
      let end_time := timestamp (m_latest_data st) in
      let start_time := if 50 <? end_time then end_time - 50 else 0 in
      st ← get_sensor_in_range start_time end_time client st;
      Some (sendMessage client "Retrieving sensor data from the last minute..." st)
    else
      Some (sendMessage client
              "Error: No sensor data available yet. Wait for a beacon." st)
  else if String.eqb command "update_light" then
    (* Parse the light value *)
    let '(light_value, iss) := Stream.get_int iss in
    light_value ← light_value;
    if (0 <=? light_value) && (light_value <=? 100) then
      st ← update_light (u8 light_value) st;
      Some (sendMessage client
              ("Light updated to " +:+ pretty light_value +:+ "%") st)
    else
      Some (sendMessage client "Error: Light value must be between 0 and 100" st)
  else if String.eqb command "update_min_temp" then
    (* Parse the min temp value *)
    let '(min_temp, iss) := Stream.get_int iss in
    if Stream.fail iss then
      Some (sendMessage client "Error: Invalid temperature value" st)
    else
      min_temp ← min_temp;
      st ← update_min_temp (u8 min_temp) st;
      Some (sendMessage client
              ("Minimum temperature updated to " +:+ pretty min_temp +:+ "°C") st)
  else if String.eqb command "update_max_temp" then
    (* Parse the max temp value *)
    let '(max_temp, iss) := Stream.get_int iss in
    if Stream.fail iss then
      Some (sendMessage client "Error: Invalid temperature value" st)
    else
      max_temp ← max_temp;
      st ← update_max_temp (u8 max_temp) st;
      Some (sendMessage client
              ("Maximum temperature updated to " +:+ pretty max_temp +:+ "°C") st)
  else if String.eqb command "update_humidity" then
    (* Parse the humidity value *)
    let '(humidity, iss) := Stream.get_int iss in
    if Stream.fail iss then
      Some (sendMessage client "Error: Invalid humidity value" st)
    else
      humidity ← humidity;
      if (0 <=? humidity) && (humidity <=? 100) then
        st ← update_humidity (u8 humidity) st;
        Some (sendMessage client
                ("Humidity updated to " +:+ pretty humidity +:+ "%") st)
      else
        Some (sendMessage client
                "Error: Humidity value must be between 0 and 100" st)
  else if String.eqb command "update_voltage" then
    (* Parse the voltage value *)
    let '(voltage, iss) := Stream.get_float iss in
    if Stream.fail iss then
      Some (sendMessage client "Error: Invalid voltage value" st)
    else
      voltage ← voltage;
      if float_lt float_3_3 voltage || float_lt voltage float_0_1 then
        Some (sendMessage client
                "Error: Voltage value must be between 0.1 and 3.3" st)
      else
        st ← update_voltage voltage st;
        Some (sendMessage client
                ("Voltage updated to " +:+ float_to_string voltage +:+ "V") st)
  else if String.eqb command "get_sensor_logs" then
    (* Parse start and end timestamps *)
    let '(start, iss) := Stream.get_uint32 iss in
    let '(end_, iss) := Stream.get_uint32 iss in
    if Stream.fail iss then
      Some (sendMessage client
              "Error: Invalid timestamp values. Format: get_logs <start_timestamp> <end_timestamp>"
              st)
    else
      start ← start;
      end_ ← end_;
      st ← get_sensor_in_range start end_ client st;
      Some (sendMessage client
              ("Requested logs between " +:+ pretty start +:+ " and "
               +:+ pretty end_ +:+ ". Processing...") st)
  else if String.eqb command "get_events_logs" then
    (* Parse start and end timestamps *)
    let '(start, iss) := Stream.get_uint32 iss in
    let '(end_, iss) := Stream.get_uint32 iss in
    if Stream.fail iss then
      Some (sendMessage client
              "Error: Invalid timestamp values. Format: get_events_logs <start_timestamp> <end_timestamp>"
              st)
    else
      start ← start;
      end_ ← end_;
      st ← get_event_in_range start end_ client st;
      Some (sendMessage client
              ("Requested logs between " +:+ pretty start +:+ " and "
               +:+ pretty end_ +:+ ". Processing...") st)
  else if String.eqb command "get_current_time" then
    get_current_time client st
  else if String.eqb command "set_time" then
    (* Parse the new time value *)
    let '(new_time, iss) := Stream.get_uint32 iss in
    if Stream.fail iss then
      Some (sendMessage client
              "Error: Invalid time value. Format: set_time <unix_timestamp>" st)
    else
      new_time ← new_time;
      (* Simple validation - don't allow setting time before the latest
         data timestamp *)
      if (0 <? timestamp (m_latest_data st))
         && (new_time <? timestamp (m_latest_data st)) then
        Some (sendMessage client
                ("Error: Cannot set time before the latest sensor data timestamp ("
                 +:+ pretty (timestamp (m_latest_data st)) +:+ ")") st)
      else
        st ← send_custom_time new_time st;
        let new_time_str := PacketParser.format_timestamp new_time in
        Some (sendMessage client
                (nl +:+ "Set custom time to:" +:+ new_time_str +:+ nl) st)
  else if String.eqb command "help" then
    Some (sendMessage client help_message st)
  else
    (* Unknown command *)
    Some (sendMessage client
            ("Unknown command: " +:+ command
             +:+ ". Type 'help' for available commands.") st).

End WithPlatform.
End Server.

(** * Satellite firmware: altair/message_handler.c, tasks/event_task.c

    The other end of the link.  [MessagePacket] and the packet types are
    those of the ground station, and so are the readings and events the
    packets carry.  What the firmware takes from files that are not part of
    the sources is kept as data: a [Queue] (utils/send_queue.c) is the
    sequence of byte strings handed to [Queue_enque], the CMSIS message
    queues and event flags are the sequences of what was put into them, the
    clock ([get_timestamp], DateTime.h) and the sensor log on the card
    (tasks/logger_task.c, whose file naming rests on DateTime.h) are fields
    of [Firmware].  A reading has the fields of the ground station's
    [SensorData] (sensor_data.h is not part of the sources either); what is
    stored into a byte of a packet is reduced to a byte.  Pointers are not
    null. *)

Module Satellite.

Definition HEADER_LEN : Z := 5.
Definition MAX_LOGS : Z := 10.

(** [enum PacketType] *)
Definition PACKET_TYPE_KEEP_ALIVE : Z := 0x01.
Definition PACKET_TYPE_GET_CLOCK : Z := 0x02.
Definition PACKET_TYPE_UPDATE_MIN_TEMP : Z := 0x03.
Definition PACKET_TYPE_UPDATE_HUMIDITY : Z := 0x04.
Definition PACKET_TYPE_UPDATE_VOLTAGE : Z := 0x05.
Definition PACKET_TYPE_UPDATE_LIGHT : Z := 0x06.
Definition PACKET_TYPE_EVENT : Z := 0x07.
Definition PACKET_TYPE_ACK : Z := 0x08.
Definition PACKET_TYPE_NACK : Z := 0x09.
Definition PACKET_TYPE_UPDATE_MAX_TEMP : Z := 0x0A.
Definition PACKET_TYPE_SEND_CLOCK : Z := 0x10.
Definition PACKET_TYPE_SENSOR_LOG : Z := 0x11.
Definition PACKET_TYPE_SENSOR_LOG_END : Z := 0x12.
Definition PACKET_TYPE_REQUEST_SENSOR_LOG : Z := 0x13.
Definition PACKET_TYPE_EVENT_LOG : Z := 0x14.
Definition PACKET_TYPE_EVENT_LOG_END : Z := 0x15.
Definition PACKET_TYPE_REQUEST_EVENT_LOG : Z := 0x16.
Definition PACKET_TYPE_REQUEST_GET_TIME : Z := 0x17.
Definition PACKET_TYPE_RESPONSE_SENT_TIME : Z := 0x18.

(** [enum EventDataExtractionStatus] *)
Definition EVENT_STATUS_SUCCESS : Z := 0.
Definition EVENT_STATUS_INVALID_PARAMS : Z := -1.
Definition EVENT_STATUS_FILE_ERROR : Z := -2.
Definition EVENT_STATUS_PARTIAL_DATA : Z := 1.

(** the [update_attribute] of an [UpdateSetting] *)
Inductive UpdateAttribute :=
  | UPDATE_MIN_TEMP_LIMIT
  | UPDATE_MAX_TEMP_LIMIT
  | UPDATE_HUMIDITY_LIMIT
  | UPDATE_VOLTAGE_LIMIT
  | UPDATE_LIGHT_LIMIT.

(** An [UpdateSetting]: the bytes copied into its zeroed buffer and the
    attribute. *)
Record UpdateSetting := {
  setting_buffer : list Z;
  update_attribute : UpdateAttribute
}.

Inductive Flag := FLAG_SET_TIME.

(** the byte strings handed to [Queue_enque], oldest first *)
Definition Queue : Type := list (list Z).

Record Firmware := {
  (** [osMessageQueuePut(g_flah_limits_change, ...)] *)
  g_flah_limits_change : list UpdateSetting;
  (** [osMessageQueuePut(g_sensor_limits_change, ...)] *)
  g_sensor_limits_change : list UpdateSetting;
  (** [osEventFlagsSet(g_evtID, ...)] *)
  g_evtID : list Flag;
  (** the timestamps handed to [parse_timestamp] and [RTC_SetDateTime] *)
  rtc : list Z;
  (** what [printf] wrote *)
  console : list string;
  (** [get_timestamp()] *)
  clock : Z;
  (** the records [f_read] delivers from 0:/events/event before the file
      ends or a read fails; [None] when the file cannot be opened *)
  event_file : option (list EventData);
  (** [extract_data_between_timestamp(buffer, start, end, max, &n)]: its
      status and the records it stores *)
  sensor_card : Z -> Z -> Z -> Z * list SensorData;
  g_latest_sensor_data : SensorData
}.

Definition put_limits (setting : UpdateSetting) (fw : Firmware) : Firmware :=
  {| g_flah_limits_change := g_flah_limits_change fw ++ [setting];
     g_sensor_limits_change := g_sensor_limits_change fw ++ [setting];
     g_evtID := g_evtID fw; rtc := rtc fw; console := console fw;
     clock := clock fw; event_file := event_file fw;
     sensor_card := sensor_card fw;
     g_latest_sensor_data := g_latest_sensor_data fw |}.

Definition set_rtc (t : Z) (fw : Firmware) : Firmware :=
  {| g_flah_limits_change := g_flah_limits_change fw;
     g_sensor_limits_change := g_sensor_limits_change fw;
     g_evtID := g_evtID fw ++ [FLAG_SET_TIME]; rtc := rtc fw ++ [t];
     console := console fw;
     clock := clock fw; event_file := event_file fw;
     sensor_card := sensor_card fw;
     g_latest_sensor_data := g_latest_sensor_data fw |}.

Definition printf (line : string) (fw : Firmware) : Firmware :=
  {| g_flah_limits_change := g_flah_limits_change fw;
     g_sensor_limits_change := g_sensor_limits_change fw;
     g_evtID := g_evtID fw; rtc := rtc fw;
     console := console fw ++ [line];
     clock := clock fw; event_file := event_file fw;
     sensor_card := sensor_card fw;
     g_latest_sensor_data := g_latest_sensor_data fw |}.

(** [a[i] = v] *)
Definition store (a : nat -> Z) (i : nat) (v : Z) : nat -> Z :=
  fun j => if (j =? i)%nat then v else a j.

(** [memcpy(&dst[at], src, n)] *)
Definition memcpy (dst : nat -> Z) (at_ : nat) (src : nat -> Z) (n : nat)
  : nat -> Z :=
  fun j => if (at_ <=? j)%nat && (j <? at_ + n)%nat
           then src (j - at_)%nat else dst j.

(** the storage of a [uint32_t], lowest address first *)
Definition bytes_of (v : Z) : nat -> Z := byte_of v.

Section WithPlatform.
Context `{Platform}.

(** A [MessagePacket] declared without initialiser, with the five fields
    every sender sets. *)
Definition packet_of (type len id sum : Z) : MessagePacket :=
  {| data_len := len; packetType := type; m_respnse_id := id;
     checksum := sum; buffer := indeterminate; end_mark := END_MARK |}.

Definition with_buffer (buffer' : nat -> Z) (packet : MessagePacket)
  : MessagePacket :=
  {| data_len := data_len packet; packetType := packetType packet;
     m_respnse_id := m_respnse_id packet; checksum := checksum packet;
     buffer := buffer'; end_mark := end_mark packet |}.

Definition with_header (type len id sum : Z) (packet : MessagePacket)
  : MessagePacket :=
  {| data_len := len; packetType := type; m_respnse_id := id;
     checksum := sum; buffer := buffer packet; end_mark := END_MARK |}.

(** [None] stands for the write of [writeBuf[data_len - 1]] outside the
    128 bytes of [writeBuf]. *)
Definition send_message (message : MessagePacket) (queue : Queue)
  : option Queue :=
  let writeBuf := indeterminate in
  let writeBuf := store writeBuf 0 (data_len message) in
  let writeBuf := store writeBuf 1 (packetType message) in
  let writeBuf := store writeBuf 2 (m_respnse_id message) in
  let writeBuf := store writeBuf 3 (checksum message) in
  let writeBuf :=
    if 0 <? data_len message - HEADER_LEN
    then memcpy writeBuf 4 (buffer message)
           (Z.to_nat (data_len message - HEADER_LEN))
    else writeBuf in
  if (data_len message =? 0) || (128 <? data_len message) then None
  else
    let writeBuf := store writeBuf (Z.to_nat (data_len message - 1)) END_MARK in
    Some (queue ++ [map writeBuf (seq 0 (Z.to_nat (data_len message)))]).

Definition send_keep_alive_packet (latest : SensorData) (queue : Queue)
  : option Queue :=
  let packet := packet_of PACKET_TYPE_KEEP_ALIVE 17 0xFF 8 in
  let buffer := buffer packet in
  let buffer := store buffer 0 (u8 (temp latest)) in
  let buffer := store buffer 1 (u8 (humid latest)) in
  let buffer := store buffer 2 (u8 (light latest)) in
  let buffer := store buffer 3 (u8 (mode latest)) in
  let buffer := memcpy buffer 4 (bytes_of (voltage latest)) 4 in
  let buffer := memcpy buffer 8 (bytes_of (timestamp latest)) 4 in
  send_message (with_buffer buffer packet) queue.

Definition send_event_packet (event_data : EventData) (queue : Queue)
  : option Queue :=
  let packet := packet_of PACKET_TYPE_EVENT 10 0xFF 8 in
  let buffer := buffer packet in
  let buffer := store buffer 0 (u8 (event event_data)) in
  let buffer := memcpy buffer 1 (bytes_of (ev_timestamp event_data)) 4 in
  send_message (with_buffer buffer packet) queue.

Definition send_ack (response_id : Z) (send_data : Queue) : option Queue :=
  send_message (packet_of PACKET_TYPE_ACK HEADER_LEN response_id 0) send_data.

Definition send_nack (response_id : Z) (send_data : Queue) : option Queue :=
  send_message (packet_of PACKET_TYPE_NACK HEADER_LEN response_id 0) send_data.

Definition validate_percentage_value (value : Z) : bool := value <=? 100.

Definition update_setting_and_notify (buffer : nat -> Z) (size : nat)
    (attribute : UpdateAttribute) (response_id : Z)
    (send_data : Queue) (fw : Firmware) : option (Queue * Firmware) :=
  let update_setting :=
    {| setting_buffer := map buffer (seq 0 size);
       update_attribute := attribute |} in
  let fw := put_limits update_setting fw in
  send_data ← send_ack response_id send_data;
  Some (send_data, fw).

Definition send_time (response_id : Z) (send_data : Queue) (fw : Firmware)
  : option Queue :=
  let messagePacket :=
    packet_of PACKET_TYPE_RESPONSE_SENT_TIME (4 + HEADER_LEN + 2) response_id 8 in
  let current_time := clock fw in
  let buffer := memcpy (buffer messagePacket) 0 (bytes_of current_time) 4 in
  send_message (with_buffer buffer messagePacket) send_data.

(** [None] stands for a [memcpy] of [data_len - HEADER_LEN] bytes that is
    negative as an [int], or more than [buffer] holds.  The bytes of
    [message] behind the ones received are the platform's. *)
Definition wrap_message (message : list Z) : option MessagePacket :=
  let at_ i := nth i message (beyond i) in
  let len := at_ 0%nat in
  if (len - HEADER_LEN <? 0) || (128 <? len - HEADER_LEN) then None
  else
    Some {| data_len := len; packetType := at_ 1%nat;
            m_respnse_id := at_ 2%nat; checksum := at_ 3%nat;
            buffer := memcpy indeterminate 0 (fun i => at_ (4 + i)%nat)
                        (Z.to_nat (len - HEADER_LEN));
            end_mark := at_ (Z.to_nat (len - 1)) |}.

(** *** tasks/event_task.c *)

(** the read loop of [extract_event_data_between_timestamp]: [buffer] is
    what has been stored so far *)
Fixpoint read_events (file : list EventData) (timestamp_start timestamp_end : Z)
    (max_entries : Z) (buffer : list EventData) : list EventData :=
  match file with
  | [] => buffer
  | data :: file =>
      if timestamp_end <? ev_timestamp data then buffer
      else if timestamp_start <=? ev_timestamp data then
        let buffer := buffer ++ [data] in
        if max_entries <=? Z.of_nat (length buffer) then buffer
        else read_events file timestamp_start timestamp_end max_entries buffer
      else read_events file timestamp_start timestamp_end max_entries buffer
  end.

(** the status, and the entries stored in [buffer] (their number is what
    [entries_read_out] receives; nothing is stored on an error) *)
Definition extract_event_data_between_timestamp
    (file : option (list EventData)) (timestamp_start timestamp_end : Z)
    (max_entries : Z) : Z * list EventData :=
  if (timestamp_end <? timestamp_start) || (max_entries =? 0)
  then (EVENT_STATUS_INVALID_PARAMS, [])
  else
    match file with
    | None => (EVENT_STATUS_FILE_ERROR, [])
    | Some file =>
        let buffer :=
          read_events file timestamp_start timestamp_end max_entries [] in
        if Z.of_nat (length buffer) <? max_entries
        then (EVENT_STATUS_PARTIAL_DATA, buffer)
        else (EVENT_STATUS_SUCCESS, buffer)
    end.

(** *** altair/message_handler.c, continued *)

(** One turn of the loop of [send_event_logs] for the entry [data];
    [event_data] is the array the entries are in. *)
Definition send_event_log (event_data : list EventData)
    (acc : option (MessagePacket * Queue)) (data : EventData)
  : option (MessagePacket * Queue) :=
  '(messagePacket, send_data) ← acc;
  let buffer := store (buffer messagePacket) 0 (u8 (event data)) in
  (* event_data->timestamp: the entry at index 0 *)
  let timestamp :=
    ev_timestamp (nth 0 event_data Server.indeterminate_EventData) in
  let buffer := memcpy buffer 1 (bytes_of timestamp) 4 in
  let messagePacket := with_buffer buffer messagePacket in
  send_data ← send_message messagePacket send_data;
  Some (messagePacket, send_data).

(** [event_data] holds the [len] entries the extraction stored. *)
Definition send_event_logs (event_data : list EventData) (response_id : Z)
    (send_data : Queue) : option Queue :=
  let messagePacket := packet_of PACKET_TYPE_EVENT_LOG 11 response_id 8 in
  sent ← foldl (send_event_log event_data) (Some (messagePacket, send_data))
           event_data;
  let '(messagePacket, send_data) := sent in
  (* Send end marker packet *)
  send_message
    (with_header PACKET_TYPE_EVENT_LOG_END HEADER_LEN response_id 0 messagePacket)
    send_data.

(** one turn of the loop of [send_sensor_logs] *)
Definition send_sensor_log (acc : option (MessagePacket * Queue))
    (data : SensorData) : option (MessagePacket * Queue) :=
  '(messagePacket, send_data) ← acc;
  let buffer := store (buffer messagePacket) 0 (u8 (temp data)) in
  let buffer := store buffer 1 (u8 (humid data)) in
  let buffer := store buffer 2 (u8 (light data)) in
  let buffer := store buffer 3 (u8 (mode data)) in
  let buffer := memcpy buffer 4 (bytes_of (voltage data)) 4 in
  let buffer := memcpy buffer 8 (bytes_of (timestamp data)) 4 in
  let messagePacket := with_buffer buffer messagePacket in
  send_data ← send_message messagePacket send_data;
  Some (messagePacket, send_data).

Definition send_sensor_logs (sensor_data : list SensorData) (response_id : Z)
    (more_data : Z) (send_data : Queue) : option Queue :=
  let messagePacket := packet_of PACKET_TYPE_SENSOR_LOG 17 response_id 8 in
  sent ← foldl send_sensor_log (Some (messagePacket, send_data)) sensor_data;
  let '(messagePacket, send_data) := sent in
  (* Send end marker packet *)
  let messagePacket :=
    with_header PACKET_TYPE_SENSOR_LOG_END (HEADER_LEN + 1) response_id 0
      messagePacket in
  let buffer :=
    store (buffer messagePacket) 0 (if more_data =? 0 then 0 else 1) in
  send_message (with_buffer buffer messagePacket) send_data.

(** the [uint32_t] stored at [buffer + at_] *)
Definition load32 (buffer : nat -> Z) (at_ : nat) : Z :=
  le32 (buffer at_) (buffer (at_ + 1)%nat) (buffer (at_ + 2)%nat)
       (buffer (at_ + 3)%nat).

Definition crlf : string :=
  String (ascii_of_nat 13) (String (ascii_of_nat 10) EmptyString).

Definition handle_get_clock (send_data : Queue) (packet : MessagePacket)
    (fw : Firmware) : option (Queue * Firmware) :=
  let timestamp := load32 (buffer packet) 0 in
  let fw := set_rtc timestamp fw in
  send_data ← send_ack (m_respnse_id packet) send_data;
  Some (send_data, fw).

(** the four handlers of a one-byte limit *)
Definition handle_update_percentage (attribute : UpdateAttribute)
    (send_data : Queue) (packet : MessagePacket) (fw : Firmware)
  : option (Queue * Firmware) :=
  if negb (validate_percentage_value (buffer packet 0%nat)) then
    send_data ← send_nack (m_respnse_id packet) send_data;
    Some (send_data, fw)
  else
    update_setting_and_notify (buffer packet) 1 attribute
      (m_respnse_id packet) send_data fw.

Definition handle_update_min_temp := handle_update_percentage UPDATE_MIN_TEMP_LIMIT.
Definition handle_update_max_temp := handle_update_percentage UPDATE_MAX_TEMP_LIMIT.
Definition handle_update_humidity := handle_update_percentage UPDATE_HUMIDITY_LIMIT.
Definition handle_update_light := handle_update_percentage UPDATE_LIGHT_LIMIT.

Definition handle_update_voltage (send_data : Queue) (packet : MessagePacket)
    (fw : Firmware) : option (Queue * Firmware) :=
  update_setting_and_notify (buffer packet) 4 UPDATE_VOLTAGE_LIMIT
    (m_respnse_id packet) send_data fw.

Definition handle_request_sensor_log (send_data : Queue)
    (packet : MessagePacket) (fw : Firmware) : option (Queue * Firmware) :=
  let start_timestamp := load32 (buffer packet) 0 in
  let end_timestamp := load32 (buffer packet) 4 in
  let '(res, sensor_data) :=
    sensor_card fw start_timestamp end_timestamp MAX_LOGS in
  if 0 <=? res then
    let total_logs := Z.of_nat (length sensor_data) in
    let fw := printf ("EXTRACTED data " +:+ pretty total_logs +:+ " " +:+ crlf) fw in
    send_data ← send_sensor_logs sensor_data (m_respnse_id packet) (u8 res)
                  send_data;
    Some (send_data, fw)
  else
    send_data ← send_nack (m_respnse_id packet) send_data;
    Some (send_data, fw).

Definition handle_request_event_log (send_data : Queue)
    (packet : MessagePacket) (fw : Firmware) : option (Queue * Firmware) :=
  let event_start_timestamp := load32 (buffer packet) 0 in
  let event_end_timestamp := load32 (buffer packet) 4 in
  let '(event_res, event_data) :=
    extract_event_data_between_timestamp (event_file fw)
      event_start_timestamp event_end_timestamp MAX_LOGS in
  if 0 <=? event_res then
    let total_event_logs := Z.of_nat (length event_data) in
    let fw := printf ("EXTRACTED Events data " +:+ pretty total_event_logs
                      +:+ " " +:+ crlf) fw in
    send_data ← send_event_logs event_data (m_respnse_id packet) send_data;
    Some (send_data, fw)
  else
    send_data ← send_nack (m_respnse_id packet) send_data;
    Some (send_data, fw).

Definition handle_request_get_time (send_data : Queue)
    (packet : MessagePacket) (fw : Firmware) : option (Queue * Firmware) :=
  send_data ← send_time (m_respnse_id packet) send_data fw;
  Some (send_data, fw).

(** Main message handler function (its [len] argument is not used) *)
Definition altair_message_handler (send_data : Queue) (message : list Z)
    (fw : Firmware) : option (Queue * Firmware) :=
  packet ← wrap_message message;
  let type := packetType packet in
  if type =? PACKET_TYPE_GET_CLOCK then handle_get_clock send_data packet fw
  else if type =? PACKET_TYPE_UPDATE_MIN_TEMP
  then handle_update_min_temp send_data packet fw
  else if type =? PACKET_TYPE_UPDATE_MAX_TEMP
  then handle_update_max_temp send_data packet fw
  else if type =? PACKET_TYPE_UPDATE_HUMIDITY
  then handle_update_humidity send_data packet fw
  else if type =? PACKET_TYPE_UPDATE_VOLTAGE
  then handle_update_voltage send_data packet fw
  else if type =? PACKET_TYPE_UPDATE_LIGHT
  then handle_update_light send_data packet fw
  else if type =? PACKET_TYPE_REQUEST_SENSOR_LOG
  then handle_request_sensor_log send_data packet fw
  else if type =? PACKET_TYPE_REQUEST_EVENT_LOG
  then handle_request_event_log send_data packet fw
  else if type =? PACKET_TYPE_REQUEST_GET_TIME
  then handle_request_get_time send_data packet fw
  else Some (send_data, fw).

End WithPlatform.
End Satellite.

(** * Vocabulary of the properties *)

(** [r] splits [v] into a prefix on which [p] holds and a rest on which it
    fails. *)
Definition partition_point {A : Type} `{Inhabited A} (v : list A)
    (p : A -> bool) (r : nat) : Prop :=
  (r <= length v)%nat
  /\ (forall i, (i < r)%nat -> p (v !!! i) = true)
  /\ (forall i, (r <= i < length v)%nat -> p (v !!! i) = false).

(** strictly ascending timestamps *)
Definition sorted_index (l : list SensorData) : Prop :=
  forall i j, (i < j)%nat -> (j < length l)%nat ->
    timestamp (l !!! i) < timestamp (l !!! j).

(** the vectors [m_sensor_data] can hold: empty after construction and
    after [clear], and changed by [insertSensorData] only *)
Inductive reachable_index : list SensorData -> Prop :=
  | reachable_empty : reachable_index []
  | reachable_insert data l :
      reachable_index l ->
      reachable_index (snd (ServerDataManager.insertSensorData data l)).

(** a reading taken at [t], every other field zero *)
Definition reading (t : Z) : SensorData :=
  {| timestamp := t; temp := 0; humid := 0; light := 0; mode := 0;
     voltage := 0 |}.

(** A platform on which storage that was never written reads as zero. *)
Definition zeroed : Platform := {|
  beyond := fun _ => 0;
  indeterminate := fun _ => 0;
  strftime_local := fun t => pretty t;
  float_put := fun bits => pretty bits;
  float_put_fixed2 := fun bits => pretty bits;
  float_to_string := fun bits => pretty bits;
  float_get := fun cs => (None, cs);
  float_lt := Z.ltb
|}.

(** The server as its constructor leaves it, the clock reading [now]. *)
Definition constructed (now : Z) : AltairServer := {|
  m_connection := [];
  m_latest_data := reading 0;
  m_id_generator := 0;
  m_tcp_server := [];
  m_request_clients := ∅;
  m_sensor_data_manager := [];
  cout := [];
  system_clock := now
|}.

(** the handler registered for the type of [frame], called on [frame] and
    its [response_id] *)
Definition dispatch `{Platform}
    (m_response_handlers : gmap Z Server.ResponseHandler)
    (frame : list Z) (st : AltairServer) : option AltairServer :=
  match m_response_handlers !! nth 1 frame 0 with
  | Some handler => handler frame (nth 2 frame 0) st
  | None => Some (Server.print (UnknownResponseType (nth 1 frame 0)) st)
  end.


(** the beacon of 17 bytes: 20 degrees, 45 and 50 percent, mode OK,
    2.1 volts, taken at 10000000 *)
Definition beacon_frame : list Z :=
  [0x11; 0x01; 0xFF; 0x08; 0x14; 0x2D; 0x32; 0x03; 0x66; 0x66; 0x06; 0x40;
   0x80; 0x96; 0x98; 0x00; 0x55].

(** the nine bytes left of an event packet once its length byte, a line
    feed, has been read as an empty debug line: event INIT at 10000000 *)
Definition event_tail : list Z :=
  [0x07; 0xFF; 0x08; 0x03; 0x80; 0x96; 0x98; 0x00; 0x55].

(** the ids that [n] consecutive calls of [generateID] hand out, and the
    counter after them *)
Fixpoint generate (n : nat) (current_id : Z) : list Z * Z :=
  match n with
  | O => ([], current_id)
  | S n' =>
    let '(id, current_id) := IDGenerator.generateID current_id in
    let '(ids, current_id) := generate n' current_id in
    (id :: ids, current_id)
  end.

(** One call of the outbound interface of the server. *)
Inductive Outbound :=
  | SendValue (sizeof_T : nat) (type value : Z)
  | GetCurrentTime (client : nat)
  | GetEventInRange (start end_ : Z) (client : nat)
  | GetSensorInRange (start end_ : Z) (client : nat).

Definition run_outbound `{Platform} (call : Outbound) (st : AltairServer)
  : option AltairServer :=
  match call with
  | SendValue sizeof_T type value => Server.send_value sizeof_T type value st
  | GetCurrentTime client => Server.get_current_time client st
  | GetEventInRange start end_ client =>
      Server.get_event_in_range start end_ client st
  | GetSensorInRange start end_ client =>
      Server.get_sensor_in_range start end_ client st
  end.

(** A debug line as the satellite prints it: a letter, then bytes other
    than line feed, then the line feed. *)
Definition text_line (line : list Z) : Prop :=
  exists first rest,
    line = first :: rest ++ [10]
    /\ Server.isalpha first = true
    /\ Forall (fun c => c <> 10) rest.

(** A binary frame the loop can reassemble: it starts with a length byte
    that is no letter, no line feed and not zero, it ends with the end
    marker at or behind the declared length, and every end marker before
    the last byte comes before the declared length is reached. *)
Definition binary_frame (frame : list Z) : Prop :=
  exists n body,
    frame = n :: body ++ [END_MARK]
    /\ n <> 0 /\ Server.isalpha n = false /\ n <> 10
    /\ n <= Z.of_nat (length frame)
    /\ forall i, body !! i = Some END_MARK -> Z.of_nat i + 2 < n.

(** the client a call of the outbound interface waits for a reply with,
    if it is one of the correlated requests *)
Definition correlated (call : Outbound) : option nat :=
  match call with
  | SendValue _ _ _ => None
  | GetCurrentTime client => Some client
  | GetEventInRange _ _ client => Some client
  | GetSensorInRange _ _ client => Some client
  end.

(** the payload of a call fits the 128 bytes of [MessagePacket::buffer] *)
Definition fits (call : Outbound) : Prop :=
  match call with SendValue n _ _ => (n <= 128)%nat | _ => True end.

(** the frame [handle_response] classifies: a 9-byte frame gets its
    length byte back *)
Definition compensated (frame : list Z) : list Z :=
  if (length frame =? 9)%nat then 10 :: frame else frame.

(** the response types that have a handler *)
Definition handled_types : list Z :=
  [TIME_REQUEST; SENSOR_LOG; TOTAL_LOGS; ACK; NACK; EVENT; EVENT_LOG;
   EVENT_LOG_END; RESPONSE_CURRENT_TIME; BEACON].

(** the text an operator gets with the reply that ends a request *)
Definition terminal_text (type : Z) : option string :=
  if type =? ACK then Some "Sucess operation"
  else if type =? NACK then Some "Request failed. Please try again."
  else if type =? TOTAL_LOGS
  then Some ("Completed retrieval of sensor logs." +:+ nl)
  else if type =? EVENT_LOG_END
  then Some (nl +:+ "Completed retrieval of events logs." +:+ nl)
  else None.

(** a packet as the link should carry it: well formed, and without the
    reserved id *)
Definition well_formed (frame : list Z) : Prop :=
  PacketParser.is_valid_response frame = true /\ nth 2 frame 0 <> 0xFF.

(** what the listen loop and every operator request keep of the server *)
Definition server_invariant (st : AltairServer) : Prop :=
  reachable_index (m_sensor_data_manager st)
  /\ 0 <= m_id_generator st < 256
  /\ Forall well_formed (m_connection st).

(** the limit a one-byte update packet sets on the satellite *)
Definition percentage_update (type : Z) : option Satellite.UpdateAttribute :=
  if type =? UPDATE_MIN_TEMP then Some Satellite.UPDATE_MIN_TEMP_LIMIT
  else if type =? UPDATE_MAX_TEMP then Some Satellite.UPDATE_MAX_TEMP_LIMIT
  else if type =? UPDATE_HUMIDITY then Some Satellite.UPDATE_HUMIDITY_LIMIT
  else if type =? UPDATE_LIGHT then Some Satellite.UPDATE_LIGHT_LIMIT
  else None.

(** the event [data] lies in the queried range *)
Definition in_range (timestamp_start timestamp_end : Z) (data : EventData)
  : bool :=
  (timestamp_start <=? ev_timestamp data)
  && (ev_timestamp data <=? timestamp_end).

(** the events of a file are in the order of their timestamps *)
Definition chronological (file : list EventData) : Prop :=
  forall i j a b, (i < j)%nat -> file !! i = Some a -> file !! j = Some b ->
    ev_timestamp a <= ev_timestamp b.

(** The firmware with nothing logged yet: an empty event file, no sensor
    log on the card, the clock reading [now]. *)
Definition booted (now : Z) : Satellite.Firmware := {|
  Satellite.g_flah_limits_change := [];
  Satellite.g_sensor_limits_change := [];
  Satellite.g_evtID := [];
  Satellite.rtc := [];
  Satellite.console := [];
  Satellite.clock := now;
  Satellite.event_file := Some [];
  Satellite.sensor_card := fun _ _ _ => (1, []);   (* STATUS_PARTIAL_DATA *)
  Satellite.g_latest_sensor_data := reading 0
|}.

(** the command words [handle_request] knows *)
Definition known_commands : list string :=
  ["get_sensor_data"; "get_recent_sensor_data"; "update_light";
   "update_min_temp"; "update_max_temp"; "update_humidity"; "update_voltage";
   "get_sensor_logs"; "get_events_logs"; "get_current_time"; "set_time";
   "help"]%string.

(** the first word of a message and the stream behind it *)
Definition command_of (message : string) : string * Stream.t :=
  Stream.get_string (Stream.open message) "".

(** * Properties *)

(** Turn the boolean comparisons on [nat] among the hypotheses into
    propositions. *)
Ltac reflect_nat :=
  repeat match goal with
         | Hx : (_ <? _)%nat = true |- _ => apply Nat.ltb_lt in Hx
         | Hx : (_ <? _)%nat = false |- _ => apply Nat.ltb_ge in Hx
         | Hx : (_ =? _)%nat = true |- _ => apply Nat.eqb_eq in Hx
         | Hx : (_ =? _)%nat = false |- _ => apply Nat.eqb_neq in Hx
         end.

(** A search range of length [len], known to be 0, is its own partition
    point. *)
Ltac empty_range len Hlo Hhi :=
  let i := fresh "i" in
  let Hi := fresh "Hi" in
  assert (len = 0%nat) as -> by lia;
  repeat split; [lia | exact Hlo | intros i Hi; apply Hhi; lia].

(** ** Binary search returns the partition point *)

Section SearchFacts.
Context {A B : Type} `{Inhabited A}.
Variables (v : list A) (p : A -> bool).

Lemma partition_point_unique r1 r2 :
  partition_point v p r1 -> partition_point v p r2 -> r1 = r2.
Proof.
  intros (Hl1 & Ht1 & Hf1) (Hl2 & Ht2 & Hf2).
  destruct (Nat.lt_trichotomy r1 r2) as [Hlt | [-> | Hlt]]; [| reflexivity |].
  - specialize (Ht2 r1 Hlt). rewrite Hf1 in Ht2 by lia. discriminate.
  - specialize (Ht1 r2 Hlt). rewrite Hf2 in Ht1 by lia. discriminate.
Qed.

(** the precondition of the two algorithms *)
Hypothesis partitioned : forall i j,
  (i <= j)%nat -> (j < length v)%nat -> p (v !!! j) = true -> p (v !!! i) = true.

Lemma lower_bound_loop_point (comp : A -> B -> bool) (val : B) :
  (forall a, comp a val = p a) ->
  forall fuel first len,
    (len <= fuel)%nat -> (first + len <= length v)%nat ->
    (forall i, (i < first)%nat -> p (v !!! i) = true) ->
    (forall i, (first + len <= i < length v)%nat -> p (v !!! i) = false) ->
    partition_point v p (Std.lower_bound_loop comp v val fuel first len).
Proof.
  intros Hcomp. induction fuel as [| fuel IH]; intros first len Hfuel Hlen Hlo Hhi.
  - simpl. empty_range len Hlo Hhi.
  - cbn [Std.lower_bound_loop Std.upper_bound_loop]. destruct (0 <? len)%nat eqn:Hpos.
    + apply Nat.ltb_lt in Hpos.
      pose proof (Nat.lt_div2 len Hpos) as Hhalf.
      remember (Nat.div2 len) as half eqn:Ehalf. clear Ehalf.
      rewrite Hcomp. destruct (p (v !!! (first + half)%nat)) eqn:Hmid.
      * apply IH; [lia | lia | | ].
        -- intros i Hi. apply (partitioned i (first + half)%nat); [lia | lia | exact Hmid].
        -- intros i Hi. apply Hhi. lia.
      * apply IH; [lia | lia | exact Hlo |].
        intros i Hi. destruct (p (v !!! i)) eqn:Hpi; [| reflexivity].
        rewrite (partitioned (first + half)%nat i) in Hmid; [discriminate | lia | lia | exact Hpi].
    + apply Nat.ltb_ge in Hpos. empty_range len Hlo Hhi.
Qed.

Lemma upper_bound_loop_point (comp : B -> A -> bool) (val : B) :
  (forall a, comp val a = negb (p a)) ->
  forall fuel first len,
    (len <= fuel)%nat -> (first + len <= length v)%nat ->
    (forall i, (i < first)%nat -> p (v !!! i) = true) ->
    (forall i, (first + len <= i < length v)%nat -> p (v !!! i) = false) ->
    partition_point v p (Std.upper_bound_loop comp v val fuel first len).
Proof.
  intros Hcomp. induction fuel as [| fuel IH]; intros first len Hfuel Hlen Hlo Hhi.
  - simpl. empty_range len Hlo Hhi.
  - cbn [Std.lower_bound_loop Std.upper_bound_loop]. destruct (0 <? len)%nat eqn:Hpos.
    + apply Nat.ltb_lt in Hpos.
      pose proof (Nat.lt_div2 len Hpos) as Hhalf.
      remember (Nat.div2 len) as half eqn:Ehalf. clear Ehalf.
      rewrite Hcomp. destruct (p (v !!! (first + half)%nat)) eqn:Hmid; cbn [negb].
      * apply IH; [lia | lia | | ].
        -- intros i Hi. apply (partitioned i (first + half)%nat); [lia | lia | exact Hmid].
        -- intros i Hi. apply Hhi. lia.
      * apply IH; [lia | lia | exact Hlo |].
        intros i Hi. destruct (p (v !!! i)) eqn:Hpi; [| reflexivity].
        rewrite (partitioned (first + half)%nat i) in Hmid; [discriminate | lia | lia | exact Hpi].
    + apply Nat.ltb_ge in Hpos. empty_range len Hlo Hhi.
Qed.

Lemma lower_bound_point (comp : A -> B -> bool) (val : B) :
  (forall a, comp a val = p a) -> partition_point v p (Std.lower_bound comp v val).
Proof.
  intros Hcomp. unfold Std.lower_bound.
  apply lower_bound_loop_point; [exact Hcomp | lia | lia | lia | lia].
Qed.

Lemma upper_bound_point (comp : B -> A -> bool) (val : B) :
  (forall a, comp val a = negb (p a)) -> partition_point v p (Std.upper_bound comp v val).
Proof.
  intros Hcomp. unfold Std.upper_bound.
  apply upper_bound_loop_point; [exact Hcomp | lia | lia | lia | lia].
Qed.

End SearchFacts.

(** ** The sensor index *)

Section IndexFacts.

Lemma sorted_below_partitioned l t :
  sorted_index l ->
  forall i j, (i <= j)%nat -> (j < length l)%nat ->
    (timestamp (l !!! j) <? t) = true -> (timestamp (l !!! i) <? t) = true.
Proof.
  intros Hs i j Hij Hj Hlt. apply Z.ltb_lt in Hlt. apply Z.ltb_lt.
  destruct (decide (i = j)) as [-> | Hne]; [exact Hlt |].
  pose proof (Hs i j ltac:(lia) Hj). lia.
Qed.

Lemma sorted_upto_partitioned l t :
  sorted_index l ->
  forall i j, (i <= j)%nat -> (j < length l)%nat ->
    (timestamp (l !!! j) <=? t) = true -> (timestamp (l !!! i) <=? t) = true.
Proof.
  intros Hs i j Hij Hj Hle. apply Z.leb_le in Hle. apply Z.leb_le.
  destruct (decide (i = j)) as [-> | Hne]; [exact Hle |].
  pose proof (Hs i j ltac:(lia) Hj). lia.
Qed.

(** [lower_bound] on a sorted index: the number of readings before [t] *)
Lemma lower_bound_sorted {B} (key : B -> Z) l (val : B) :
  sorted_index l ->
  partition_point l (fun a => timestamp a <? key val)
    (Std.lower_bound (fun a b => timestamp a <? key b) l val).
Proof.
  intros Hs. apply lower_bound_point.
  - apply sorted_below_partitioned, Hs.
  - reflexivity.
Qed.

(** [upper_bound] on a sorted index: the number of readings up to [t] *)
Lemma upper_bound_sorted l (t : Z) :
  sorted_index l ->
  partition_point l (fun a => timestamp a <=? t)
    (Std.upper_bound (fun t' a => t' <? timestamp a) l t).
Proof.
  intros Hs. apply upper_bound_point.
  - apply sorted_upto_partitioned, Hs.
  - intros a. cbn beta. rewrite Z.leb_antisym, negb_involutive. reflexivity.
Qed.

Lemma insertSensorData_true data l :
  fst (ServerDataManager.insertSensorData data l) = true.
Proof.
  unfold ServerDataManager.insertSensorData.
  destruct (_ && _); reflexivity.
Qed.

(** a reading whose timestamp is stored at position [j] changes nothing *)
Lemma insertSensorData_present data l j :
  sorted_index l -> (j < length l)%nat ->
  timestamp (l !!! j) = timestamp data ->
  ServerDataManager.insertSensorData data l = (true, l).
Proof.
  intros Hs Hj Heq. unfold ServerDataManager.insertSensorData.
  destruct (lower_bound_sorted timestamp l data Hs) as (Hle & Ht & Hf).
  set (pos := Std.lower_bound _ l data) in *.
  assert (pos <= j)%nat as Hpos.
  { destruct (le_lt_dec pos j) as [Hok | Hbad]; [exact Hok |].
    specialize (Ht j Hbad). apply Z.ltb_lt in Ht. lia. }
  assert ((pos =? length l)%nat = false) as -> by (apply Nat.eqb_neq; lia).
  specialize (Hf pos ltac:(lia)). apply Z.ltb_ge in Hf.
  assert (timestamp (l !!! pos) <= timestamp (l !!! j)) as Hup.
  { destruct (decide (pos = j)) as [-> | Hne]; [lia |].
    pose proof (Hs pos j ltac:(lia) Hj). lia. }
  assert ((timestamp (l !!! pos) =? timestamp data) = true) as ->
    by (apply Z.eqb_eq; lia).
  reflexivity.
Qed.

(** the index stays strictly sorted *)
Lemma insertSensorData_sorted data l :
  sorted_index l -> sorted_index (snd (ServerDataManager.insertSensorData data l)).
Proof.
  intros Hs. unfold ServerDataManager.insertSensorData.
  destruct (lower_bound_sorted timestamp l data Hs) as (Hle & Ht & Hf).
  set (pos := Std.lower_bound _ l data) in *.
  destruct (_ && _) eqn:Hdup; [exact Hs |]. cbn [snd].
  assert (forall i, (pos <= i < length l)%nat ->
            timestamp data < timestamp (l !!! i)) as Habove.
  { intros i Hi.
    assert (timestamp data < timestamp (l !!! pos)) as Hfirst.
    { pose proof (Hf pos ltac:(lia)) as Hge. apply Z.ltb_ge in Hge.
      apply andb_false_iff in Hdup as [Hend | Hne].
      - apply negb_false_iff, Nat.eqb_eq in Hend. lia.
      - apply Z.eqb_neq in Hne. lia. }
    destruct (decide (pos = i)) as [<- | Hne]; [exact Hfirst |].
    pose proof (Hs pos i ltac:(lia) ltac:(lia)). lia. }
  assert (forall k, (k < length l + 1)%nat ->
            (take pos l ++ data :: drop pos l) !!! k =
            if (k <? pos)%nat then l !!! k
            else if (k =? pos)%nat then data else l !!! (k - 1)%nat) as Hget.
  { intros k Hk. destruct (k <? pos)%nat eqn:Hlt.
    - apply Nat.ltb_lt in Hlt.
      rewrite lookup_total_app_l by (rewrite length_take; lia).
      apply lookup_total_take_lt. exact Hlt.
    - apply Nat.ltb_ge in Hlt.
      rewrite lookup_total_app_r by (rewrite length_take; lia).
      rewrite length_take, Nat.min_l by lia.
      destruct (k =? pos)%nat eqn:Heq.
      + apply Nat.eqb_eq in Heq. subst k. rewrite Nat.sub_diag. reflexivity.
      + apply Nat.eqb_neq in Heq.
        rewrite lookup_total_cons_ne_0 by lia.
        rewrite lookup_total_drop. f_equal. lia. }
  intros i j Hij Hj.
  rewrite length_app, length_take, Nat.min_l in Hj by lia.
  cbn [length] in Hj. rewrite length_drop in Hj.
  rewrite !Hget by lia.
  destruct (i <? pos)%nat eqn:Hi; destruct (j <? pos)%nat eqn:Hjp;
    destruct (i =? pos)%nat eqn:Hie; destruct (j =? pos)%nat eqn:Hje;
    reflect_nat; try lia.
  - apply Hs; lia.
  - pose proof (Ht i Hi) as Hb. apply Z.ltb_lt in Hb. exact Hb.
  - pose proof (Ht i Hi) as Hb. apply Z.ltb_lt in Hb.
    pose proof (Habove (j - 1)%nat ltac:(lia)). lia.
  - apply Habove. lia.
  - apply Hs; lia.
Qed.

Lemma reachable_sorted l : reachable_index l -> sorted_index l.
Proof.
  induction 1 as [| data l _ IH].
  - intros i j _ Hj. cbn in Hj. lia.
  - apply insertSensorData_sorted, IH.
Qed.

End IndexFacts.

(** ** The packet parser *)

Section ParserFacts.
Context `{Platform}.

(** the indices [parse_sensor_data] reads *)
Lemma parse_sensor_data_accesses response data :
  Access.accesses (PacketParser.parse_sensor_data response data) =
    if (length response =? 0)%nat then []
    else if (15 <? length response)%nat
    then [4; 5; 6; 7; 8; 9; 10; 11; 12; 13; 14; 15]%nat
    else [4; 5; 6; 7; 8; 9; 10; 11]%nat.
Proof.
  unfold PacketParser.parse_sensor_data.
  destruct (length response =? 0)%nat; [reflexivity |].
  cbn [Nat.add]. destruct (15 <? length response)%nat; reflexivity.
Qed.

(** twelve bytes are enough for every read of [parse_sensor_data] *)
Lemma parse_sensor_data_in_bounds response data :
  (12 <= length response)%nat ->
  Access.in_bounds response (PacketParser.parse_sensor_data response data) = true.
Proof.
  intros Hlen. unfold Access.in_bounds. rewrite parse_sensor_data_accesses.
  assert ((length response =? 0)%nat = false) as -> by (apply Nat.eqb_neq; lia).
  destruct (15 <? length response)%nat eqn:Hlong; reflect_nat;
    apply forallb_forall; intros i Hi; apply Nat.ltb_lt;
    cbn [In] in Hi; intuition lia.
Qed.

(** C10: [parse_sensor_data] reads only inside [response] exactly when
    [response] is empty or at least 12 bytes long, and reads outside it for
    every other input, the emptiness test being its only guard; it writes
    [timestamp] exactly when there are at least 16 bytes and keeps the old
    value otherwise, and writes [temp], [humid], [light], [mode] and
    [voltage] from the bytes at 4..11 for every non-empty input. *)
Theorem parse_sensor_data_bounds (response : list Z) (data : SensorData) :
  let parsed := PacketParser.parse_sensor_data response data in
  let at_ i := nth i response (beyond i) in
  (Access.in_bounds response parsed = true
     <-> response = [] \/ (12 <= length response)%nat)
  /\ (Access.out_of_bounds response parsed = true
     <-> response <> [] /\ (length response < 12)%nat)
  /\ timestamp (Access.result parsed) =
       (if (16 <=? length response)%nat
        then le32 (at_ 12%nat) (at_ 13%nat) (at_ 14%nat) (at_ 15%nat)
        else timestamp data)
  /\ (temp (Access.result parsed), humid (Access.result parsed),
      light (Access.result parsed), mode (Access.result parsed),
      voltage (Access.result parsed)) =
       (if (length response =? 0)%nat
        then (temp data, humid data, light data, mode data, voltage data)
        else (at_ 4%nat, at_ 5%nat, at_ 6%nat, at_ 7%nat,
              le32 (at_ 8%nat) (at_ 9%nat) (at_ 10%nat) (at_ 11%nat))).
Proof.
  cbn zeta. unfold Access.in_bounds, Access.out_of_bounds.
  rewrite parse_sensor_data_accesses.
  unfold PacketParser.parse_sensor_data.
  do 16 (destruct response as [| ? response];
         [ cbn; repeat split; try reflexivity; try discriminate;
           intuition (try discriminate; try lia) | ]).
  cbn; repeat split; try reflexivity; try discriminate;
    intuition (try discriminate; try lia).
Qed.

End ParserFacts.

(** ** The dispatcher *)

Section DispatcherFacts.
Context `{Platform}.
Import Server.

Lemma checked_index (v : list Z) (i : nat) :
  (i < length v)%nat ->
  Access.checked v (Access.index v i) = Some (nth i v 0).
Proof.
  intros Hi. unfold Access.checked, Access.in_bounds, Access.index.
  cbn [Access.accesses Access.result forallb].
  apply Nat.ltb_lt in Hi as Hb. rewrite Hb. cbn [andb].
  f_equal. apply nth_indep. exact Hi.
Qed.

(** [handle_response] on a frame that has a header *)
Lemma handle_response_dispatch handlers response st :
  (5 <= length response)%nat ->
  handle_response handlers response st =
    dispatch handlers
      (if (length response =? 9)%nat then 10 :: response else response) st.
Proof.
  intros Hlen. unfold handle_response, dispatch, PACKET_HEADER_SIZE.
  assert ((Z.of_nat (length response) <? 5) = false) as -> by (apply Z.ltb_ge; lia).
  set (frame := if (length response =? 9)%nat then 10 :: response else response).
  assert (5 <= length frame)%nat as Hframe.
  { subst frame. destruct (length response =? 9)%nat; cbn [length]; lia. }
  rewrite !checked_index by lia. reflexivity.
Qed.

(** C1: a frame of exactly 9 bytes reaches its handler as the 10-byte
    frame that starts with the byte 10 and continues with the 9 bytes
    received; a frame of any other length of at least 5 reaches it as it
    is. *)
Theorem handle_response_length_9 (handlers : gmap Z ResponseHandler)
    (response : list Z) (st : AltairServer) :
  (5 <= length response)%nat ->
  exists frame,
    handle_response handlers response st = dispatch handlers frame st
    /\ (length response = 9%nat ->
          length frame = 10%nat /\ frame !! 0%nat = Some 10
          /\ forall i, frame !! S i = response !! i)
    /\ (length response <> 9%nat -> frame = response).
Proof.
  intros Hlen. rewrite handle_response_dispatch by exact Hlen.
  destruct (length response =? 9)%nat eqn:Hnine.
  - apply Nat.eqb_eq in Hnine. exists (10 :: response).
    split; [reflexivity |]. split; [| intros Hne; contradiction].
    intros _. cbn [length]. rewrite Hnine. repeat split; reflexivity.
  - apply Nat.eqb_neq in Hnine. exists response.
    split; [reflexivity |]. split; [intros Heq; contradiction | reflexivity].
Qed.

(** C2: while a binary frame is being accumulated (the first byte of the
    accumulator is neither a letter nor a line feed), the byte [c] ends
    the frame and hands it to [handle_response] exactly when [c] is the
    end marker and the length with [c] included has reached the first
    byte; in every other case, an early end marker among them, [c] is
    appended and nothing is dispatched. *)
Theorem listen_binary_frame
    (on_frame : list Z -> AltairServer -> option AltairServer)
    (response : list Z) (first c : Z) (st : AltairServer) :
  response !! 0%nat = Some first ->
  isalpha first = false -> first <> 10 ->
  listen_iteration on_frame (Some c) (response, st) =
    if (c =? END_MARK) && (first <=? Z.of_nat (length response) + 1)
    then st' ← on_frame (response ++ [c]) st; Some ([], st')
    else Some (response ++ [c], st).
Proof.
  intros Hfirst Halpha Hlf. unfold listen_iteration.
  destruct response as [| b rest]; [discriminate |].
  cbn in Hfirst. injection Hfirst as ->.
  rewrite bool_decide_eq_false_2 by discriminate. rewrite andb_false_r.
  rewrite checked_index by (cbn [length app]; lia).
  cbn [app nth mbind option_bind]. rewrite Halpha.
  assert ((first =? 10) = false) as -> by (apply Z.eqb_neq; exact Hlf).
  cbn [orb].
  replace (Z.of_nat (length (first :: rest ++ [c])))
    with (Z.of_nat (length (first :: rest)) + 1)
    by (cbn [length]; rewrite length_app; cbn [length]; lia).
  destruct (c =? END_MARK); [| reflexivity].
  cbn [andb]. destruct (first <=? _); reflexivity.
Qed.

End DispatcherFacts.

(** ** The correlator and the outbound path *)

Section CorrelatorFacts.
Context `{Platform}.
Import Server.

Lemma handler_of_ACK : init_response_handlers !! ACK = Some handle_ack.
Proof. reflexivity. Qed.

Lemma handler_of_BEACON : init_response_handlers !! BEACON = Some handle_beacon.
Proof. reflexivity. Qed.

(** an ACK for a registered id: one message to its client, entry erased *)
Lemma handle_ack_registered response id client st :
  m_request_clients st !! id = Some client ->
  handle_ack response id st =
    Some (erase id (sendMessage client "Sucess operation" st)).
Proof. intros Hreg. unfold handle_ack. rewrite Hreg. reflexivity. Qed.

(** an ACK for an id nobody waits for changes nothing *)
Lemma handle_ack_unregistered response id st :
  m_request_clients st !! id = None -> handle_ack response id st = Some st.
Proof. intros Hreg. unfold handle_ack. rewrite Hreg. reflexivity. Qed.

(** C3: an ACK frame for an id with a pending operator sends that
    operator one message, removes the entry of the id, and a second ACK
    with the id sends nothing; the message is the text "Sucess operation"
    and so not the text "Success operation". *)
Theorem ack_text_is_misspelt (st : AltairServer) (id : Z) (client : nat) :
  let ack := [5; ACK; id; 0; END_MARK] in
  let pending := register id client st in
  exists st',
    handle_response init_response_handlers ack pending = Some st'
    /\ m_tcp_server st' = m_tcp_server st ++ [(client, "Sucess operation"%string)]
    /\ m_tcp_server st' <> m_tcp_server st ++ [(client, "Success operation"%string)]
    /\ m_request_clients st' !! id = None
    /\ handle_response init_response_handlers ack st' = Some st'.
Proof.
  cbn zeta.
  exists (erase id (sendMessage client "Sucess operation" (register id client st))).
  rewrite !handle_response_dispatch by (cbn; lia).
  unfold dispatch. cbn [length Nat.eqb nth]. rewrite handler_of_ACK.
  split.
  { apply handle_ack_registered. cbn. apply lookup_insert_eq. }
  split; [reflexivity |].
  split.
  { cbn [erase sendMessage register set_request_clients m_tcp_server].
    intros Heq. apply app_inv_head in Heq. discriminate. }
  split.
  { cbn. apply lookup_delete_eq. }
  apply handle_ack_unregistered. cbn. apply lookup_delete_eq.
Qed.

(** the reading parsed from a vector that holds the eight bytes read first *)
Lemma parse_sensor_data_fields (response : list Z) (data : SensorData) :
  (12 <= length response)%nat ->
  let at_ i := nth i response 0 in
  Access.result (PacketParser.parse_sensor_data response data) =
    {| timestamp := if (16 <=? length response)%nat
                    then le32 (at_ 12%nat) (at_ 13%nat) (at_ 14%nat) (at_ 15%nat)
                    else timestamp data;
       temp := at_ 4%nat; humid := at_ 5%nat; light := at_ 6%nat;
       mode := at_ 7%nat;
       voltage := le32 (at_ 8%nat) (at_ 9%nat) (at_ 10%nat) (at_ 11%nat) |}.
Proof.
  intros Hlen. cbn zeta. unfold PacketParser.parse_sensor_data.
  do 12 (destruct response as [| ? response]; [cbn in Hlen; lia |]).
  do 4 (destruct response as [| ? response]; [reflexivity |]).
  reflexivity.
Qed.

(** a vector that is not empty and ends before index 11 is read outside *)
Lemma parse_sensor_data_short (response : list Z) (data : SensorData) :
  (0 < length response < 12)%nat ->
  Access.out_of_bounds response (PacketParser.parse_sensor_data response data)
    = true
  /\ Access.checked response (PacketParser.parse_sensor_data response data)
     = None.
Proof.
  intros Hlen. unfold Access.checked, Access.in_bounds, Access.out_of_bounds.
  rewrite parse_sensor_data_accesses.
  destruct response as [| ? response]; [cbn in Hlen; lia |].
  do 11 (destruct response as [| ? response]; [split; reflexivity |]).
  cbn in Hlen. lia.
Qed.

(** C6: what a frame that the dispatcher takes for a BEACON does.  With at
    least 12 bytes, [m_latest_data] becomes the reading its bytes 4..15
    spell, the beacon is printed, and the sensor index and every other
    member stay as they were.  With fewer, [parse_sensor_data] reads behind
    the end of the frame: no reading is parsed. *)
Theorem beacon_frame_effect (response : list Z) (st : AltairServer) :
  (5 <= length response)%nat -> nth 1 (compensated response) 0 = BEACON ->
  let frame := compensated response in
  let at_ i := nth i frame 0 in
  if (length frame <? 12)%nat
  then Access.out_of_bounds frame
         (PacketParser.parse_sensor_data frame (m_latest_data st)) = true
       /\ handle_response init_response_handlers response st = None
  else exists st',
       handle_response init_response_handlers response st = Some st'
       /\ m_latest_data st' =
            {| timestamp := if (16 <=? length frame)%nat
                            then le32 (at_ 12%nat) (at_ 13%nat) (at_ 14%nat)
                                      (at_ 15%nat)
                            else timestamp (m_latest_data st);
               temp := at_ 4%nat; humid := at_ 5%nat; light := at_ 6%nat;
               mode := at_ 7%nat;
               voltage := le32 (at_ 8%nat) (at_ 9%nat) (at_ 10%nat)
                               (at_ 11%nat) |}
       /\ cout st' = cout st ++ [PrintBeaconData (m_latest_data st')]
       /\ m_sensor_data_manager st' = m_sensor_data_manager st
       /\ length (m_sensor_data_manager st') = length (m_sensor_data_manager st)
       /\ m_request_clients st' = m_request_clients st
       /\ m_connection st' = m_connection st
       /\ m_tcp_server st' = m_tcp_server st
       /\ m_id_generator st' = m_id_generator st.
Proof.
  intros Hlen Htype. cbn zeta.
  rewrite handle_response_dispatch by exact Hlen.
  fold (compensated response). unfold dispatch. rewrite Htype, handler_of_BEACON.
  assert (5 <= length (compensated response))%nat as Hframe.
  { unfold compensated. destruct (length response =? 9)%nat; cbn [length]; lia. }
  set (frame := compensated response) in *. unfold handle_beacon.
  destruct (length frame <? 12)%nat eqn:Hshort.
  - apply Nat.ltb_lt in Hshort.
    destruct (parse_sensor_data_short frame (m_latest_data st) ltac:(lia))
      as [Hout Hnone].
    split; [exact Hout |]. rewrite Hnone. reflexivity.
  - apply Nat.ltb_ge in Hshort. unfold Access.checked.
    rewrite parse_sensor_data_in_bounds by exact Hshort.
    cbn [mbind option_bind]. eexists. split; [reflexivity |].
    cbn [set_latest_data print m_latest_data cout m_sensor_data_manager
         m_request_clients m_connection m_tcp_server m_id_generator].
    split; [apply parse_sensor_data_fields; exact Hshort |].
    repeat split.
Qed.

(** whenever [handle_beacon] completes, the sensor index is what it was *)
Lemma handle_beacon_index response responseId st st' :
  handle_beacon response responseId st = Some st' ->
  m_sensor_data_manager st' = m_sensor_data_manager st.
Proof.
  unfold handle_beacon. destruct (Access.checked _ _); [| discriminate].
  cbn. intros [= <-]. reflexivity.
Qed.


(** C9: when the allocator hands out 0xFF, each correlated request
    registers its client under 0xFF and nowhere else, while the packet it
    writes carries the id 0. *)
Theorem request_key_differs_at_0xFF (client : nat) (start end_ : Z)
    (st : AltairServer) :
  let at_0xFF := set_id_generator 0xFF st in
  let mismatch (run : option AltairServer) :=
    exists st' packet,
      run = Some st'
      /\ m_request_clients st' = <[0xFF := client]> (m_request_clients st)
      /\ m_connection st' = m_connection st ++ [packet]
      /\ nth 2 packet 0 = 0 in
  mismatch (get_current_time client at_0xFF)
  /\ mismatch (get_sensor_in_range start end_ client at_0xFF)
  /\ mismatch (get_event_in_range start end_ client at_0xFF).
Proof.
  cbn zeta. repeat split; eexists; eexists; (split; [reflexivity |]);
    repeat split.
Qed.

(** below 0xFF the registered key is the id on the link *)
Lemma request_key_matches_below_0xFF (client : nat) (st : AltairServer) :
  m_id_generator st <> 0xFF ->
  exists st' packet,
    get_current_time client st = Some st'
    /\ m_request_clients st' =
         <[m_id_generator st := client]> (m_request_clients st)
    /\ m_connection st' = m_connection st ++ [packet]
    /\ nth 2 packet 0 = m_id_generator st.
Proof.
  intros Hid. unfold get_current_time, generateID, IDGenerator.generateID.
  cbn -[Z.eqb u8 Z.add]. unfold send_packet_to_altair.
  cbn -[Z.eqb u8 Z.add generateID].
  apply Z.eqb_neq in Hid. rewrite Hid. cbn -[u8 Z.add].
  eexists; eexists; repeat split.
Qed.

(** C5: [update_light] followed by text that is no number writes an
    UPDATE_LIGHT packet with the value 0 to the link and tells the operator
    that the light was updated. *)
Theorem update_light_without_number_sends (client : nat) (st : AltairServer) :
  exists st' id,
    handle_request "update_light abc" client st = Some st'
    /\ m_connection st' =
         m_connection st ++ [[6; UPDATE_LIGHT; id; 0; 0; END_MARK]]
    /\ m_tcp_server st' =
         m_tcp_server st ++ [(client, "Light updated to 0%"%string)].
Proof.
  unfold handle_request. cbn -[Z.eqb u8 Z.add update_light pretty].
  unfold update_light, send_value, generateID, IDGenerator.generateID.
  cbn -[Z.eqb u8 Z.add pretty]. unfold send_packet_to_altair.
  cbn -[Z.eqb u8 Z.add generateID pretty].
  destruct (m_id_generator st =? 255); cbn -[u8 Z.add pretty];
    eexists; eexists; repeat split.
Qed.

(** the sibling command tests [iss.fail()] and sends nothing *)
Lemma update_humidity_without_number_rejected (client : nat) (st : AltairServer) :
  exists st',
    handle_request "update_humidity abc" client st = Some st'
    /\ m_connection st' = m_connection st
    /\ m_tcp_server st' =
         m_tcp_server st ++ [(client, "Error: Invalid humidity value"%string)].
Proof. eexists. repeat split. Qed.

End CorrelatorFacts.

(** ** Range queries and duplicate inserts *)

Section RangeFacts.
Import ServerDataManager.

Lemma copy_range_slice l n it result :
  (it + n <= length l)%nat ->
  copy_range l n it result = result ++ take n (drop it l).
Proof.
  revert it result. induction n as [| n IH]; intros it result Hlen.
  - cbn. rewrite take_0, app_nil_r. reflexivity.
  - cbn [copy_range]. rewrite IH by lia.
    rewrite (drop_S l (l !!! it) it)
      by (apply list_lookup_lookup_total_lt; lia).
    cbn [take]. rewrite <- app_assoc. cbn [app].
    replace (it + 1)%nat with (S it) by lia. reflexivity.
Qed.

(** the empty option: an empty index, or [start_time] behind the latest
    reading, and nothing else *)
Lemma getSensorDataInRange_none start_time end_time l :
  getSensorDataInRange start_time end_time l = Returns None
  <-> l = [] \/ timestamp (List.last l inhabitant) < start_time.
Proof.
  unfold getSensorDataInRange. destruct l as [| x l'].
  - cbn. split; [left; reflexivity | reflexivity].
  - cbn [length Nat.eqb].
    destruct (timestamp (List.last (x :: l') inhabitant) <? start_time) eqn:Hlate.
    + apply Z.ltb_lt in Hlate. split; [right; exact Hlate | reflexivity].
    + apply Z.ltb_ge in Hlate.
      split.
      * destruct (_ <? _); discriminate.
      * intros [Hnil | Hlt]; [discriminate | lia].
Qed.

(** on a sorted index and a range with [start_time <= end_time] the
    query returns the readings between the two bounds, which are the
    stored readings with a timestamp in the range, in ascending order *)
Lemma getSensorDataInRange_slice start_time end_time l :
  sorted_index l -> l <> [] ->
  Z.of_nat (length l) <= Std.vector_max_size sizeof_SensorData ->
  start_time <= timestamp (List.last l inhabitant) ->
  start_time <= end_time ->
  exists slice,
    getSensorDataInRange start_time end_time l = Returns (Some slice)
    /\ (forall x, x ∈ slice <->
                  x ∈ l /\ start_time <= timestamp x <= end_time)
    /\ sorted_index slice.
Proof.
  intros Hs Hne Hsize Hlast Horder. unfold getSensorDataInRange.
  assert ((length l =? 0)%nat = false) as ->.
  { apply Nat.eqb_neq. destruct l; [contradiction | cbn; lia]. }
  assert ((timestamp (List.last l inhabitant) <? start_time) = false) as ->
    by (apply Z.ltb_ge; lia).
  destruct (lower_bound_sorted (fun t : Z => t) l start_time Hs) as (Hl1 & Ht1 & Hf1).
  destruct (upper_bound_sorted l end_time Hs) as (Hl2 & Ht2 & Hf2).
  set (lower := Std.lower_bound _ l start_time) in *.
  set (upper := Std.upper_bound _ l end_time) in *.
  cbn beta in *.
  assert (lower <= upper)%nat as Hlu.
  { destruct (le_lt_dec lower upper) as [Hok | Hbad]; [exact Hok |].
    pose proof (Ht1 upper Hbad) as Ha. apply Z.ltb_lt in Ha.
    pose proof (Hf2 upper ltac:(lia)) as Hb. apply Z.leb_gt in Hb. lia. }
  assert ((Std.vector_max_size sizeof_SensorData
             <? Std.size_t (Z.of_nat upper - Z.of_nat lower)) = false) as ->.
  { apply Z.ltb_ge. unfold Std.size_t.
    assert (Std.vector_max_size sizeof_SensorData < 2 ^ 64) by reflexivity.
    rewrite Z.mod_small; lia. }
  rewrite copy_range_slice by lia. cbn [app].
  eexists. split; [reflexivity |].
  assert (forall i, (i < upper - lower)%nat ->
            take (upper - lower) (drop lower l) !!! i = l !!! (lower + i)%nat)
    as Hget.
  { intros i Hi. rewrite lookup_total_take_lt by exact Hi.
    apply lookup_total_drop. }
  assert (length (take (upper - lower) (drop lower l)) = (upper - lower)%nat)
    as Hsl by (rewrite length_take, length_drop; lia).
  split.
  - intros x. rewrite !list_elem_of_lookup_total. split.
    + intros (i & Hi & Hx). rewrite Hsl in Hi. rewrite Hget in Hx by exact Hi.
      subst x. split.
      * exists (lower + i)%nat. split; [lia | reflexivity].
      * pose proof (Hf1 (lower + i)%nat ltac:(lia)) as Ha. apply Z.ltb_ge in Ha.
        pose proof (Ht2 (lower + i)%nat ltac:(lia)) as Hb. apply Z.leb_le in Hb.
        lia.
    + intros ((j & Hj & Hx) & Hrange). subst x.
      assert (lower <= j)%nat as Hlo.
      { destruct (le_lt_dec lower j) as [Hok | Hbad]; [exact Hok |].
        pose proof (Ht1 j Hbad) as Ha. apply Z.ltb_lt in Ha. lia. }
      assert (j < upper)%nat as Hhi.
      { destruct (le_lt_dec upper j) as [Hbad | Hok]; [| exact Hok].
        pose proof (Hf2 j ltac:(lia)) as Hb. apply Z.leb_gt in Hb. lia. }
      exists (j - lower)%nat. rewrite Hsl. split; [lia |].
      rewrite Hget by lia. f_equal. lia.
  - intros i j Hij Hj. rewrite Hsl in Hj. rewrite !Hget by lia.
    apply Hs; lia.
Qed.

(** C7: inserting a reading whose timestamp is already stored returns
    true and leaves the index as it was, same size and same contents; and
    [insertSensorData] returns true on every input. *)
Theorem insertSensorData_duplicate (index : list SensorData) (r : SensorData) :
  reachable_index index ->
  (exists x, x ∈ index /\ timestamp x = timestamp r) ->
  insertSensorData r index = (true, index)
  /\ size (snd (insertSensorData r index)) = size index
  /\ forall data l, fst (insertSensorData data l) = true.
Proof.
  intros Hreach (x & Hin & Hts).
  apply list_elem_of_lookup_total in Hin as (j & Hj & Hx). subst x.
  pose proof (insertSensorData_present r index j
                (reachable_sorted index Hreach) Hj Hts) as Hsame.
  rewrite Hsame. repeat split. apply insertSensorData_true.
Qed.

(** C8: on the index that holds the readings of 3 and 10, the query for
    the range from 5 down to 2 finds [lower] behind [upper], asks
    [reserve] for a negative distance and ends in [std::length_error]
    instead of returning the empty slice. *)
Theorem getSensorDataInRange_inverted_range :
  let index := snd (insertSensorData (reading 10)
                      (snd (insertSensorData (reading 3) []))) in
  index = [reading 3; reading 10]
  /\ Std.lower_bound (fun a t => timestamp a <? t) index 5 = 1%nat
  /\ Std.upper_bound (fun t a => t <? timestamp a) index 2 = 0%nat
  /\ getSensorDataInRange 5 2 index = Throws "vector::reserve".
Proof. cbn zeta. repeat split. Qed.

End RangeFacts.

(** ** Concrete runs *)

(** The link delivers a beacon: the loop ends with an empty accumulator,
    the reading in [m_latest_data] and an empty sensor index. *)
Example listen_beacon :
  match @Server.listen zeroed (map Some beacon_frame) (constructed 0) with
  | Some (response, st) =>
    response = []
    /\ m_latest_data st =
         {| timestamp := 10000000; temp := 20; humid := 45; light := 50;
            mode := OK_MODE; voltage := 0x40066666 |}
    /\ m_sensor_data_manager st = []
  | None => False
  end.
Proof. vm_compute. repeat split. Qed.

(** The link delivers an event packet, whose length byte is a line feed:
    the loop takes that byte for an empty debug line, frames the other
    nine bytes, and [handle_response] puts a 10 in front of them again. *)
Example listen_event :
  match @Server.listen zeroed (map Some (10 :: event_tail)) (constructed 0) with
  | Some (response, st) =>
    response = []
    /\ cout st = [EventHeading;
                  PrintEvent {| ev_timestamp := 10000000; event := INIT |}]
  | None => False
  end.
Proof. vm_compute. repeat split. Qed.

Lemma handle_response_length_9_witness :
  (5 <= length event_tail)%nat
  /\ exists frame,
       @Server.handle_response zeroed (@Server.init_response_handlers zeroed)
         event_tail (constructed 0)
       = @dispatch zeroed (@Server.init_response_handlers zeroed) frame
           (constructed 0)
       /\ (length event_tail = 9%nat ->
             length frame = 10%nat /\ frame !! 0%nat = Some 10
             /\ forall i, frame !! S i = event_tail !! i)
       /\ (length event_tail <> 9%nat -> frame = event_tail).
Proof.
  split; [simpl; lia |].
  apply (@handle_response_length_9 zeroed). simpl; lia.
Defined.

Lemma listen_binary_frame_witness :
  let on_frame := @Server.handle_response zeroed (@Server.init_response_handlers zeroed) in
  [0x11; 0x01] !! 0%nat = Some 0x11
  /\ Server.isalpha 0x11 = false /\ 0x11 <> 10
  /\ @Server.listen_iteration zeroed on_frame (Some END_MARK)
       ([0x11; 0x01], constructed 0)
     = if (END_MARK =? END_MARK) && (0x11 <=? Z.of_nat (length [0x11; 0x01]) + 1)
       then st' ← on_frame ([0x11; 0x01] ++ [END_MARK]) (constructed 0);
            Some ([], st')
       else Some ([0x11; 0x01] ++ [END_MARK], constructed 0).
Proof.
  cbn zeta. split; [reflexivity |]. split; [reflexivity |]. split; [lia |].
  apply (@listen_binary_frame zeroed); [reflexivity | reflexivity | lia].
Defined.

Lemma beacon_frame_effect_witness :
  (let short := [5; BEACON; 0xFF; 0; END_MARK] in
   PacketParser.is_valid_response short = true
   /\ Access.out_of_bounds short
        (@PacketParser.parse_sensor_data zeroed short
           (m_latest_data (constructed 0))) = true
   /\ @Server.handle_response zeroed (@Server.init_response_handlers zeroed)
        short (constructed 0) = None)
  /\ exists st',
       @Server.handle_response zeroed (@Server.init_response_handlers zeroed)
         beacon_frame (constructed 0) = Some st'
       /\ m_latest_data st' =
            {| timestamp := 10000000; temp := 20; humid := 45; light := 50;
               mode := OK_MODE; voltage := 0x40066666 |}
       /\ cout st' = cout (constructed 0) ++ [PrintBeaconData (m_latest_data st')]
       /\ m_sensor_data_manager st' = m_sensor_data_manager (constructed 0)
       /\ length (m_sensor_data_manager st')
          = length (m_sensor_data_manager (constructed 0))
       /\ m_request_clients st' = m_request_clients (constructed 0)
       /\ m_connection st' = m_connection (constructed 0)
       /\ m_tcp_server st' = m_tcp_server (constructed 0)
       /\ m_id_generator st' = m_id_generator (constructed 0).
Proof.
  split.
  - cbn zeta. split; [reflexivity |].
    apply (@beacon_frame_effect zeroed [5; BEACON; 0xFF; 0; END_MARK]
             (constructed 0)); [simpl; lia | reflexivity].
  - apply (@beacon_frame_effect zeroed beacon_frame (constructed 0));
      [simpl; lia | reflexivity].
Defined.

Lemma insertSensorData_duplicate_witness :
  let index := snd (ServerDataManager.insertSensorData (reading 10)
                      (snd (ServerDataManager.insertSensorData (reading 3) []))) in
  let r := {| timestamp := 10; temp := 21; humid := 40; light := 60;
              mode := OK_MODE; voltage := 0x40066666 |} in
  ServerDataManager.insertSensorData r index = (true, index)
  /\ ServerDataManager.size (snd (ServerDataManager.insertSensorData r index))
     = ServerDataManager.size index
  /\ forall data l, fst (ServerDataManager.insertSensorData data l) = true.
Proof.
  cbn zeta. apply insertSensorData_duplicate.
  - apply reachable_insert, reachable_insert, reachable_empty.
  - exists (reading 10). split; [| reflexivity].
    vm_compute. apply list_elem_of_further, list_elem_of_here.
Defined.


(** * Further properties of the sensor index *)

Section IndexLookup.
Import ServerDataManager.

Lemma last_lookup_total (l : list SensorData) :
  l <> [] -> List.last l inhabitant = l !!! (length l - 1)%nat.
Proof.
  induction l as [| x l IH]; [contradiction |]. intros _.
  destruct l as [| y l']; [reflexivity |].
  change (List.last (x :: y :: l') inhabitant) with (List.last (y :: l') inhabitant).
  rewrite IH by discriminate. cbn [length].
  replace (S (S (length l')) - 1)%nat with (S (S (length l') - 1)) by lia.
  reflexivity.
Qed.

(** where [lower_bound] lands when the timestamp [t] is stored at [j] *)
Lemma lower_bound_finds l t j :
  sorted_index l -> (j < length l)%nat -> timestamp (l !!! j) = t ->
  Std.lower_bound (fun a t' => timestamp a <? t') l t = j.
Proof.
  intros Hs Hj Heq.
  destruct (lower_bound_sorted (fun t : Z => t) l t Hs) as (Hle & Ht & Hf).
  set (pos := Std.lower_bound _ l t) in *. cbn beta in *.
  destruct (Nat.lt_trichotomy pos j) as [Hlt | [Heq' | Hgt]]; [| exact Heq' |].
  - pose proof (Hf pos ltac:(lia)) as Hge. apply Z.ltb_ge in Hge.
    pose proof (Hs pos j Hlt Hj). lia.
  - pose proof (Ht j Hgt) as Hb. apply Z.ltb_lt in Hb. lia.
Qed.

(** lookup by timestamp on a sorted index *)
Lemma getSensorDataByTimestamp_sorted (l : list SensorData) (t : Z)
    (x : SensorData) :
  sorted_index l ->
  (getSensorDataByTimestamp t l = Some x <-> x ∈ l /\ timestamp x = t).
Proof.
  intros Hs. unfold getSensorDataByTimestamp. split.
  - destruct (lower_bound_sorted (fun t : Z => t) l t Hs) as (Hle & _ & _).
    set (pos := Std.lower_bound _ l t) in *.
    destruct (negb (pos =? length l)%nat) eqn:Hend; [| discriminate].
    destruct (timestamp (l !!! pos) =? t) eqn:Hts; [| discriminate].
    cbn [andb]. intros [= <-].
    apply negb_true_iff in Hend. reflect_nat. apply Z.eqb_eq in Hts.
    split; [| exact Hts]. apply list_elem_of_lookup_total.
    exists pos. split; [lia | reflexivity].
  - intros (Hin & Hts).
    apply list_elem_of_lookup_total in Hin as (j & Hj & Hx). subst x.
    rewrite (lower_bound_finds l t j Hs Hj Hts).
    assert ((j =? length l)%nat = false) as -> by (apply Nat.eqb_neq; lia).
    assert ((timestamp (l !!! j) =? t) = true) as -> by (apply Z.eqb_eq; exact Hts).
    reflexivity.
Qed.

(** the vector after an insert that found no duplicate *)
Lemma insertSensorData_fresh_shape (l : list SensorData) (data : SensorData) :
  sorted_index l ->
  (forall x, x ∈ l -> timestamp x <> timestamp data) ->
  exists pos, (pos <= length l)%nat
    /\ snd (insertSensorData data l) = take pos l ++ data :: drop pos l.
Proof.
  intros Hs Hfresh. unfold insertSensorData.
  destruct (lower_bound_sorted timestamp l data Hs) as (Hle & _ & _).
  set (pos := Std.lower_bound _ l data) in *.
  exists pos. split; [exact Hle |].
  destruct (negb (pos =? length l)%nat) eqn:Hend; [| reflexivity].
  destruct (timestamp (l !!! pos) =? timestamp data) eqn:Hts; [| reflexivity].
  exfalso. apply negb_true_iff in Hend. reflect_nat. apply Z.eqb_eq in Hts.
  apply (Hfresh (l !!! pos)); [| exact Hts].
  apply list_elem_of_lookup_total. exists pos. split; [lia | reflexivity].
Qed.

(** X1: on an index the manager can hold, [getSensorDataByTimestamp]
    returns a reading exactly when that reading is stored under the
    timestamp asked for. *)
Theorem getSensorDataByTimestamp_found (index : list SensorData) (t : Z)
    (x : SensorData) :
  reachable_index index ->
  (getSensorDataByTimestamp t index = Some x
   <-> x ∈ index /\ timestamp x = t).
Proof.
  intros Hreach. apply getSensorDataByTimestamp_sorted, reachable_sorted, Hreach.
Qed.

(** X2: inserting a reading with a timestamp that is not stored yet makes
    the index one longer, adds that reading and nothing else, keeps the
    index strictly sorted, and a lookup of the timestamp then returns the
    reading. *)
Theorem insertSensorData_fresh (index : list SensorData) (data : SensorData) :
  reachable_index index ->
  (forall x, x ∈ index -> timestamp x <> timestamp data) ->
  let index' := snd (insertSensorData data index) in
  size index' = S (size index)
  /\ (forall x, x ∈ index' <-> x = data \/ x ∈ index)
  /\ sorted_index index'
  /\ getSensorDataByTimestamp (timestamp data) index' = Some data.
Proof.
  intros Hreach Hfresh. cbn zeta.
  pose proof (reachable_sorted index Hreach) as Hs.
  pose proof (insertSensorData_sorted data index Hs) as Hs'.
  destruct (insertSensorData_fresh_shape index data Hs Hfresh) as (pos & Hpos & Hshape).
  assert (forall x, x ∈ snd (insertSensorData data index) <-> x = data \/ x ∈ index)
    as Hmem.
  { intros x. rewrite Hshape, elem_of_app, elem_of_cons.
    rewrite <- (take_drop pos index) at 3. rewrite elem_of_app. tauto. }
  split.
  { unfold size. rewrite Hshape, length_app, length_take. cbn [length].
    rewrite length_drop. lia. }
  split; [exact Hmem |].
  split; [exact Hs' |].
  apply getSensorDataByTimestamp_sorted; [exact Hs' |].
  split; [apply Hmem; left; reflexivity | reflexivity].
Qed.

(** inserting a reading whose timestamp is stored keeps the stored
    reading: a lookup of the timestamp still returns the old one. *)
Theorem insertSensorData_keeps_first (index : list SensorData)
    (old data : SensorData) :
  reachable_index index ->
  old ∈ index -> timestamp old = timestamp data ->
  getSensorDataByTimestamp (timestamp data)
    (snd (insertSensorData data index)) = Some old.
Proof.
  intros Hreach Hin Hts. pose proof (reachable_sorted index Hreach) as Hs.
  apply list_elem_of_lookup_total in Hin as Hat.
  destruct Hat as (j & Hj & Hx).
  rewrite (insertSensorData_present data index j Hs Hj) by (rewrite Hx; exact Hts).
  cbn [snd]. apply getSensorDataByTimestamp_sorted; [exact Hs |].
  split; [exact Hin | exact Hts].
Qed.

(** X3: [getMostRecentData] is empty exactly on the empty index, and
    otherwise returns a stored reading that no stored reading is later
    than. *)
Theorem getMostRecentData_latest (index : list SensorData) :
  reachable_index index ->
  (getMostRecentData index = None <-> index = [])
  /\ forall x, getMostRecentData index = Some x ->
       x ∈ index /\ forall y, y ∈ index -> timestamp y <= timestamp x.
Proof.
  intros Hreach. pose proof (reachable_sorted index Hreach) as Hs.
  unfold getMostRecentData. destruct (length index =? 0)%nat eqn:Hempty; reflect_nat.
  - apply length_zero_iff_nil in Hempty. subst index.
    split; [split; reflexivity | discriminate].
  - assert (index <> []) as Hne by (intros ->; cbn in Hempty; lia).
    split; [split; [discriminate | contradiction] |].
    intros x Hx.
    assert (List.last index inhabitant = x) as Hlast by congruence.
    rewrite (last_lookup_total index Hne) in Hlast. subst x. clear Hx.
    assert (0 < length index)%nat as Hpos by lia.
    split.
    + apply list_elem_of_lookup_total. eexists. split; [| reflexivity]. lia.
    + intros y Hy. apply list_elem_of_lookup_total in Hy as (j & Hj & <-).
      destruct (decide (j = (length index - 1)%nat)) as [-> | Hdiff]; [lia |].
      pose proof (Hs j (length index - 1)%nat ltac:(lia) ltac:(lia)).
      lia.
Qed.

End IndexLookup.

Section RangeEdges.
Import ServerDataManager.

(** X4: on an index the manager can hold, a range query whose start is
    neither behind its end nor behind the latest reading returns exactly
    the stored readings with a timestamp in the range, in the order of
    their timestamps. *)
Theorem getSensorDataInRange_window (start_time end_time : Z)
    (index : list SensorData) :
  reachable_index index -> index <> [] ->
  Z.of_nat (length index) <= Std.vector_max_size sizeof_SensorData ->
  start_time <= timestamp (List.last index inhabitant) ->
  start_time <= end_time ->
  exists slice,
    ServerDataManager.getSensorDataInRange start_time end_time index
      = Returns (Some slice)
    /\ (forall x, x ∈ slice <->
                  x ∈ index /\ start_time <= timestamp x <= end_time)
    /\ sorted_index slice.
Proof.
  intros Hreach. apply getSensorDataInRange_slice, reachable_sorted, Hreach.
Qed.

(** X5: on an index the manager can hold, a range query ends in
    [std::length_error] exactly when [start_time] is not behind the latest
    reading and some stored reading lies strictly between [end_time] and
    [start_time]; a range with [start_time <= end_time] never does. *)
Theorem getSensorDataInRange_throws (index : list SensorData)
    (start_time end_time : Z) :
  reachable_index index ->
  Z.of_nat (length index) <= Std.vector_max_size sizeof_SensorData ->
  (getSensorDataInRange start_time end_time index = Throws "vector::reserve"
   <-> start_time <= timestamp (List.last index inhabitant)
       /\ exists x, x ∈ index /\ end_time < timestamp x < start_time).
Proof.
  intros Hreach Hsize. pose proof (reachable_sorted index Hreach) as Hs.
  unfold getSensorDataInRange.
  destruct (length index =? 0)%nat eqn:Hempty; reflect_nat.
  { apply length_zero_iff_nil in Hempty. subst index.
    split; [discriminate |]. intros (_ & x & Hin & _).
    apply not_elem_of_nil in Hin. contradiction. }
  destruct (timestamp (List.last index inhabitant) <? start_time) eqn:Hlate.
  { apply Z.ltb_lt in Hlate. split; [discriminate | lia]. }
  apply Z.ltb_ge in Hlate.
  destruct (lower_bound_sorted (fun t : Z => t) index start_time Hs) as (Hl1 & Ht1 & Hf1).
  destruct (upper_bound_sorted index end_time Hs) as (Hl2 & Ht2 & Hf2).
  set (lower := Std.lower_bound _ index start_time) in *.
  set (upper := Std.upper_bound _ index end_time) in *.
  cbn beta in *.
  assert (Std.vector_max_size sizeof_SensorData = 576460752303423487) as Hmax
    by reflexivity.
  destruct (le_lt_dec lower upper) as [Hok | Hbad].
  - assert ((Std.vector_max_size sizeof_SensorData
               <? Std.size_t (Z.of_nat upper - Z.of_nat lower)) = false) as ->.
    { apply Z.ltb_ge. unfold Std.size_t. rewrite Z.mod_small; lia. }
    split; [discriminate |]. intros (_ & x & Hin & Hx). exfalso.
    apply list_elem_of_lookup_total in Hin as (j & Hj & <-).
    assert (j < lower)%nat.
    { destruct (le_lt_dec lower j) as [Hge | Hlt]; [| exact Hlt].
      pose proof (Hf1 j ltac:(lia)) as Ha. apply Z.ltb_ge in Ha. lia. }
    assert (upper <= j)%nat.
    { destruct (le_lt_dec upper j) as [Hge | Hlt]; [exact Hge |].
      pose proof (Ht2 j Hlt) as Hb. apply Z.leb_le in Hb. lia. }
    lia.
  - assert ((Std.vector_max_size sizeof_SensorData
               <? Std.size_t (Z.of_nat upper - Z.of_nat lower)) = true) as ->.
    { apply Z.ltb_lt. unfold Std.size_t.
      replace (Z.of_nat upper - Z.of_nat lower)
        with (2 ^ 64 - (Z.of_nat lower - Z.of_nat upper) + (-1) * 2 ^ 64) by lia.
      rewrite Z.mod_add by lia. rewrite Z.mod_small; lia. }
    split; [| reflexivity]. intros _. split; [exact Hlate |].
    exists (index !!! upper). split.
    + apply list_elem_of_lookup_total. exists upper. split; [lia | reflexivity].
    + pose proof (Ht1 upper Hbad) as Ha. apply Z.ltb_lt in Ha.
      pose proof (Hf2 upper ltac:(lia)) as Hb. apply Z.leb_gt in Hb. lia.
Qed.

End RangeEdges.

Lemma getSensorDataInRange_slice_witness :
  let index := [reading 3; reading 10] in
  exists slice,
    ServerDataManager.getSensorDataInRange 2 5 index = Returns (Some slice)
    /\ (forall x, x ∈ slice <-> x ∈ index /\ 2 <= timestamp x <= 5)
    /\ sorted_index slice.
Proof.
  cbn zeta. apply getSensorDataInRange_slice.
  - apply (reachable_sorted _ (reachable_insert (reading 10) _
             (reachable_insert (reading 3) _ reachable_empty))).
  - discriminate.
  - vm_compute. discriminate.
  - vm_compute. discriminate.
  - lia.
Defined.

Lemma getSensorDataInRange_throws_witness :
  let index := [reading 3; reading 10] in
  ServerDataManager.getSensorDataInRange 5 2 index = Throws "vector::reserve"
  <-> 5 <= timestamp (List.last index inhabitant)
      /\ exists x, x ∈ index /\ 2 < timestamp x < 5.
Proof.
  cbn zeta. apply getSensorDataInRange_throws.
  - apply (reachable_insert (reading 10) _
             (reachable_insert (reading 3) _ reachable_empty)).
  - vm_compute. discriminate.
Defined.

Lemma getSensorDataByTimestamp_found_witness :
  ServerDataManager.getSensorDataByTimestamp 10 [reading 3; reading 10]
    = Some (reading 10)
  <-> reading 10 ∈ [reading 3; reading 10] /\ timestamp (reading 10) = 10.
Proof.
  apply getSensorDataByTimestamp_found.
  apply (reachable_insert (reading 10) _
           (reachable_insert (reading 3) _ reachable_empty)).
Defined.

Lemma insertSensorData_fresh_witness :
  let index := [reading 3; reading 10] in
  let index' := snd (ServerDataManager.insertSensorData (reading 7) index) in
  ServerDataManager.size index' = S (ServerDataManager.size index)
  /\ (forall x, x ∈ index' <-> x = reading 7 \/ x ∈ index)
  /\ sorted_index index'
  /\ ServerDataManager.getSensorDataByTimestamp (timestamp (reading 7)) index'
     = Some (reading 7).
Proof.
  cbn zeta. apply insertSensorData_fresh.
  - apply (reachable_insert (reading 10) _
             (reachable_insert (reading 3) _ reachable_empty)).
  - intros x Hx. apply list_elem_of_In in Hx. cbn in Hx.
    destruct Hx as [<- | [<- | []]]; vm_compute; discriminate.
Defined.

Lemma insertSensorData_keeps_first_witness :
  let index := [reading 3; reading 10] in
  let data := {| timestamp := 10; temp := 21; humid := 40; light := 60;
                 mode := OK_MODE; voltage := 0x40066666 |} in
  ServerDataManager.getSensorDataByTimestamp (timestamp data)
    (snd (ServerDataManager.insertSensorData data index)) = Some (reading 10).
Proof.
  cbn zeta. apply insertSensorData_keeps_first.
  - apply (reachable_insert (reading 10) _
             (reachable_insert (reading 3) _ reachable_empty)).
  - apply list_elem_of_further, list_elem_of_here.
  - reflexivity.
Defined.

Lemma getMostRecentData_latest_witness :
  let index := [reading 3; reading 10] in
  (ServerDataManager.getMostRecentData index = None <-> index = [])
  /\ forall x, ServerDataManager.getMostRecentData index = Some x ->
       x ∈ index /\ forall y, y ∈ index -> timestamp y <= timestamp x.
Proof.
  cbn zeta. apply getMostRecentData_latest.
  apply (reachable_insert (reading 10) _
           (reachable_insert (reading 3) _ reachable_empty)).
Defined.

(** * Further properties of the codec and the ID generator *)

Section CodecFacts.
Context `{Platform}.

Lemma generate_spec n c :
  0 <= c < 256 ->
  fst (generate n c) = map (fun k => (c + Z.of_nat k) mod 256) (seq 0 n)
  /\ snd (generate n c) = (c + Z.of_nat n) mod 256.
Proof.
  revert c. induction n as [| n IH]; intros c Hc.
  - cbn [generate fst snd seq map]. rewrite Z.add_0_r, Z.mod_small by lia.
    split; reflexivity.
  - cbn [generate]. unfold IDGenerator.generateID, u8.
    destruct (IH ((c + 1) mod 256) ltac:(apply Z.mod_pos_bound; lia)) as (Hids & Hc').
    destruct (generate n ((c + 1) mod 256)) as [ids c'] eqn:Hgen.
    cbn [fst snd] in *. subst ids c'. split.
    + cbn [seq map]. rewrite Z.add_0_r, (Z.mod_small c) by lia. f_equal.
      rewrite <- seq_shift, map_map. apply map_ext. intros k.
      rewrite Zplus_mod_idemp_l. f_equal. lia.
    + rewrite Zplus_mod_idemp_l. f_equal. lia.
Qed.

(** X6: from a counter in range, 256 consecutive calls of [generateID]
    hand out 256 different ids, all in [0, 256), and leave the counter
    where it started, so the 257th id is the first one again. *)
Theorem generateID_cycle (current_id : Z) :
  0 <= current_id < 256 ->
  let ids := fst (generate 256 current_id) in
  length ids = 256%nat
  /\ NoDup ids
  /\ Forall (fun id => 0 <= id < 256) ids
  /\ snd (generate 256 current_id) = current_id
  /\ fst (IDGenerator.generateID (snd (generate 256 current_id))) = current_id.
Proof.
  intros Hc. cbn zeta.
  destruct (generate_spec 256 current_id Hc) as (Hids & Hcnt).
  rewrite Hids, Hcnt.
  assert ((current_id + Z.of_nat 256) mod 256 = current_id) as Hwrap.
  { change (Z.of_nat 256) with (1 * 256). rewrite Z.mod_add, Z.mod_small; lia. }
  rewrite Hwrap. repeat split.
  - apply NoDup_fmap_2_strong; [| apply NoDup_seq].
    intros j k Hj Hk Heq.
    apply elem_of_seq in Hj. apply elem_of_seq in Hk.
    assert ((current_id + Z.of_nat j) mod 256 = (current_id + Z.of_nat k) mod 256)
      as Hmod by exact Heq.
    destruct (Z_lt_le_dec (current_id + Z.of_nat j) 256) as [Hj1 | Hj1];
      destruct (Z_lt_le_dec (current_id + Z.of_nat k) 256) as [Hk1 | Hk1].
    + rewrite !Z.mod_small in Hmod by lia. lia.
    + rewrite (Z.mod_small (current_id + Z.of_nat j)) in Hmod by lia.
      replace (current_id + Z.of_nat k)
        with (current_id + Z.of_nat k - 256 + 1 * 256) in Hmod by lia.
      rewrite Z.mod_add, Z.mod_small in Hmod by lia. lia.
    + rewrite (Z.mod_small (current_id + Z.of_nat k)) in Hmod by lia.
      replace (current_id + Z.of_nat j)
        with (current_id + Z.of_nat j - 256 + 1 * 256) in Hmod by lia.
      rewrite Z.mod_add, Z.mod_small in Hmod by lia. lia.
    + replace (current_id + Z.of_nat j)
        with (current_id + Z.of_nat j - 256 + 1 * 256) in Hmod by lia.
      replace (current_id + Z.of_nat k)
        with (current_id + Z.of_nat k - 256 + 1 * 256) in Hmod by lia.
      rewrite !Z.mod_add, !Z.mod_small in Hmod by lia. lia.
  - apply Forall_forall. intros id Hid.
    apply list_elem_of_fmap in Hid as (k & -> & _).
    apply Z.mod_pos_bound. lia.
Qed.

(** X7: [parse_event_data] reads only inside [response] exactly when
    [response] has at least 5 bytes and reads outside it for every shorter
    input, the empty one included; it writes [event] from the byte at 4 in
    every case and [timestamp] exactly when there are at least 9 bytes. *)
Theorem parse_event_data_bounds (response : list Z) (event_data : EventData) :
  let parsed := PacketParser.parse_event_data response event_data in
  let at_ i := nth i response (beyond i) in
  (Access.in_bounds response parsed = true <-> (5 <= length response)%nat)
  /\ (Access.out_of_bounds response parsed = true <-> (length response < 5)%nat)
  /\ event (Access.result parsed) = at_ 4%nat
  /\ ev_timestamp (Access.result parsed) =
       (if (9 <=? length response)%nat
        then le32 (at_ 5%nat) (at_ 6%nat) (at_ 7%nat) (at_ 8%nat)
        else ev_timestamp event_data).
Proof.
  cbn zeta. unfold Access.in_bounds, Access.out_of_bounds.
  unfold PacketParser.parse_event_data.
  do 9 (destruct response as [| ? response];
        [ cbn; repeat split; try reflexivity; try discriminate;
          intuition (try discriminate; try lia) | ]).
  cbn; repeat split; try reflexivity; try discriminate;
    intuition (try discriminate; try lia).
Qed.

End CodecFacts.

Section OutboundFacts.
Context `{Platform}.
Import Server.

Lemma testbit_byte_of v i n :
  0 <= n -> Z.testbit (byte_of v i) n = Z.testbit v (n + 8 * Z.of_nat i) && (n <? 8).
Proof.
  intros Hn. unfold byte_of. rewrite Z.land_spec, Z.shiftr_spec by lia.
  f_equal. change 255 with (Z.ones 8).
  destruct (n <? 8) eqn:Hlt.
  - apply Z.ltb_lt in Hlt. apply Z.ones_spec_low. lia.
  - apply Z.ltb_ge in Hlt. apply Z.ones_spec_high. lia.
Qed.

(** four bytes written lowest first and read back lowest first *)
Lemma le32_byte_of v :
  0 <= v < 2 ^ 32 ->
  le32 (byte_of v 0) (byte_of v 1) (byte_of v 2) (byte_of v 3) = v.
Proof.
  intros Hv. apply Z.bits_inj'. intros n Hn. unfold le32.
  rewrite !Z.lor_spec, !Z.shiftl_spec by lia.
  assert (32 <= n -> Z.testbit v n = false) as Hhigh.
  { intros Hbig. destruct (Z.eq_dec v 0) as [-> | Hnz]; [apply Z.bits_0 |].
    apply Z.bits_above_log2; [lia |].
    assert (Z.log2 v < 32) by (apply Z.log2_lt_pow2; lia). lia. }
  destruct (Z_lt_le_dec n 8) as [H8 | H8].
  { rewrite testbit_byte_of by lia.
    rewrite !(Z.testbit_neg_r (byte_of _ _)) by lia.
    assert ((n <? 8) = true) as -> by (apply Z.ltb_lt; lia).
    rewrite !orb_false_r, andb_true_r. f_equal. lia. }
  destruct (Z_lt_le_dec n 16) as [H16 | H16].
  { rewrite !testbit_byte_of by lia.
    rewrite !(Z.testbit_neg_r (byte_of _ _)) by lia.
    assert ((n <? 8) = false) as -> by (apply Z.ltb_ge; lia).
    assert ((n - 8 <? 8) = true) as -> by (apply Z.ltb_lt; lia).
    rewrite !orb_false_r, andb_false_r, andb_true_r. cbn [orb]. f_equal. lia. }
  destruct (Z_lt_le_dec n 24) as [H24 | H24].
  { rewrite !testbit_byte_of by lia.
    rewrite !(Z.testbit_neg_r (byte_of _ _)) by lia.
    assert ((n <? 8) = false) as -> by (apply Z.ltb_ge; lia).
    assert ((n - 8 <? 8) = false) as -> by (apply Z.ltb_ge; lia).
    assert ((n - 16 <? 8) = true) as -> by (apply Z.ltb_lt; lia).
    rewrite !orb_false_r, !andb_false_r, andb_true_r. cbn [orb]. f_equal. lia. }
  rewrite !testbit_byte_of by lia.
  assert ((n <? 8) = false) as -> by (apply Z.ltb_ge; lia).
  assert ((n - 8 <? 8) = false) as -> by (apply Z.ltb_ge; lia).
  assert ((n - 16 <? 8) = false) as -> by (apply Z.ltb_ge; lia).
  rewrite !andb_false_r. cbn [orb].
  destruct (Z_lt_le_dec n 32) as [H32 | H32].
  - assert ((n - 24 <? 8) = true) as -> by (apply Z.ltb_lt; lia).
    rewrite andb_true_r. f_equal. lia.
  - assert ((n - 24 <? 8) = false) as -> by (apply Z.ltb_ge; lia).
    rewrite andb_false_r. symmetry. apply Hhigh. lia.
Qed.

(** writing payload bytes touches no header field *)
Lemma buffer_set_fold_header (where_ : nat -> nat) (what : nat -> Z) l packet :
  let packet' :=
    fold_left (fun p i => buffer_set p (where_ i) (what i)) l packet in
  data_len packet' = data_len packet
  /\ packetType packet' = packetType packet
  /\ m_respnse_id packet' = m_respnse_id packet
  /\ checksum packet' = checksum packet
  /\ end_mark packet' = end_mark packet.
Proof.
  cbn zeta. revert packet. induction l as [| i l IH]; intros packet.
  - cbn. repeat split.
  - cbn [fold_left]. destruct (IH (buffer_set packet (where_ i) (what i)))
      as (-> & -> & -> & -> & ->). repeat split.
Qed.

(** the bytes [send_value] leaves in the buffer *)
Lemma buffer_set_fold_get (what : nat -> Z) n packet i :
  buffer (fold_left (fun p i => buffer_set p i (what i)) (seq 0 n) packet) i
  = if (i <? n)%nat then what i else buffer packet i.
Proof.
  induction n as [| n IH].
  - reflexivity.
  - rewrite seq_S, fold_left_app. cbn [fold_left buffer_set buffer Nat.add].
    rewrite IH. destruct (i =? n)%nat eqn:Heq; reflect_nat.
    + subst i. assert ((n <? S n)%nat = true) as -> by (apply Nat.ltb_lt; lia).
      reflexivity.
    + destruct (i <? n)%nat eqn:Hlt; reflect_nat.
      * assert ((i <? S n)%nat = true) as -> by (apply Nat.ltb_lt; lia).
        reflexivity.
      * assert ((i <? S n)%nat = false) as -> by (apply Nat.ltb_ge; lia).
        reflexivity.
Qed.

(** what [send_packet_to_altair] hands to the link *)
Lemma send_packet_to_altair_frame packet st n :
  data_len packet = 5 + Z.of_nat n -> (n <= 128)%nat ->
  send_packet_to_altair packet st =
    let '(id, st') :=
      if m_respnse_id packet =? 0xFF then generateID st
      else (m_respnse_id packet, st) in
    Some (send ([data_len packet; packetType packet; id; checksum packet]
                ++ map (buffer packet) (seq 0 n) ++ [end_mark packet]) st').
Proof.
  intros Hlen Hn. unfold send_packet_to_altair.
  destruct (if m_respnse_id packet =? 255 then generateID st
            else (m_respnse_id packet, st)) as [id st'].
  unfold payload, PACKET_HEADER_SIZE. rewrite Hlen.
  replace (Z.to_nat (5 + Z.of_nat n - 5)) with n by lia.
  assert ((128 <? n)%nat = false) as -> by (apply Nat.ltb_ge; lia).
  cbn [mbind option_bind]. rewrite <- !app_assoc. reflexivity.
Qed.

Lemma is_valid_response_frame len type id sum bytes :
  len = Z.of_nat (length bytes) + 5 ->
  PacketParser.is_valid_response ([len; type; id; sum] ++ bytes ++ [END_MARK])
  = true.
Proof.
  intros Hlen. unfold PacketParser.is_valid_response, PACKET_HEADER_SIZE.
  cbn [app]. rewrite !app_comm_cons, List.last_last.
  rewrite length_app. cbn [length app nth].
  destruct (_ <? Z.to_nat 5)%nat eqn:Hshort; reflect_nat; [lia |].
  rewrite Z.eqb_refl. cbn [negb].
  destruct (_ =? len) eqn:Hsame; [reflexivity |].
  apply Z.eqb_neq in Hsame. lia.
Qed.

End OutboundFacts.

Section OutboundTheorems.
Context `{Platform}.
Import Server.

(** one call of the outbound interface, spelled out *)
Lemma run_outbound_frame (call : Outbound) (st : AltairServer) :
  match call with SendValue n _ _ => (n <= 128)%nat | _ => True end ->
  exists type (n : nat) bytes register_as,
    let c := m_id_generator st in
    let wire_id := if c =? 0xFF then u8 (c + 1) else c in
    let next := if c =? 0xFF then u8 (u8 (c + 1) + 1) else u8 (c + 1) in
    length bytes = n
    /\ run_outbound call st =
         Some (send ([5 + Z.of_nat n; type; wire_id; 0] ++ bytes ++ [END_MARK])
                 (set_request_clients (register_as c (m_request_clients st))
                    (set_id_generator next st)))
    /\ (n <= 128)%nat
    /\ match call with
       | SendValue sizeof_T type' value =>
           type = type' /\ n = sizeof_T
           /\ bytes = map (byte_of value) (seq 0 sizeof_T)
           /\ register_as = (fun _ clients => clients)
       | GetCurrentTime client =>
           type = REQUEST_CURRENT_TIME /\ n = 4%nat
           /\ register_as = (fun id clients => <[id := client]> clients)
       | GetEventInRange start end_ client =>
           type = REQUEST_EVENT_LOG /\ n = 8%nat
           /\ bytes = map (byte_of start) (seq 0 4) ++ map (byte_of end_) (seq 0 4)
           /\ register_as = (fun id clients => <[id := client]> clients)
       | GetSensorInRange start end_ client =>
           type = REQUEST_SENSOR_LOGS /\ n = 8%nat
           /\ bytes = map (byte_of start) (seq 0 4) ++ map (byte_of end_) (seq 0 4)
           /\ register_as = (fun id clients => <[id := client]> clients)
       end.
Proof.
  intros Hfit. destruct call as [n type value | client | start end_ client | start end_ client];
    cbn [run_outbound].
  - exists type, n, (map (byte_of value) (seq 0 n)), (fun _ clients => clients).
    cbn zeta. split; [rewrite List.length_map, length_seq; reflexivity |].
    split; [| repeat split; exact Hfit].
    unfold send_value, generateID, IDGenerator.generateID.
    set (packet := fold_left _ _ _).
    destruct (buffer_set_fold_header (fun i => i) (byte_of value) (seq 0 n)
                (data_len_add
                   (PacketParser.create_message_packet type (m_id_generator st))
                   (Z.of_nat n))) as (Hlen & Htype & Hid & Hsum & Hend).
    fold packet in Hlen, Htype, Hid, Hsum, Hend.
    cbn [data_len_add PacketParser.create_message_packet data_len packetType
         m_respnse_id checksum end_mark] in Hlen, Htype, Hid, Hsum, Hend.
    unfold u8, PACKET_HEADER_SIZE in Hlen. rewrite Z.mod_small in Hlen by lia.
    rewrite (send_packet_to_altair_frame packet _ n Hlen Hfit).
    rewrite Hlen, Htype, Hid, Hsum, Hend.
    assert (map (buffer packet) (seq 0 n) = map (byte_of value) (seq 0 n)) as ->.
    { apply map_ext_in. intros i Hi. apply in_seq in Hi. subst packet.
      rewrite buffer_set_fold_get.
      assert ((i <? n)%nat = true) as -> by (apply Nat.ltb_lt; lia). reflexivity. }
    unfold generateID, IDGenerator.generateID.
    cbn [m_id_generator set_id_generator].
    destruct (m_id_generator st =? 255); reflexivity.
  - exists REQUEST_CURRENT_TIME, 4%nat, (map indeterminate (seq 0 4)),
      (fun id clients => <[id := client]> clients).
    cbn zeta. split; [reflexivity |]. split; [| repeat split; lia].
    unfold get_current_time, generateID, IDGenerator.generateID.
    cbn -[Z.eqb u8 Z.add]. unfold send_packet_to_altair.
    cbn -[Z.eqb u8 Z.add generateID].
    unfold generateID, IDGenerator.generateID.
    destruct (m_id_generator st =? 255); reflexivity.
  - exists REQUEST_EVENT_LOG, 8%nat,
      (map (byte_of start) (seq 0 4) ++ map (byte_of end_) (seq 0 4)),
      (fun id clients => <[id := client]> clients).
    cbn zeta. split; [reflexivity |]. split; [| repeat split; lia].
    unfold get_event_in_range, generateID, IDGenerator.generateID.
    cbn -[Z.eqb u8 Z.add byte_of]. unfold send_packet_to_altair.
    cbn -[Z.eqb u8 Z.add generateID byte_of].
    unfold generateID, IDGenerator.generateID.
    destruct (m_id_generator st =? 255); reflexivity.
  - exists REQUEST_SENSOR_LOGS, 8%nat,
      (map (byte_of start) (seq 0 4) ++ map (byte_of end_) (seq 0 4)),
      (fun id clients => <[id := client]> clients).
    cbn zeta. split; [reflexivity |]. split; [| repeat split; lia].
    unfold get_sensor_in_range, generateID, IDGenerator.generateID.
    cbn -[Z.eqb u8 Z.add byte_of]. unfold send_packet_to_altair.
    cbn -[Z.eqb u8 Z.add generateID byte_of].
    unfold generateID, IDGenerator.generateID.
    destruct (m_id_generator st =? 255); reflexivity.
Qed.

(** X8: [send_value] writes one packet to the link: the length byte
    [5 + sizeof(T)], the type, an id, a zero checksum, the bytes of the
    value lowest first, and the end marker.  It registers no pending
    request and sends nothing to any operator. *)
Theorem send_value_packet (sizeof_T : nat) (type value : Z) (st : AltairServer) :
  (sizeof_T <= 128)%nat ->
  exists st' id,
    send_value sizeof_T type value st = Some st'
    /\ m_connection st' = m_connection st ++
         [[5 + Z.of_nat sizeof_T; type; id; 0]
          ++ map (byte_of value) (seq 0 sizeof_T) ++ [END_MARK]]
    /\ m_request_clients st' = m_request_clients st
    /\ m_tcp_server st' = m_tcp_server st
    /\ m_sensor_data_manager st' = m_sensor_data_manager st
    /\ m_latest_data st' = m_latest_data st.
Proof.
  intros Hfit.
  destruct (run_outbound_frame (SendValue sizeof_T type value) st Hfit)
    as (type' & n & bytes & register_as & _ & Hrun & _ & -> & -> & -> & ->).
  cbn [run_outbound] in Hrun. rewrite Hrun.
  eexists. eexists. split; [reflexivity |]. repeat split.
Qed.

(** X9: with the allocator's counter in range, every call of the outbound
    interface writes exactly one packet, and that packet passes
    [is_valid_response], is as long as its first byte says, and does not
    carry the reserved id 0xFF; the counter stays in range. *)
Theorem outbound_packet_well_formed (call : Outbound) (st : AltairServer) :
  fits call -> 0 <= m_id_generator st < 256 ->
  exists st' frame,
    run_outbound call st = Some st'
    /\ m_connection st' = m_connection st ++ [frame]
    /\ PacketParser.is_valid_response frame = true
    /\ nth 0 frame 0 = Z.of_nat (length frame)
    /\ nth 2 frame 0 <> 0xFF
    /\ 0 <= m_id_generator st' < 256.
Proof.
  intros Hfit Hc.
  destruct (run_outbound_frame call st Hfit)
    as (type & n & bytes & register_as & Hlen & Hrun & Hn & _).
  cbn zeta in Hrun. rewrite Hrun. eexists. eexists. split; [reflexivity |].
  split; [reflexivity |].
  split; [apply is_valid_response_frame; lia |].
  split.
  { cbn [app nth length]. rewrite length_app. cbn [length]. lia. }
  cbn [app nth send set_request_clients set_id_generator m_id_generator].
  unfold u8.
  destruct (m_id_generator st =? 255) eqn:Hff.
  - apply Z.eqb_eq in Hff. rewrite Hff. vm_compute. split; [discriminate |].
    split; [discriminate | reflexivity].
  - apply Z.eqb_neq in Hff. split; [exact Hff |].
    apply Z.mod_pos_bound. lia.
Qed.

(** X10: a correlated request whose id from the allocator is not 0xFF
    registers its client under that id, replacing whoever was waiting under
    it, changes no other entry, and writes that id into the packet. *)
Theorem correlated_request_registers (call : Outbound) (client : nat)
    (st : AltairServer) :
  correlated call = Some client -> m_id_generator st <> 0xFF ->
  exists st' frame,
    run_outbound call st = Some st'
    /\ m_connection st' = m_connection st ++ [frame]
    /\ nth 2 frame 0 = m_id_generator st
    /\ m_request_clients st' !! m_id_generator st = Some client
    /\ forall id, id <> m_id_generator st ->
         m_request_clients st' !! id = m_request_clients st !! id.
Proof.
  intros Hcall Hid.
  assert (fits call) as Hfit by (destruct call; [discriminate | exact I ..]).
  destruct (run_outbound_frame call st Hfit)
    as (type & n & bytes & register_as & Hlen & Hrun & Hn & Hshape).
  cbn zeta in Hrun. rewrite Hrun.
  apply Z.eqb_neq in Hid as Hff. rewrite Hff.
  assert (register_as = (fun id clients => <[id := client]> clients)) as ->.
  { destruct call; cbn in Hcall; try discriminate;
      injection Hcall as <-; tauto. }
  eexists. eexists. split; [reflexivity |]. split; [reflexivity |].
  split; [reflexivity |].
  cbn [send set_request_clients m_request_clients].
  split; [apply lookup_insert_eq |].
  intros id Hne. apply lookup_insert_ne. congruence.
Qed.

End OutboundTheorems.

Lemma send_value_packet_witness :
  exists st' id,
    @Server.send_value zeroed 4 TIME_SEND 10000000 (constructed 0) = Some st'
    /\ m_connection st' = m_connection (constructed 0) ++
         [[5 + Z.of_nat 4; TIME_SEND; id; 0]
          ++ map (byte_of 10000000) (seq 0 4) ++ [END_MARK]]
    /\ m_request_clients st' = m_request_clients (constructed 0)
    /\ m_tcp_server st' = m_tcp_server (constructed 0)
    /\ m_sensor_data_manager st' = m_sensor_data_manager (constructed 0)
    /\ m_latest_data st' = m_latest_data (constructed 0).
Proof. apply (@send_value_packet zeroed). lia. Defined.

Lemma outbound_packet_well_formed_witness :
  exists st' frame,
    @run_outbound zeroed (GetSensorInRange 100 200 7%nat) (constructed 0) = Some st'
    /\ m_connection st' = m_connection (constructed 0) ++ [frame]
    /\ @PacketParser.is_valid_response frame = true
    /\ nth 0 frame 0 = Z.of_nat (length frame)
    /\ nth 2 frame 0 <> 0xFF
    /\ 0 <= m_id_generator st' < 256.
Proof.
  apply (@outbound_packet_well_formed zeroed); [exact I | simpl; lia].
Defined.

Lemma correlated_request_registers_witness :
  exists st' frame,
    @run_outbound zeroed (GetCurrentTime 7%nat) (constructed 0) = Some st'
    /\ m_connection st' = m_connection (constructed 0) ++ [frame]
    /\ nth 2 frame 0 = m_id_generator (constructed 0)
    /\ m_request_clients st' !! m_id_generator (constructed 0) = Some 7%nat
    /\ forall id, id <> m_id_generator (constructed 0) ->
         m_request_clients st' !! id = m_request_clients (constructed 0) !! id.
Proof.
  apply (@correlated_request_registers zeroed); [reflexivity | simpl; lia].
Defined.

(** * Further properties of the listen loop *)

Section ListenFacts.
Context `{Platform}.
Import Server.
Variable on_frame : list Z -> AltairServer -> option AltairServer.

Lemma listen_from_cons received link loop :
  listen_from on_frame (received :: link) loop =
    loop' ← listen_iteration on_frame received loop;
    listen_from on_frame link loop'.
Proof.
  unfold listen_from. cbn [foldl mbind option_bind].
  destruct (listen_iteration on_frame received loop) as [loop' |]; [reflexivity |].
  cbn. induction link as [| r link IH]; [reflexivity | exact IH].
Qed.

Lemma listen_from_app link1 link2 loop :
  listen_from on_frame (link1 ++ link2) loop =
    loop' ← listen_from on_frame link1 loop;
    listen_from on_frame link2 loop'.
Proof.
  revert loop. induction link1 as [| r link1 IH]; intros loop.
  - reflexivity.
  - cbn [app]. rewrite !listen_from_cons.
    destruct (listen_iteration on_frame r loop) as [loop' |]; [| reflexivity].
    cbn [mbind option_bind]. apply IH.
Qed.

(** the first byte of a line or frame, arriving while the loop is idle *)
Lemma listen_iteration_idle c st :
  c <> 0 -> c <> 10 ->
  listen_iteration on_frame (Some c) ([], st) = Some ([c], st).
Proof.
  intros Hz Hlf. unfold listen_iteration.
  assert ((c =? 0) = false) as -> by (apply Z.eqb_neq; exact Hz).
  cbn [andb app]. unfold Access.checked, Access.in_bounds, Access.index.
  cbn [Access.accesses Access.result forallb length Nat.ltb Nat.leb andb nth
       mbind option_bind].
  assert ((c =? 10) = false) as -> by (apply Z.eqb_neq; exact Hlf).
  destruct (isalpha c) eqn:Halpha; cbn [orb]; [reflexivity |].
  destruct (c =? END_MARK) eqn:Hend; [| reflexivity].
  apply Z.eqb_eq in Hend. subst c. discriminate Halpha.
Qed.

(** one byte while a text line is being accumulated *)
Lemma listen_iteration_text first pre c st :
  isalpha first || (first =? 10) = true ->
  listen_iteration on_frame (Some c) (first :: pre, st) =
    if c =? 10
    then Some ([], print (SatelliteDebug (first :: pre ++ [c])) st)
    else Some (first :: pre ++ [c], st).
Proof.
  intros Htext. unfold listen_iteration.
  rewrite bool_decide_eq_false_2 by discriminate. rewrite andb_false_r.
  rewrite checked_index by (cbn [length app]; lia).
  cbn [app nth mbind option_bind]. rewrite Htext.
  destruct (c =? 10); [| reflexivity].
  assert ((1 <? length (first :: pre ++ [c]))%nat = true) as ->.
  { apply Nat.ltb_lt. cbn [length]. rewrite length_app. cbn [length]. lia. }
  reflexivity.
Qed.

(** one byte while a binary frame is being accumulated *)
Lemma listen_iteration_binary n pre c st :
  isalpha n = false -> n <> 10 ->
  listen_iteration on_frame (Some c) (n :: pre, st) =
    if (c =? END_MARK) && (n <=? Z.of_nat (length (n :: pre)) + 1)
    then st' ← on_frame (n :: pre ++ [c]) st; Some ([], st')
    else Some (n :: pre ++ [c], st).
Proof.
  intros Halpha Hlf. unfold listen_iteration.
  rewrite bool_decide_eq_false_2 by discriminate. rewrite andb_false_r.
  rewrite checked_index by (cbn [length app]; lia).
  cbn [app nth mbind option_bind]. rewrite Halpha.
  assert ((n =? 10) = false) as -> by (apply Z.eqb_neq; exact Hlf).
  cbn [orb].
  replace (Z.of_nat (length (n :: pre ++ [c])))
    with (Z.of_nat (length (n :: pre)) + 1)
    by (cbn [length]; rewrite length_app; cbn [length]; lia).
  destruct (c =? END_MARK); [| reflexivity].
  cbn [andb]. destruct (n <=? _); reflexivity.
Qed.

Lemma listen_from_text first pre bytes st :
  isalpha first || (first =? 10) = true ->
  Forall (fun c => c <> 10) bytes ->
  listen_from on_frame (map Some bytes) (first :: pre, st)
  = Some (first :: pre ++ bytes, st).
Proof.
  intros Htext Hbytes. revert pre.
  induction Hbytes as [| c bytes Hc _ IH]; intros pre.
  - cbn [map]. rewrite app_nil_r. reflexivity.
  - cbn [map]. rewrite listen_from_cons, listen_iteration_text by exact Htext.
    assert ((c =? 10) = false) as -> by (apply Z.eqb_neq; exact Hc).
    cbn [mbind option_bind]. rewrite IH, <- app_assoc. reflexivity.
Qed.

Lemma listen_from_binary n pre bytes st :
  isalpha n = false -> n <> 10 ->
  (forall k, bytes !! k = Some END_MARK ->
             Z.of_nat (length (n :: pre)) + Z.of_nat k + 1 < n) ->
  listen_from on_frame (map Some bytes) (n :: pre, st)
  = Some (n :: pre ++ bytes, st).
Proof.
  intros Halpha Hlf. revert pre.
  induction bytes as [| c bytes IH]; intros pre Hearly.
  - cbn [map]. rewrite app_nil_r. reflexivity.
  - cbn [map]. rewrite listen_from_cons, listen_iteration_binary by assumption.
    assert ((c =? END_MARK) && (n <=? Z.of_nat (length (n :: pre)) + 1) = false)
      as ->.
    { destruct (c =? END_MARK) eqn:Hend; [| reflexivity].
      apply Z.eqb_eq in Hend. subst c. cbn [andb]. apply Z.leb_gt.
      specialize (Hearly 0%nat eq_refl). lia. }
    cbn [mbind option_bind]. rewrite IH.
    + rewrite <- app_assoc. reflexivity.
    + intros k Hk. specialize (Hearly (S k) Hk).
      cbn [length] in *. rewrite length_app. cbn [length]. lia.
Qed.

Lemma listen_text_line_idle (line : list Z) (st : AltairServer) :
  text_line line ->
  listen_from on_frame (map Some line) ([], st)
  = Some ([], print (SatelliteDebug line) st).
Proof.
  intros (first & rest & -> & Halpha & Hrest).
  assert (first <> 0) as Hz by (intros ->; discriminate Halpha).
  assert (first <> 10) as Hlf by (intros ->; discriminate Halpha).
  cbn [map]. rewrite listen_from_cons, listen_iteration_idle by assumption.
  cbn [mbind option_bind]. rewrite map_app, listen_from_app.
  rewrite listen_from_text by (rewrite ?Halpha; done).
  cbn [mbind option_bind map app]. rewrite listen_from_cons.
  rewrite listen_iteration_text by (rewrite Halpha; reflexivity).
  reflexivity.
Qed.

Lemma listen_binary_frame_idle (frame : list Z) (st : AltairServer) :
  binary_frame frame ->
  listen_from on_frame (map Some frame) ([], st)
  = st' ← on_frame frame st; Some ([], st').
Proof.
  intros (n & body & -> & Hz & Halpha & Hlf & Hlen & Hearly).
  cbn [map]. rewrite listen_from_cons, listen_iteration_idle by assumption.
  cbn [mbind option_bind]. rewrite map_app, listen_from_app.
  rewrite listen_from_binary; [| assumption | assumption |].
  - cbn [mbind option_bind map app]. rewrite listen_from_cons.
    rewrite listen_iteration_binary by assumption.
    rewrite Z.eqb_refl. cbn [andb].
    assert ((n <=? Z.of_nat (length (n :: body)) + 1) = true) as ->.
    { apply Z.leb_le. cbn [length app] in *. rewrite length_app in Hlen.
      cbn [length] in Hlen. lia. }
    destruct (on_frame (n :: body ++ [END_MARK]) st); reflexivity.
  - intros k Hk. specialize (Hearly k Hk). cbn [length]. lia.
Qed.

(** X11: a debug line arriving while the loop is idle is printed as one
    "Satellite Debug" line when its line feed arrives; nothing is
    dispatched, and the loop is idle again. *)
Theorem listen_text_line (line : list Z) (st : AltairServer) :
  text_line line ->
  listen_from on_frame (map Some line) ([], st)
  = Some ([], print (SatelliteDebug line) st).
Proof. apply listen_text_line_idle. Qed.

(** X12: a binary frame arriving while the loop is idle is handed to
    [handle_response] once, whole, when its last byte arrives, and the loop
    is idle again; end markers inside the frame do not end it as long as
    the declared length is not reached. *)
Theorem listen_binary_frame_whole (frame : list Z) (st : AltairServer) :
  binary_frame frame ->
  listen_from on_frame (map Some frame) ([], st)
  = st' ← on_frame frame st; Some ([], st').
Proof. apply listen_binary_frame_idle. Qed.

(** a debug line, a binary frame and another debug line, arriving one
    after the other, give the three events in that order: the first line is
    printed, the frame is dispatched, the second line is printed. *)
Theorem listen_text_binary_text (line1 frame line2 : list Z) (st : AltairServer) :
  text_line line1 -> binary_frame frame -> text_line line2 ->
  listen_from on_frame (map Some (line1 ++ frame ++ line2)) ([], st)
  = st' ← on_frame frame (print (SatelliteDebug line1) st);
    Some ([], print (SatelliteDebug line2) st').
Proof.
  intros Hline1 Hframe Hline2.
  rewrite map_app, listen_from_app.
  rewrite (listen_text_line_idle line1 st Hline1). cbn [mbind option_bind].
  rewrite map_app, listen_from_app.
  rewrite (listen_binary_frame_idle frame _ Hframe).
  destruct (on_frame frame (print (SatelliteDebug line1) st)) as [st' |];
    [| reflexivity].
  cbn [mbind option_bind]. apply listen_text_line_idle, Hline2.
Qed.

(** zero bytes and failed reads arriving while the loop is idle leave
    it idle; a zero byte changes nothing at all, a failed read only prints
    "Error". *)
Theorem listen_idle_noise (link : list (option Z)) (st : AltairServer) :
  Forall (fun received => received = None \/ received = Some 0) link ->
  exists st',
    listen_from on_frame link ([], st) = Some ([], st')
    /\ m_connection st' = m_connection st
    /\ m_tcp_server st' = m_tcp_server st
    /\ m_request_clients st' = m_request_clients st
    /\ m_sensor_data_manager st' = m_sensor_data_manager st
    /\ m_latest_data st' = m_latest_data st
    /\ cout st' = cout st
         ++ replicate (length (filter (fun r => r = None) link)) ReceiveError.
Proof.
  intros Hnoise. revert st. induction Hnoise as [| r link Hr _ IH]; intros st.
  - exists st. cbn. rewrite app_nil_r. repeat split.
  - rewrite listen_from_cons. destruct Hr as [-> | ->].
    + change (listen_iteration on_frame None ([], st))
        with (Some (@nil Z, print ReceiveError st)).
      cbn [mbind option_bind].
      destruct (IH (print ReceiveError st)) as (st' & -> & ? & ? & ? & ? & ? & Hout).
      exists st'. repeat split; try assumption.
      rewrite Hout. rewrite filter_cons_True by reflexivity.
      cbn [length replicate cout print]. rewrite <- app_assoc. reflexivity.
    + change (listen_iteration on_frame (Some 0) ([], st))
        with (Some (@nil Z, st)).
      cbn [mbind option_bind].
      destruct (IH st) as (st' & -> & ? & ? & ? & ? & ? & Hout).
      exists st'. repeat split; assumption.
Qed.

End ListenFacts.

(** * Further properties of the dispatcher *)

Section DispatchFacts.
Context `{Platform}.
Import Server.

(** what the handler table holds *)
Lemma init_response_handlers_lookup (type : Z) :
  init_response_handlers !! type =
    if type =? BEACON then Some handle_beacon
    else if type =? RESPONSE_CURRENT_TIME then Some handle_response_current_time
    else if type =? EVENT_LOG_END then Some handle_event_log_end
    else if type =? EVENT_LOG then Some handle_event_log
    else if type =? EVENT then Some handle_event
    else if type =? NACK then Some handle_nack
    else if type =? ACK then Some handle_ack
    else if type =? TOTAL_LOGS then Some handle_sensor_log_end
    else if type =? SENSOR_LOG then Some handle_sensor_log
    else if type =? TIME_REQUEST then Some handle_time_request
    else None.
Proof.
  unfold init_response_handlers. cbn zeta.
  repeat (rewrite lookup_insert; case_decide;
          [ subst type; reflexivity
          | match goal with
            | |- context [type =? ?k] =>
                assert ((type =? k) = false) as ->
                  by (apply Z.eqb_neq; congruence)
            end ]).
  apply lookup_empty.
Qed.

Lemma init_response_handlers_none (type : Z) :
  type ∉ handled_types -> init_response_handlers !! type = None.
Proof.
  intros Hnot. rewrite init_response_handlers_lookup.
  unfold handled_types in Hnot.
  repeat (apply not_elem_of_cons in Hnot as [? Hnot]).
  repeat match goal with
         | |- context [type =? ?k] =>
             assert ((type =? k) = false) as -> by (apply Z.eqb_neq; assumption)
         end.
  reflexivity.
Qed.

(** [handle_response] on a frame with a header whose length is not 9 *)
Lemma handle_response_plain response type id st :
  (5 <= length response)%nat -> length response <> 9%nat ->
  response !! 1%nat = Some type -> response !! 2%nat = Some id ->
  handle_response init_response_handlers response st =
    match init_response_handlers !! type with
    | Some handler => handler response id st
    | None => Some (print (UnknownResponseType type) st)
    end.
Proof.
  intros Hlen Hnine Htype Hid. rewrite handle_response_dispatch by exact Hlen.
  assert ((length response =? 9)%nat = false) as -> by (apply Nat.eqb_neq; exact Hnine).
  unfold dispatch.
  destruct response as [| b0 [| b1 [| b2 rest]]]; try discriminate.
  cbn in Htype, Hid. injection Htype as ->. injection Hid as ->. reflexivity.
Qed.

(** X13: a frame shorter than the header, or of a type without handler
    (the ground-to-satellite types and every unassigned code), is logged and
    dropped: the server changes in [cout] only. *)
Theorem handle_response_drops (frame : list Z) (st : AltairServer) :
  (length frame < 5)%nat \/ nth 1 (compensated frame) 0 ∉ handled_types ->
  exists line,
    handle_response init_response_handlers frame st = Some (print line st)
    /\ (line = InvalidResponseSize
        \/ line = UnknownResponseType (nth 1 (compensated frame) 0)).
Proof.
  intros Hdrop. destruct (le_lt_dec 5 (length frame)) as [Hlong | Hshort].
  - destruct Hdrop as [Hlt | Htype]; [lia |].
    exists (UnknownResponseType (nth 1 (compensated frame) 0)).
    split; [| right; reflexivity].
    rewrite handle_response_dispatch by exact Hlong.
    unfold dispatch. fold (compensated frame).
    rewrite init_response_handlers_none by exact Htype. reflexivity.
  - exists InvalidResponseSize. split; [| left; reflexivity].
    unfold handle_response, PACKET_HEADER_SIZE.
    assert ((Z.of_nat (length frame) <? 5) = true) as -> by (apply Z.ltb_lt; lia).
    reflexivity.
Qed.

(** a frame with a header goes to the handler of the type the dispatcher
    reads, which is byte 1 of the frame after the compensation of a 9-byte
    frame, together with the id it reads, byte 2 of the same *)
Lemma handle_response_compensated (frame : list Z) (st : AltairServer) :
  (5 <= length frame)%nat ->
  handle_response init_response_handlers frame st =
    match init_response_handlers !! nth 1 (compensated frame) 0 with
    | Some handler =>
        handler (compensated frame) (nth 2 (compensated frame) 0) st
    | None =>
        Some (print (UnknownResponseType (nth 1 (compensated frame) 0)) st)
    end.
Proof.
  intros Hlen. rewrite handle_response_dispatch by exact Hlen. reflexivity.
Qed.

Lemma compensated_length (frame : list Z) :
  (length frame <= length (compensated frame))%nat.
Proof.
  unfold compensated. destruct (length frame =? 9)%nat; cbn [length]; lia.
Qed.

(** X14: the reply that ends a request (ACK, NACK, TOTAL_LOGS,
    EVENT_LOG_END), arriving for an id somebody waits under, sends that
    operator the text of the reply and removes the entry of the id; every
    other entry, the link, the sensor index, the latest reading and the ID
    counter stay as they are.  Type and id are the ones the dispatcher
    reads: bytes 1 and 2 of the frame, and of a 9-byte frame bytes 0 and 1,
    since such a frame is first prefixed with the byte 10. *)
Theorem terminal_reply_completes (frame : list Z) (type id : Z) (client : nat)
    (text : string) (st : AltairServer) :
  (5 <= length frame)%nat ->
  nth 1 (compensated frame) 0 = type -> nth 2 (compensated frame) 0 = id ->
  terminal_text type = Some text ->
  m_request_clients st !! id = Some client ->
  exists st',
    handle_response init_response_handlers frame st = Some st'
    /\ m_tcp_server st' = m_tcp_server st ++ [(client, text)]
    /\ m_request_clients st' = delete id (m_request_clients st)
    /\ m_connection st' = m_connection st
    /\ m_sensor_data_manager st' = m_sensor_data_manager st
    /\ m_latest_data st' = m_latest_data st
    /\ m_id_generator st' = m_id_generator st.
Proof.
  intros Hlen Htype Hid Htext Hreg.
  rewrite (handle_response_compensated frame st Hlen), Htype, Hid.
  clear Htype Hid.
  rewrite init_response_handlers_lookup. unfold terminal_text in Htext.
  destruct (type =? ACK) eqn:Hack.
  { apply Z.eqb_eq in Hack. subst type. injection Htext as <-.
    cbn [Z.eqb Pos.eqb BEACON RESPONSE_CURRENT_TIME EVENT_LOG_END EVENT_LOG
         EVENT NACK ACK]. unfold handle_ack. rewrite Hreg.
    eexists. split; [reflexivity |]. repeat split. }
  destruct (type =? NACK) eqn:Hnack.
  { apply Z.eqb_eq in Hnack. subst type. injection Htext as <-.
    cbn [Z.eqb Pos.eqb BEACON RESPONSE_CURRENT_TIME EVENT_LOG_END EVENT_LOG
         EVENT NACK]. unfold handle_nack. rewrite Hreg.
    eexists. split; [reflexivity |]. repeat split. }
  destruct (type =? TOTAL_LOGS) eqn:Htotal.
  { apply Z.eqb_eq in Htotal. subst type. injection Htext as <-.
    cbn [Z.eqb Pos.eqb BEACON RESPONSE_CURRENT_TIME EVENT_LOG_END EVENT_LOG
         EVENT NACK ACK TOTAL_LOGS]. unfold handle_sensor_log_end. rewrite Hreg.
    eexists. split; [reflexivity |]. repeat split. }
  destruct (type =? EVENT_LOG_END) eqn:Hend; [| discriminate].
  apply Z.eqb_eq in Hend. subst type. injection Htext as <-.
  cbn [Z.eqb Pos.eqb BEACON RESPONSE_CURRENT_TIME EVENT_LOG_END].
  unfold handle_event_log_end. rewrite Hreg.
  eexists. split; [reflexivity |]. repeat split.
Qed.

(** X15: a reply of a correlated type (ACK, NACK, TOTAL_LOGS,
    EVENT_LOG_END, RESPONSE_CURRENT_TIME) for an id nobody waits under
    changes nothing at all.  Type and id are the ones the dispatcher reads,
    after the compensation of a 9-byte frame. *)
Theorem correlator_miss_is_silent (frame : list Z) (type id : Z)
    (st : AltairServer) :
  (5 <= length frame)%nat ->
  nth 1 (compensated frame) 0 = type -> nth 2 (compensated frame) 0 = id ->
  type ∈ [ACK; NACK; TOTAL_LOGS; EVENT_LOG_END; RESPONSE_CURRENT_TIME] ->
  m_request_clients st !! id = None ->
  handle_response init_response_handlers frame st = Some st.
Proof.
  intros Hlen Htype Hid Hkind Hmiss.
  rewrite (handle_response_compensated frame st Hlen), Htype, Hid.
  clear Htype Hid.
  rewrite init_response_handlers_lookup.
  repeat (apply elem_of_cons in Hkind as [-> | Hkind];
          [ cbn [Z.eqb Pos.eqb BEACON RESPONSE_CURRENT_TIME EVENT_LOG_END
                 EVENT_LOG EVENT NACK ACK TOTAL_LOGS];
            unfold handle_ack, handle_nack, handle_sensor_log_end,
                   handle_event_log_end, handle_response_current_time;
            rewrite Hmiss; reflexivity | ]).
  apply not_elem_of_nil in Hkind. contradiction.
Qed.

End DispatchFacts.

(** five bytes are enough for the read [parse_event_data] always makes,
    and nine for all of them *)
Lemma parse_event_data_in_bounds `{Platform} response event_data :
  (5 <= length response)%nat ->
  Access.in_bounds response
    (PacketParser.parse_event_data response event_data) = true.
Proof.
  intros Hlen. unfold Access.in_bounds, PacketParser.parse_event_data.
  cbn [Nat.add]. destruct (8 <? length response)%nat eqn:Hlong; reflect_nat;
    cbn -[Nat.ltb]; repeat (apply andb_true_intro; split);
    try reflexivity; apply Nat.ltb_lt; lia.
Qed.

Section HandlerFacts.
Context `{Platform}.
Import Server.

(** X16: a frame of at least 8 bytes that the dispatcher reads as
    RESPONSE_CURRENT_TIME, for an id somebody waits under, sends that
    operator "Current time: ", the local time of the 32-bit value stored
    lowest byte first at offsets 4 to 7, and a line feed, and removes the
    entry of the id.  Type, id and offsets are those of the frame after the
    compensation of a 9-byte frame. *)
Theorem response_current_time_delivers (frame : list Z) (id : Z) (client : nat)
    (st : AltairServer) :
  (8 <= length frame)%nat ->
  nth 1 (compensated frame) 0 = RESPONSE_CURRENT_TIME ->
  nth 2 (compensated frame) 0 = id ->
  m_request_clients st !! id = Some client ->
  let at_ i := nth i (compensated frame) 0 in
  exists st',
    handle_response init_response_handlers frame st = Some st'
    /\ m_tcp_server st' = m_tcp_server st ++
         [(client,
           "Current time: "
           +:+ PacketParser.format_timestamp
                 (le32 (at_ 4%nat) (at_ 5%nat) (at_ 6%nat) (at_ 7%nat))
           +:+ nl)]
    /\ m_request_clients st' = delete id (m_request_clients st)
    /\ m_connection st' = m_connection st
    /\ m_sensor_data_manager st' = m_sensor_data_manager st.
Proof.
  intros Hlen Htype Hid Hreg. cbn zeta.
  rewrite (handle_response_compensated frame st ltac:(lia)), Htype, Hid.
  clear Htype Hid.
  pose proof (compensated_length frame) as Hframe.
  set (cf := compensated frame) in *.
  rewrite init_response_handlers_lookup.
  cbn [Z.eqb Pos.eqb BEACON RESPONSE_CURRENT_TIME].
  unfold handle_response_current_time. rewrite Hreg.
  unfold Access.checked, Access.in_bounds.
  cbn [mbind access_bind Access.bind Access.index Access.accesses
       Access.result mret access_ret Access.ret app forallb Nat.add].
  assert ((4 <? length cf)%nat = true) as -> by (apply Nat.ltb_lt; lia).
  assert ((5 <? length cf)%nat = true) as -> by (apply Nat.ltb_lt; lia).
  assert ((6 <? length cf)%nat = true) as -> by (apply Nat.ltb_lt; lia).
  assert ((7 <? length cf)%nat = true) as -> by (apply Nat.ltb_lt; lia).
  cbn [andb option_bind].
  rewrite (nth_indep cf (beyond 4) 0), (nth_indep cf (beyond 5) 0),
    (nth_indep cf (beyond 6) 0), (nth_indep cf (beyond 7) 0) by lia.
  eexists. split; [reflexivity |]. repeat split.
Qed.


(** X18: a frame with a header that the dispatcher reads as EVENT_LOG
    prints the event parsed from it and, if somebody waits under its id,
    sends that operator the event's text; the entry of the id stays, so that
    more events can follow.  Type, id and the parsed bytes are those of the
    frame after the compensation of a 9-byte frame. *)
Theorem event_log_streams (frame : list Z) (id : Z) (st : AltairServer) :
  (5 <= length frame)%nat ->
  nth 1 (compensated frame) 0 = EVENT_LOG -> nth 2 (compensated frame) 0 = id ->
  let event_data :=
    Access.result
      (PacketParser.parse_event_data (compensated frame)
         indeterminate_EventData) in
  exists st',
    handle_response init_response_handlers frame st = Some st'
    /\ cout st' = cout st ++ [PrintEvent event_data]
    /\ m_request_clients st' = m_request_clients st
    /\ m_tcp_server st' = m_tcp_server st ++
         match m_request_clients st !! id with
         | Some client =>
           [(client, nl +:+ "Event log data:" +:+ nl
                     +:+ PacketParser.event_data_to_string event_data)]
         | None => []
         end
    /\ m_connection st' = m_connection st
    /\ m_sensor_data_manager st' = m_sensor_data_manager st.
Proof.
  intros Hlen Htype Hid. cbn zeta.
  rewrite (handle_response_compensated frame st Hlen), Htype, Hid.
  clear Htype Hid.
  pose proof (compensated_length frame) as Hframe.
  rewrite init_response_handlers_lookup.
  cbn [Z.eqb Pos.eqb BEACON RESPONSE_CURRENT_TIME EVENT_LOG_END EVENT_LOG].
  unfold handle_event_log, Access.checked.
  rewrite (parse_event_data_in_bounds (compensated frame)
             indeterminate_EventData ltac:(lia)).
  cbn [mbind option_bind print m_request_clients].
  destruct (m_request_clients st !! id) as [client |];
    (eexists; split; [reflexivity |]); repeat split;
    cbn [m_tcp_server sendMessage print]; rewrite ?app_nil_r; reflexivity.
Qed.

(** X19: a frame with a header that the dispatcher reads as TIME_REQUEST
    (byte 1, or byte 0 of a 9-byte frame) is answered with one TIME_SEND
    packet whose four payload bytes are the ground station's clock, lowest
    byte first; nobody is registered and no operator hears of it. *)
Theorem time_request_reply (frame : list Z) (st : AltairServer) :
  (5 <= length frame)%nat -> nth 1 (compensated frame) 0 = TIME_REQUEST ->
  exists st' wire_id b0 b1 b2 b3,
    handle_response init_response_handlers frame st = Some st'
    /\ m_connection st' = m_connection st ++
         [[9; TIME_SEND; wire_id; 0; b0; b1; b2; b3; END_MARK]]
    /\ le32 b0 b1 b2 b3 = u32 (system_clock st)
    /\ cout st' = cout st ++ [SendingTime (u32 (system_clock st))]
    /\ m_request_clients st' = m_request_clients st
    /\ m_tcp_server st' = m_tcp_server st.
Proof.
  intros Hlen Htype.
  rewrite (handle_response_compensated frame st Hlen), Htype.
  rewrite init_response_handlers_lookup.
  cbn [Z.eqb Pos.eqb BEACON RESPONSE_CURRENT_TIME EVENT_LOG_END EVENT_LOG
       EVENT NACK ACK TOTAL_LOGS SENSOR_LOG TIME_REQUEST].
  unfold handle_time_request, send_current_time.
  destruct (run_outbound_frame (SendValue 4 TIME_SEND (u32 (system_clock st))) st
              ltac:(cbn; lia))
    as (type' & n & bytes & register_as & _ & Hrun & _ & -> & -> & -> & ->).
  cbn [run_outbound] in Hrun. rewrite Hrun. cbn [mbind option_bind].
  do 6 eexists. split; [reflexivity |].
  split; [reflexivity |].
  split; [apply le32_byte_of; apply Z.mod_pos_bound; lia |].
  repeat split.
Qed.

End HandlerFacts.

(** * What each activity of the server keeps *)

Section InvariantFacts.
Context `{Platform}.
Import Server.

(** the invariant looks at three members only *)
Lemma invariant_members st st' :
  m_sensor_data_manager st' = m_sensor_data_manager st ->
  m_id_generator st' = m_id_generator st ->
  m_connection st' = m_connection st ->
  server_invariant st -> server_invariant st'.
Proof.
  intros Hindex Hid Hlink (Hreach & Hrange & Hframes).
  unfold server_invariant. rewrite Hindex, Hid, Hlink. repeat split; assumption || lia.
Qed.

Lemma invariant_outbound call st st' :
  fits call -> run_outbound call st = Some st' ->
  server_invariant st -> server_invariant st'.
Proof.
  intros Hfit Hrun (Hreach & Hrange & Hframes).
  destruct (run_outbound_frame call st Hfit)
    as (type & n & bytes & register_as & Hlen & Hrun' & Hn & _).
  cbn zeta in Hrun'. rewrite Hrun' in Hrun. injection Hrun as <-.
  unfold server_invariant.
  cbn [send set_request_clients set_id_generator m_sensor_data_manager
       m_id_generator m_connection].
  split; [exact Hreach |]. split.
  - unfold u8. destruct (m_id_generator st =? 255); apply Z.mod_pos_bound; lia.
  - apply Forall_app. split; [exact Hframes |].
    apply Forall_cons. split; [| apply Forall_nil; exact I].
    split; [apply is_valid_response_frame; lia |].
    cbn [app nth]. unfold u8.
    destruct (m_id_generator st =? 255) eqn:Hff.
    + apply Z.eqb_eq in Hff. rewrite Hff. vm_compute. discriminate.
    + apply Z.eqb_neq in Hff. exact Hff.
Qed.

Lemma invariant_send_value n type value st st' :
  (n <= 128)%nat -> send_value n type value st = Some st' ->
  server_invariant st -> server_invariant st'.
Proof. intros Hn. apply (invariant_outbound (SendValue n type value)). exact Hn. Qed.

Lemma invariant_handler handler type frame id st st' :
  init_response_handlers !! type = Some handler ->
  handler frame id st = Some st' ->
  server_invariant st -> server_invariant st'.
Proof.
  rewrite init_response_handlers_lookup. intros Hlookup Hrun Hinv.
  repeat match type of Hlookup with
         | (if ?b then _ else _) = _ => destruct b
         end; try discriminate; injection Hlookup as <-.
  - (* BEACON *)
    unfold handle_beacon in Hrun.
    destruct (Access.checked _ _) as [data |]; [| discriminate].
    cbn in Hrun. injection Hrun as <-.
    revert Hinv. apply invariant_members; reflexivity.
  - (* RESPONSE_CURRENT_TIME *)
    unfold handle_response_current_time in Hrun.
    destruct (m_request_clients st !! id); [| injection Hrun as <-; exact Hinv].
    destruct (Access.checked _ _); [| discriminate].
    cbn in Hrun. injection Hrun as <-.
    revert Hinv. apply invariant_members; reflexivity.
  - (* EVENT_LOG_END *)
    unfold handle_event_log_end in Hrun.
    destruct (m_request_clients st !! id); injection Hrun as <-; [| exact Hinv].
    revert Hinv. apply invariant_members; reflexivity.
  - (* EVENT_LOG *)
    unfold handle_event_log in Hrun.
    destruct (Access.checked _ _); [| discriminate]. cbn in Hrun.
    destruct (m_request_clients st !! id); injection Hrun as <-;
      revert Hinv; apply invariant_members; reflexivity.
  - (* EVENT *)
    unfold handle_event in Hrun.
    destruct (Access.checked _ _); [| discriminate]. cbn in Hrun.
    injection Hrun as <-. revert Hinv. apply invariant_members; reflexivity.
  - (* NACK *)
    unfold handle_nack in Hrun.
    destruct (m_request_clients st !! id); injection Hrun as <-; [| exact Hinv].
    revert Hinv. apply invariant_members; reflexivity.
  - (* ACK *)
    unfold handle_ack in Hrun.
    destruct (m_request_clients st !! id); injection Hrun as <-; [| exact Hinv].
    revert Hinv. apply invariant_members; reflexivity.
  - (* TOTAL_LOGS *)
    unfold handle_sensor_log_end in Hrun.
    destruct (m_request_clients st !! id); injection Hrun as <-; [| exact Hinv].
    revert Hinv. apply invariant_members; reflexivity.
  - (* SENSOR_LOG *)
    unfold handle_sensor_log in Hrun.
    destruct (Access.checked _ _) as [data |]; [| discriminate]. cbn in Hrun.
    destruct (ServerDataManager.insertSensorData data (m_sensor_data_manager st))
      as [ok index] eqn:Hins.
    assert (server_invariant (set_sensor_data_manager index st)) as Hinv'.
    { destruct Hinv as (Hreach & Hrange & Hframes). repeat split; try assumption.
      - cbn. replace index
          with (snd (ServerDataManager.insertSensorData data (m_sensor_data_manager st)))
          by (rewrite Hins; reflexivity).
        apply reachable_insert, Hreach.
      - cbn. lia.
      - cbn. lia. }
    cbn [set_sensor_data_manager m_request_clients] in Hrun.
    destruct (m_request_clients st !! id); injection Hrun as <-; [| exact Hinv'].
    revert Hinv'. apply invariant_members; reflexivity.
  - (* TIME_REQUEST *)
    unfold handle_time_request, send_current_time in Hrun.
    destruct (send_value 4 TIME_SEND _ st) as [st1 |] eqn:Hsend; [| discriminate].
    cbn in Hrun. injection Hrun as <-.
    apply (invariant_send_value 4 _ _ _ _ ltac:(lia) Hsend) in Hinv.
    revert Hinv. apply invariant_members; reflexivity.
Qed.

Lemma invariant_handle_response frame st st' :
  handle_response init_response_handlers frame st = Some st' ->
  server_invariant st -> server_invariant st'.
Proof.
  unfold handle_response. intros Hrun Hinv.
  destruct (_ <? PACKET_HEADER_SIZE).
  { injection Hrun as <-. revert Hinv. apply invariant_members; reflexivity. }
  destruct (Access.checked _ (Access.index _ 1)) as [type |];
    cbn [mbind option_bind] in Hrun; [| discriminate].
  destruct (Access.checked _ (Access.index _ 2)) as [id |];
    cbn [mbind option_bind] in Hrun; [| discriminate].
  destruct (init_response_handlers !! type) as [handler |] eqn:Hlookup.
  - exact (invariant_handler handler type _ id st st' Hlookup Hrun Hinv).
  - injection Hrun as <-. revert Hinv. apply invariant_members; reflexivity.
Qed.

Lemma invariant_listen_iteration received response st response' st' :
  listen_iteration (handle_response init_response_handlers) received (response, st)
    = Some (response', st') ->
  server_invariant st -> server_invariant st'.
Proof.
  unfold listen_iteration. intros Hrun Hinv.
  destruct received as [c |].
  2: { injection Hrun as <- <-. revert Hinv. apply invariant_members; reflexivity. }
  destruct (_ && _); [injection Hrun as <- <-; exact Hinv |].
  destruct (Access.checked _ _) as [first |];
    cbn [mbind option_bind] in Hrun; [| discriminate].
  destruct (_ || _).
  - destruct (c =? 10); [| injection Hrun as <- <-; exact Hinv].
    destruct (1 <? _)%nat; injection Hrun as <- <-; [| exact Hinv].
    revert Hinv. apply invariant_members; reflexivity.
  - destruct (c =? END_MARK); [| injection Hrun as <- <-; exact Hinv].
    destruct (first <=? _); [| injection Hrun as <- <-; exact Hinv].
    destruct (handle_response _ _ st) as [st1 |] eqn:Hframe; [| discriminate].
    cbn in Hrun. injection Hrun as <- <-.
    exact (invariant_handle_response _ st st1 Hframe Hinv).
Qed.

End InvariantFacts.

Section RequestInvariant.
Context `{Platform}.
Import Server.

(** take one step into the body of [handle_request] *)
Ltac enter_request Hrun :=
  match type of Hrun with
  | (let '(_, _) := ?x in _) = Some _ => destruct x eqn:?
  | (if ?b then _ else _) = Some _ => destruct b eqn:?
  | (?m ≫= _) = Some _ =>
      let Hcall := fresh "Hcall" in
      destruct m eqn:Hcall; cbn [mbind option_bind] in Hrun;
      [| discriminate Hrun]
  end.

(** the server after a call of the outbound interface *)
Ltac after_call Hinv :=
  match goal with
  | Hcall : update_light ?v ?s = Some ?a |- server_invariant ?a =>
      exact (invariant_send_value 1 UPDATE_LIGHT v s a ltac:(lia) Hcall Hinv)
  | Hcall : update_min_temp ?v ?s = Some ?a |- server_invariant ?a =>
      exact (invariant_send_value 1 UPDATE_MIN_TEMP v s a ltac:(lia) Hcall Hinv)
  | Hcall : update_max_temp ?v ?s = Some ?a |- server_invariant ?a =>
      exact (invariant_send_value 1 UPDATE_MAX_TEMP v s a ltac:(lia) Hcall Hinv)
  | Hcall : update_humidity ?v ?s = Some ?a |- server_invariant ?a =>
      exact (invariant_send_value 1 UPDATE_HUMIDITY v s a ltac:(lia) Hcall Hinv)
  | Hcall : update_voltage ?v ?s = Some ?a |- server_invariant ?a =>
      exact (invariant_send_value 4 UPDATE_VOLTAGE v s a ltac:(lia) Hcall Hinv)
  | Hcall : send_custom_time ?v ?s = Some ?a |- server_invariant ?a =>
      exact (invariant_send_value 4 TIME_SEND v s a ltac:(lia) Hcall Hinv)
  | Hcall : get_current_time ?c ?s = Some ?a |- server_invariant ?a =>
      exact (invariant_outbound (GetCurrentTime c) s a I Hcall Hinv)
  | Hcall : get_sensor_in_range ?t1 ?t2 ?c ?s = Some ?a |- server_invariant ?a =>
      exact (invariant_outbound (GetSensorInRange t1 t2 c) s a I Hcall Hinv)
  | Hcall : get_event_in_range ?t1 ?t2 ?c ?s = Some ?a |- server_invariant ?a =>
      exact (invariant_outbound (GetEventInRange t1 t2 c) s a I Hcall Hinv)
  end.

Lemma invariant_handle_request message client st st' :
  handle_request message client st = Some st' ->
  server_invariant st -> server_invariant st'.
Proof.
  unfold handle_request. intros Hrun Hinv.
  assert (server_invariant (print (ReceivedMessage message) st)) as Hinv0
    by (revert Hinv; apply invariant_members; reflexivity).
  clear Hinv. set (st0 := print (ReceivedMessage message) st) in *.
  clearbody st0.
  repeat enter_request Hrun;
    try (injection Hrun as <-);
    first
      [ after_call Hinv0
      | match goal with
        | |- server_invariant (sendMessage _ _ st0) =>
            apply (invariant_members st0); [reflexivity .. | exact Hinv0]
        | |- server_invariant (sendMessage _ _ ?a) =>
            apply (invariant_members a); [reflexivity .. |]; after_call Hinv0
        end ].
Qed.

(** the same for a sequence of inputs *)
(** the listen loop keeps the invariant *)
Lemma invariant_listen_from link response st response' st' :
  listen_from (handle_response init_response_handlers) link (response, st)
    = Some (response', st') ->
  server_invariant st -> server_invariant st'.
Proof.
  revert response st. induction link as [| received link IH];
    intros response st Hrun Hinv.
  - injection Hrun as <- <-. exact Hinv.
  - rewrite listen_from_cons in Hrun.
    destruct (listen_iteration _ received (response, st))
      as [[response1 st1] |] eqn:Hturn; [| discriminate].
    cbn [mbind option_bind] in Hrun.
    apply (IH response1 st1 Hrun).
    exact (invariant_listen_iteration _ _ _ _ _ Hturn Hinv).
Qed.

(** X20: each of the two activities of the server keeps its invariant over
    a stretch in which the other does not run: the listen loop over whatever
    the link delivers, and one operator request.  As long as the handlers
    stay inside the frames they read, the sensor index stays one that
    inserts alone have built (strictly sorted by timestamp), the ID counter
    stays a byte, and every packet ever written to the link passes
    [is_valid_response] and does not carry the reserved id 0xFF.  (The
    source runs the two on different threads without a lock; nothing is said
    here about a request that runs while a turn of the loop is under way.) *)
Theorem server_invariant_kept (st st' : AltairServer) :
  server_invariant st ->
  (exists link response response',
     listen_from (handle_response init_response_handlers) link (response, st)
       = Some (response', st'))
  \/ (exists message client, handle_request message client st = Some st') ->
  server_invariant st' /\ sorted_index (m_sensor_data_manager st').
Proof.
  intros Hinv Hrun.
  assert (server_invariant st') as Hinv'.
  { destruct Hrun as [(link & response & response' & Hlisten)
                     | (message & client & Hrequest)].
    - exact (invariant_listen_from _ _ _ _ _ Hlisten Hinv).
    - exact (invariant_handle_request _ _ _ _ Hrequest Hinv). }
  split; [exact Hinv' |]. apply reachable_sorted, Hinv'.
Qed.

End RequestInvariant.

(** * Further properties of the operator commands *)

Section RequestFacts.
Context `{Platform}.
Import Server.

(** [send_value], for use below *)
Lemma send_value_frame (sizeof_T : nat) (type value : Z) (st : AltairServer) :
  (sizeof_T <= 128)%nat ->
  exists st' id,
    send_value sizeof_T type value st = Some st'
    /\ m_connection st' = m_connection st ++
         [[5 + Z.of_nat sizeof_T; type; id; 0]
          ++ map (byte_of value) (seq 0 sizeof_T) ++ [END_MARK]]
    /\ m_request_clients st' = m_request_clients st
    /\ m_tcp_server st' = m_tcp_server st.
Proof.
  intros Hfit.
  destruct (run_outbound_frame (SendValue sizeof_T type value) st Hfit)
    as (type' & n & bytes & register_as & _ & Hrun & _ & -> & -> & -> & ->).
  cbn [run_outbound] in Hrun. rewrite Hrun.
  eexists. eexists. split; [reflexivity |]. repeat split.
Qed.

(** decide the comparisons of the command word once it is known *)
Ltac pick_command :=
  repeat match goal with
         | |- context [String.eqb ?a ?b] =>
             let r := eval vm_compute in (String.eqb a b) in
             change (String.eqb a b) with r
         end;
  cbv iota.

(** X21: [set_time T] with a latest reading on record and [T] before its
    timestamp is refused: the operator gets the error text naming that
    timestamp and nothing is written to the link.  Otherwise one TIME_SEND
    packet carries [T], lowest byte first, and the operator is told the
    local time set. *)
Theorem set_time_monotone (message : string) (client : nat) (new_time : Z)
    (iss iss' : Stream.t) (st : AltairServer) :
  command_of message = ("set_time"%string, iss) ->
  Stream.get_uint32 iss = (Some new_time, iss') -> Stream.fail iss' = false ->
  let latest := timestamp (m_latest_data st) in
  exists st',
    handle_request message client st = Some st'
    /\ m_request_clients st' = m_request_clients st
    /\ if (0 <? latest) && (new_time <? latest)
       then m_connection st' = m_connection st
            /\ m_tcp_server st' = m_tcp_server st ++
                 [(client,
                   "Error: Cannot set time before the latest sensor data timestamp ("
                   +:+ pretty latest +:+ ")")]
       else exists id,
            m_connection st' = m_connection st ++
              [[9; TIME_SEND; id; 0] ++ map (byte_of new_time) (seq 0 4)
               ++ [END_MARK]]
            /\ m_tcp_server st' = m_tcp_server st ++
                 [(client,
                   nl +:+ "Set custom time to:"
                   +:+ PacketParser.format_timestamp new_time +:+ nl)].
Proof.
  intros Hcommand Hvalue Hfail. cbn zeta. unfold command_of in Hcommand.
  unfold handle_request. rewrite Hcommand. pick_command.
  rewrite Hvalue, Hfail. cbn [mbind option_bind print m_latest_data].
  destruct ((0 <? timestamp (m_latest_data st))
            && (new_time <? timestamp (m_latest_data st))).
  - eexists. split; [reflexivity |]. repeat split.
  - destruct (send_value_frame 4 TIME_SEND new_time
                (print (ReceivedMessage message) st) ltac:(lia))
      as (st1 & id & Hsend & Hlink & Hclients & Htcp).
    unfold send_custom_time. rewrite Hsend. cbn [mbind option_bind].
    eexists. split; [reflexivity |].
    split; [exact Hclients |]. exists id.
    cbn [sendMessage m_connection m_tcp_server]. rewrite Hlink, Htcp.
    split; reflexivity.
Qed.

(** X22: [update_humidity N] with a number [N] from 0 to 100 writes one
    UPDATE_HUMIDITY packet with the payload byte [N] and tells the operator
    so; with any other number it answers with the range error and writes
    nothing to the link.  Neither registers a pending request. *)
Theorem update_humidity_range (message : string) (client : nat) (humidity : Z)
    (iss iss' : Stream.t) (st : AltairServer) :
  command_of message = ("update_humidity"%string, iss) ->
  Stream.get_int iss = (Some humidity, iss') -> Stream.fail iss' = false ->
  exists st',
    handle_request message client st = Some st'
    /\ m_request_clients st' = m_request_clients st
    /\ if (0 <=? humidity) && (humidity <=? 100)
       then exists id,
            m_connection st' = m_connection st ++
              [[6; UPDATE_HUMIDITY; id; 0; humidity; END_MARK]]
            /\ m_tcp_server st' = m_tcp_server st ++
                 [(client, "Humidity updated to " +:+ pretty humidity +:+ "%")]
       else m_connection st' = m_connection st
            /\ m_tcp_server st' = m_tcp_server st ++
                 [(client, "Error: Humidity value must be between 0 and 100"%string)].
Proof.
  intros Hcommand Hvalue Hfail. unfold command_of in Hcommand.
  unfold handle_request. rewrite Hcommand. pick_command.
  rewrite Hvalue, Hfail. cbn [mbind option_bind].
  destruct ((0 <=? humidity) && (humidity <=? 100)) eqn:Hrange.
  - apply andb_true_iff in Hrange as [Hlo Hhi].
    apply Z.leb_le in Hlo. apply Z.leb_le in Hhi.
    destruct (send_value_frame 1 UPDATE_HUMIDITY (u8 humidity)
                (print (ReceivedMessage message) st) ltac:(lia))
      as (st1 & id & Hsend & Hlink & Hclients & Htcp).
    unfold update_humidity. rewrite Hsend. cbn [mbind option_bind].
    eexists. split; [reflexivity |].
    split; [exact Hclients |]. exists id.
    cbn [sendMessage m_connection m_tcp_server]. rewrite Hlink, Htcp.
    split; [| reflexivity]. cbn [print m_connection seq map app].
    unfold byte_of, u8. rewrite Z.mod_small by lia.
    rewrite Z.shiftr_0_r. change 255 with (Z.ones 8).
    rewrite Z.land_ones, Z.mod_small by lia. reflexivity.
  - eexists. split; [reflexivity |]. repeat split.
Qed.

(** X23: [update_min_temp N] and [update_max_temp N] put [N] reduced to a
    byte into the packet while the operator is told [N]: every number that
    fits an [int] is accepted, and one outside 0..255 is sent as its
    remainder modulo 256. *)
Theorem update_temp_truncates (message : string) (client : nat) (value : Z)
    (iss iss' : Stream.t) (st : AltairServer) (which : bool) :
  command_of message =
    ((if which then "update_min_temp" else "update_max_temp")%string, iss) ->
  Stream.get_int iss = (Some value, iss') -> Stream.fail iss' = false ->
  exists st' id,
    handle_request message client st = Some st'
    /\ m_connection st' = m_connection st ++
         [[6; if which then UPDATE_MIN_TEMP else UPDATE_MAX_TEMP; id; 0;
           value mod 256; END_MARK]]
    /\ m_tcp_server st' = m_tcp_server st ++
         [(client,
           (if which then "Minimum temperature updated to "
            else "Maximum temperature updated to ")
           +:+ pretty value +:+ "°C")].
Proof.
  intros Hcommand Hvalue Hfail. unfold command_of in Hcommand.
  unfold handle_request. rewrite Hcommand.
  assert (byte_of (u8 value) 0 = value mod 256) as Hbyte.
  { unfold byte_of, u8. rewrite Z.shiftr_0_r. change 255 with (Z.ones 8).
    rewrite Z.land_ones, Z.mod_mod by lia. reflexivity. }
  destruct which; pick_command; rewrite Hvalue, Hfail;
    cbn [mbind option_bind].
  - destruct (send_value_frame 1 UPDATE_MIN_TEMP (u8 value)
                (print (ReceivedMessage message) st) ltac:(lia))
      as (st1 & id & Hsend & Hlink & Hclients & Htcp).
    unfold update_min_temp. rewrite Hsend. cbn [mbind option_bind].
    exists (sendMessage client
              ("Minimum temperature updated to " +:+ pretty value +:+ "°C") st1), id.
    split; [reflexivity |].
    cbn [sendMessage m_connection m_tcp_server]. rewrite Hlink, Htcp.
    cbn [print m_connection m_tcp_server seq map app]. rewrite Hbyte.
    split; reflexivity.
  - destruct (send_value_frame 1 UPDATE_MAX_TEMP (u8 value)
                (print (ReceivedMessage message) st) ltac:(lia))
      as (st1 & id & Hsend & Hlink & Hclients & Htcp).
    unfold update_max_temp. rewrite Hsend. cbn [mbind option_bind].
    exists (sendMessage client
              ("Maximum temperature updated to " +:+ pretty value +:+ "°C") st1), id.
    split; [reflexivity |].
    cbn [sendMessage m_connection m_tcp_server]. rewrite Hlink, Htcp.
    cbn [print m_connection m_tcp_server seq map app]. rewrite Hbyte.
    split; reflexivity.
Qed.

(** X24: [get_recent_sensor_data] asks the satellite for the sensor logs
    of the 50 seconds up to the latest beacon, the start clamped at 0, and
    registers the operator for the replies; before any beacon with a
    positive timestamp it answers with an error and writes nothing. *)
Theorem get_recent_sensor_data_window (message : string) (client : nat)
    (iss : Stream.t) (st : AltairServer) :
  command_of message = ("get_recent_sensor_data"%string, iss) ->
  m_id_generator st <> 0xFF ->
  let latest := timestamp (m_latest_data st) in
  exists st',
    handle_request message client st = Some st'
    /\ if 0 <? latest
       then m_connection st' = m_connection st ++
              [[13; REQUEST_SENSOR_LOGS; m_id_generator st; 0]
               ++ map (byte_of (Z.max (latest - 50) 0)) (seq 0 4)
               ++ map (byte_of latest) (seq 0 4) ++ [END_MARK]]
            /\ m_request_clients st' !! m_id_generator st = Some client
            /\ m_tcp_server st' = m_tcp_server st ++
                 [(client, "Retrieving sensor data from the last minute..."%string)]
       else m_connection st' = m_connection st
            /\ m_request_clients st' = m_request_clients st
            /\ m_tcp_server st' = m_tcp_server st ++
                 [(client,
                   "Error: No sensor data available yet. Wait for a beacon."%string)].
Proof.
  intros Hcommand Hid. cbn zeta. unfold command_of in Hcommand.
  unfold handle_request. rewrite Hcommand. pick_command.
  cbn [print m_latest_data].
  destruct (0 <? timestamp (m_latest_data st)) eqn:Hpositive.
  - apply Z.ltb_lt in Hpositive.
    set (start_time := if 50 <? _ then _ else 0).
    assert (start_time = Z.max (timestamp (m_latest_data st) - 50) 0) as Hstart.
    { subst start_time. destruct (50 <? _) eqn:Hlate.
      - apply Z.ltb_lt in Hlate. lia.
      - apply Z.ltb_ge in Hlate. lia. }
    destruct (run_outbound_frame
                (GetSensorInRange start_time (timestamp (m_latest_data st)) client)
                (print (ReceivedMessage message) st) I)
      as (type & n & bytes & register_as & Hlen & Hrun & _ & -> & -> & -> & ->).
    cbn zeta in Hrun. cbn [run_outbound] in Hrun. rewrite Hrun.
    cbn [mbind option_bind print m_id_generator].
    apply Z.eqb_neq in Hid as Hff. rewrite Hff.
    eexists. split; [reflexivity |].
    cbn [sendMessage send set_request_clients set_id_generator print
         m_connection m_request_clients m_tcp_server].
    rewrite Hstart, <- app_assoc. repeat split.
    apply lookup_insert_eq.
  - eexists. split; [reflexivity |]. repeat split.
Qed.

(** a message whose first word is none of the command words is
    answered with the unknown-command text naming that word; nothing is
    written to the link, no request is registered, and no stored state
    changes. *)
Theorem unknown_command_answered (message : string) (client : nat)
    (st : AltairServer) :
  fst (command_of message) ∉ known_commands ->
  handle_request message client st =
    Some (sendMessage client
            ("Unknown command: " +:+ fst (command_of message)
             +:+ ". Type 'help' for available commands.")
            (print (ReceivedMessage message) st)).
Proof.
  intros Hunknown. unfold command_of in *. unfold handle_request.
  destruct (Stream.get_string (Stream.open message) "") as [command iss].
  cbn [fst] in *. unfold known_commands in Hunknown.
  repeat match goal with
         | |- context [String.eqb command ?word] =>
             destruct (String.eqb_spec command word) as [-> | _];
             [exfalso; apply Hunknown; set_solver |]
         end.
  reflexivity.
Qed.

End RequestFacts.

(** * The satellite end of the link *)

Section SatelliteFacts.
Context `{Platform}.
Import Satellite.

(** the bytes [send_message] hands to the queue *)
Lemma send_message_frame (message : MessagePacket) (queue : Queue) :
  5 <= data_len message <= 128 ->
  send_message message queue =
    Some (queue ++
            [[data_len message; packetType message; m_respnse_id message;
              checksum message]
             ++ map (buffer message)
                  (seq 0 (Z.to_nat (data_len message - HEADER_LEN)))
             ++ [END_MARK]]).
Proof.
  intros Hlen. unfold send_message.
  assert ((data_len message =? 0) || (128 <? data_len message) = false) as ->.
  { apply orb_false_iff. split; [apply Z.eqb_neq | apply Z.ltb_ge]; lia. }
  do 2 f_equal. f_equal.
  set (k := Z.to_nat (data_len message - HEADER_LEN)).
  assert (Z.to_nat (data_len message) = (4 + k + 1)%nat) as ->
    by (unfold k, HEADER_LEN; lia).
  assert (Z.to_nat (data_len message - 1) = (4 + k)%nat) as ->
    by (unfold k, HEADER_LEN; lia).
  rewrite !seq_app, !map_app. cbn [seq map app Nat.add].
  assert (forall (a : nat -> Z) j, j <> (4 + k)%nat ->
            store a (4 + k) END_MARK j = a j) as Hother.
  { intros a j Hj. unfold store.
    destruct (Nat.eqb_spec j (4 + k)); [contradiction | reflexivity]. }
  rewrite !Hother by lia.
  f_equal; [| f_equal; [| f_equal; [| f_equal]]].
  - destruct (0 <? _); reflexivity.
  - destruct (0 <? _); reflexivity.
  - destruct (0 <? _); reflexivity.
  - destruct (0 <? _); reflexivity.
  - f_equal.
    + rewrite <- (seq_shift k 3), <- (seq_shift k 2), <- (seq_shift k 1),
        <- (seq_shift k 0), !map_map.
      apply map_ext_in. intros j Hj%in_seq.
      rewrite Hother by lia.
      destruct (0 <? data_len message - HEADER_LEN) eqn:Hpos.
      * unfold memcpy.
        assert ((4 <=? S (S (S (S j))))%nat && (S (S (S (S j))) <? 4 + k)%nat
                = true) as ->.
        { apply andb_true_iff. split; [apply Nat.leb_le | apply Nat.ltb_lt]; lia. }
        f_equal. lia.
      * apply Z.ltb_ge in Hpos. unfold k in Hj. lia.
    + unfold store. rewrite Nat.eqb_refl. reflexivity.
Qed.


(** the ten bytes of an event packet *)
Lemma send_event_packet_frame (event_data : EventData) (queue : Queue) :
  send_event_packet event_data queue =
    Some (queue ++
            [[10; PACKET_TYPE_EVENT; 0xFF; 8; u8 (event event_data)]
             ++ map (byte_of (ev_timestamp event_data)) (seq 0 4)
             ++ [END_MARK]]).
Proof.
  unfold send_event_packet. rewrite send_message_frame by (cbn; lia).
  reflexivity.
Qed.

Lemma listen_line_feed_idle (on_frame : list Z -> AltairServer -> option AltairServer)
    (st : AltairServer) :
  Server.listen_iteration on_frame (Some 10) ([], st) = Some ([], st).
Proof. reflexivity. Qed.

Lemma handle_response_event (ev t0 t1 t2 t3 : Z) (st : AltairServer) :
  Server.handle_response Server.init_response_handlers
    [7; 0xFF; 8; ev; t0; t1; t2; t3; END_MARK] st =
  Some (Server.print (PrintEvent {| ev_timestamp := le32 t0 t1 t2 t3; event := ev |})
          (Server.print EventHeading st)).
Proof.
  unfold Server.handle_response. cbn [length Z.of_nat].
  change (Z.of_nat 9 <? PACKET_HEADER_SIZE) with false. cbv iota.
  cbn [Nat.eqb]. cbv zeta.
  change (Access.checked _ (Access.index _ 1)) with (Some 7).
  change (Access.checked _ (Access.index _ 2)) with (Some 0xFF).
  cbn [mbind option_bind].
  rewrite init_response_handlers_lookup.
  reflexivity.
Qed.


Lemma handle_response_unknown (frame : list Z) (st : AltairServer) :
  (5 <= length frame)%nat -> length frame <> 9%nat ->
  frame !! 1%nat = Some 0xFF ->
  Server.handle_response Server.init_response_handlers frame st =
  Some (Server.print (UnknownResponseType 0xFF) st).
Proof.
  intros Hlen Hnine Htype.
  destruct (frame !! 2%nat) as [id |] eqn:Hid.
  - rewrite (handle_response_plain frame _ id st Hlen Hnine Htype Hid).
    rewrite init_response_handlers_lookup. reflexivity.
  - apply lookup_ge_None in Hid. lia.
Qed.

(** X25: an event packet whose timestamp has no 0x55 in its two high bytes
    reaches the ground station's log: the loop reads the length byte 10 as
    an empty line, reassembles the nine bytes left, and [handle_response]
    prints the event with the timestamp the satellite sent. *)
Theorem event_packet_arrives (event_data : EventData) (queue : Queue)
    (st : AltairServer) :
  0 <= ev_timestamp event_data < 2 ^ 32 ->
  byte_of (ev_timestamp event_data) 2 <> END_MARK ->
  byte_of (ev_timestamp event_data) 3 <> END_MARK ->
  exists frame,
    send_event_packet event_data queue = Some (queue ++ [frame])
    /\ Server.listen (map Some frame) st =
       Some ([], Server.print
                   (PrintEvent {| ev_timestamp := ev_timestamp event_data;
                                  event := u8 (event event_data) |})
                   (Server.print EventHeading st)).
Proof.
  intros Hrange H2 H3. eexists. split; [apply send_event_packet_frame |].
  set (tail := [PACKET_TYPE_EVENT; 0xFF; 8; u8 (event event_data);
                byte_of (ev_timestamp event_data) 0;
                byte_of (ev_timestamp event_data) 1;
                byte_of (ev_timestamp event_data) 2;
                byte_of (ev_timestamp event_data) 3; END_MARK]).
  change (Server.listen (map Some (10 :: tail)) st = Some
    ([], Server.print
                   (PrintEvent {| ev_timestamp := ev_timestamp event_data;
                                  event := u8 (event event_data) |})
                   (Server.print EventHeading st))).
  unfold Server.listen. rewrite map_cons.
  rewrite listen_from_cons, listen_line_feed_idle. cbn [mbind option_bind].
  rewrite listen_binary_frame_idle.
  - subst tail. unfold PACKET_TYPE_EVENT.
    rewrite handle_response_event, le32_byte_of by exact Hrange. reflexivity.
  - exists 7, [0xFF; 8; u8 (event event_data);
               byte_of (ev_timestamp event_data) 0;
               byte_of (ev_timestamp event_data) 1;
               byte_of (ev_timestamp event_data) 2;
               byte_of (ev_timestamp event_data) 3].
    split; [reflexivity |]. split; [discriminate |].
    split; [reflexivity |]. split; [discriminate |].
    split; [cbn; lia |].
    intros i Hi.
    do 5 (destruct i as [| i]; [cbn; lia |]).
    destruct i as [| i]; [injection Hi as Hi; contradiction |].
    destruct i as [| i]; [injection Hi as Hi; contradiction |].
    discriminate.
Qed.

(** the two ways an event packet is cut *)
Lemma event_packet_cut_cases (event_data : EventData) (queue : Queue)
    (st : AltairServer) :
  let t := ev_timestamp event_data in
  exists frame,
    send_event_packet event_data queue = Some (queue ++ [frame])
    /\ (byte_of t 2 = END_MARK ->
        Server.listen (map Some (take 8 frame)) st =
        Some ([], Server.print (UnknownResponseType 0xFF) st))
    /\ (byte_of t 2 <> END_MARK -> byte_of t 3 = END_MARK ->
        Server.listen (map Some (take 9 frame)) st =
        Some ([], Server.print (UnknownResponseType 0xFF) st)
        /\ Server.listen (map Some frame) st =
           Some ([END_MARK], Server.print (UnknownResponseType 0xFF) st)).
Proof.
  cbn zeta. eexists. split; [apply send_event_packet_frame |]. split.
  - intros H2.
    set (tail := [PACKET_TYPE_EVENT; 0xFF; 8; u8 (event event_data);
                  byte_of (ev_timestamp event_data) 0;
                  byte_of (ev_timestamp event_data) 1;
                  byte_of (ev_timestamp event_data) 2]).
    change (Server.listen (map Some (10 :: tail)) st =
            Some ([], Server.print (UnknownResponseType 0xFF) st)).
    unfold Server.listen. rewrite map_cons.
    rewrite listen_from_cons, listen_line_feed_idle. cbn [mbind option_bind].
    rewrite listen_binary_frame_idle.
    + rewrite handle_response_unknown; [reflexivity | cbn; lia | cbn; lia
                                        | reflexivity].
    + exists 7, [0xFF; 8; u8 (event event_data);
                 byte_of (ev_timestamp event_data) 0;
                 byte_of (ev_timestamp event_data) 1].
      split; [subst tail; rewrite H2; reflexivity |]. split; [discriminate |].
      split; [reflexivity |]. split; [discriminate |].
      split; [cbn; lia |].
      intros i Hi.
      do 5 (destruct i as [| i]; [cbn; lia |]). discriminate.
  - intros H2 H3.
    set (tail := [PACKET_TYPE_EVENT; 0xFF; 8; u8 (event event_data);
                  byte_of (ev_timestamp event_data) 0;
                  byte_of (ev_timestamp event_data) 1;
                  byte_of (ev_timestamp event_data) 2;
                  byte_of (ev_timestamp event_data) 3]).
    assert (Server.listen (map Some (10 :: tail)) st =
            Some ([], Server.print (UnknownResponseType 0xFF) st)) as Hcut.
    { unfold Server.listen. rewrite map_cons.
      rewrite listen_from_cons, listen_line_feed_idle. cbn [mbind option_bind].
      rewrite listen_binary_frame_idle.
      - rewrite handle_response_unknown; [reflexivity | cbn; lia | cbn; lia
                                          | reflexivity].
      - exists 7, [0xFF; 8; u8 (event event_data);
                   byte_of (ev_timestamp event_data) 0;
                   byte_of (ev_timestamp event_data) 1;
                   byte_of (ev_timestamp event_data) 2].
        split; [subst tail; rewrite H3; reflexivity |]. split; [discriminate |].
        split; [reflexivity |]. split; [discriminate |].
        split; [cbn; lia |].
        intros i Hi.
        do 5 (destruct i as [| i]; [cbn; lia |]).
        destruct i as [| i]; [injection Hi as Hi; contradiction |].
        discriminate. }
    split; [exact Hcut |].
    change (Server.listen (map Some ((10 :: tail) ++ [END_MARK])) st =
            Some ([END_MARK], Server.print (UnknownResponseType 0xFF) st)).
    unfold Server.listen in *. rewrite map_app, listen_from_app, Hcut.
    reflexivity.
Qed.

(** X26: an event packet whose timestamp has 0x55 as its third or fourth
    byte does not reach the log: the loop takes that byte for the end
    marker, and the frame it cuts there is dropped as of unknown type 0xFF.
    With 0x55 as fourth byte only, the real end marker then opens a text
    line, so that the loop is not idle after the packet. *)
Theorem event_packet_cut (event_data : EventData) (queue : Queue)
    (st : AltairServer) :
  let t := ev_timestamp event_data in
  byte_of t 2 = END_MARK \/ byte_of t 3 = END_MARK ->
  exists frame,
    send_event_packet event_data queue = Some (queue ++ [frame])
    /\ Server.listen
         (map Some (take (if byte_of t 2 =? END_MARK then 8 else 9) frame)) st =
       Some ([], Server.print (UnknownResponseType 0xFF) st)
    /\ (byte_of t 2 <> END_MARK ->
        Server.listen (map Some frame) st =
        Some ([END_MARK], Server.print (UnknownResponseType 0xFF) st)).
Proof.
  cbn zeta. intros Hbyte.
  destruct (event_packet_cut_cases event_data queue st)
    as (frame & Hsend & Hthird & Hfourth).
  exists frame. split; [exact Hsend |].
  destruct (Z.eqb_spec (byte_of (ev_timestamp event_data) 2) END_MARK)
    as [H2 | H2].
  - split; [exact (Hthird H2) | contradiction].
  - destruct Hbyte as [? | H3]; [contradiction |].
    destruct (Hfourth H2 H3) as [Hcut Hwhole].
    split; [exact Hcut | intros _; exact Hwhole].
Qed.



Lemma percentage_update_cases (type : Z) (attribute : UpdateAttribute) :
  percentage_update type = Some attribute ->
  (type = UPDATE_MIN_TEMP /\ attribute = UPDATE_MIN_TEMP_LIMIT)
  \/ (type = UPDATE_MAX_TEMP /\ attribute = UPDATE_MAX_TEMP_LIMIT)
  \/ (type = UPDATE_HUMIDITY /\ attribute = UPDATE_HUMIDITY_LIMIT)
  \/ (type = UPDATE_LIGHT /\ attribute = UPDATE_LIGHT_LIMIT).
Proof.
  unfold percentage_update. intros Hupd.
  repeat match type of Hupd with
         | (if ?t =? ?c then _ else _) = _ =>
             destruct (Z.eqb_spec t c) as [-> | _];
             [injection Hupd as <-; tauto |]
         end.
  discriminate.
Qed.

(** the satellite's answer to a one-byte update packet *)
Lemma altair_message_handler_update (type id value : Z)
    (attribute : UpdateAttribute) (send_data : Queue) (fw : Firmware) :
  percentage_update type = Some attribute ->
  altair_message_handler send_data [6; type; id; 0; value; END_MARK] fw =
    if value <=? 100
    then Some (send_data ++ [[5; ACK; id; 0; END_MARK]],
               put_limits {| setting_buffer := [value];
                             update_attribute := attribute |} fw)
    else Some (send_data ++ [[5; NACK; id; 0; END_MARK]], fw).
Proof.
  intros Hupd.
  destruct (percentage_update_cases _ _ Hupd) as
    [[-> ->] | [[-> ->] | [[-> ->] | [-> ->]]]];
    unfold altair_message_handler;
    change (wrap_message [6; ?t; id; 0; value; END_MARK])
      with (Some {| data_len := 6; packetType := t; m_respnse_id := id;
                    checksum := 0;
                    buffer := memcpy indeterminate 0
                                (fun i => nth (4 + i) [6; t; id; 0; value; END_MARK]
                                            (beyond (4 + i)%nat)) 1;
                    end_mark := END_MARK |});
    cbn [mbind option_bind packetType];
    match goal with
    | |- context [if ?t =? PACKET_TYPE_GET_CLOCK then _ else _] =>
        repeat match goal with
               | |- context [t =? ?c] =>
                   let r := eval vm_compute in (t =? c) in
                   change (t =? c) with r; cbv iota
               end
    end;
    unfold handle_update_min_temp, handle_update_max_temp,
      handle_update_humidity, handle_update_light, handle_update_percentage,
      update_setting_and_notify, send_ack, send_nack;
    rewrite !send_message_frame by (compute; split; discriminate);
    change (validate_percentage_value _) with (value <=? 100);
    destruct (value <=? 100); reflexivity.
Qed.

(** the ground station's handling of a bare reply *)
Lemma listen_reply (type id : Z) (st : AltairServer) :
  Server.listen (map Some [5; type; id; 0; END_MARK]) st =
  st' ← Server.handle_response Server.init_response_handlers
         [5; type; id; 0; END_MARK] st;
  Some ([], st').
Proof.
  unfold Server.listen. apply listen_binary_frame_idle.
  exists 5, [type; id; 0].
  split; [reflexivity |]. split; [discriminate |].
  split; [reflexivity |]. split; [discriminate |].
  split; [cbn; lia |].
  intros i Hi. do 2 (destruct i as [| i]; [cbn; lia |]).
  destruct i as [| i]; discriminate.
Qed.

(** X27: a one-byte limit update, followed through the link and back.  The
    ground station writes the packet; the satellite stores the limit and
    answers ACK if the byte is at most 100, and answers NACK without storing
    it otherwise; the answer carries the packet's id.  Back on the ground it
    goes to whoever is registered under that id, and to nobody if nobody
    is: the update itself registers nobody. *)
Theorem update_round_trip (type value : Z) (attribute : UpdateAttribute)
    (st : AltairServer) (send_data : Queue) (fw : Firmware) :
  percentage_update type = Some attribute -> 0 <= value < 256 ->
  exists st1 id reply,
    Server.send_value 1 type value st = Some st1
    /\ m_connection st1 = m_connection st ++ [[6; type; id; 0; value; END_MARK]]
    /\ altair_message_handler send_data [6; type; id; 0; value; END_MARK] fw =
         Some (send_data ++ [reply],
               if value <=? 100
               then put_limits {| setting_buffer := [value];
                                  update_attribute := attribute |} fw
               else fw)
    /\ reply = [5; if value <=? 100 then ACK else NACK; id; 0; END_MARK]
    /\ Server.listen (map Some reply) st1 =
         Some ([], match m_request_clients st !! id with
                   | Some other =>
                       Server.erase id
                         (Server.sendMessage other
                            (if value <=? 100 then "Sucess operation"
                             else "Request failed. Please try again.") st1)
                   | None => st1
                   end).
Proof.
  intros Hupd Hvalue.
  destruct (send_value_frame 1 type value st ltac:(lia))
    as (st1 & id & Hsend & Hlink & Hclients & _).
  assert (byte_of value 0 = value) as Hbyte.
  { unfold byte_of. rewrite Z.shiftr_0_r. change 255 with (Z.ones 8).
    rewrite Z.land_ones, Z.mod_small by lia. reflexivity. }
  cbn [seq map app Z.of_nat Z.add Pos.add] in Hlink. rewrite Hbyte in Hlink.
  exists st1, id, [5; if value <=? 100 then ACK else NACK; id; 0; END_MARK].
  split; [exact Hsend |]. split; [exact Hlink |].
  rewrite (altair_message_handler_update _ _ _ _ _ _ Hupd).
  split; [destruct (value <=? 100); reflexivity |].
  split; [reflexivity |].
  rewrite listen_reply.
  rewrite (handle_response_plain _ (if value <=? 100 then ACK else NACK) id)
    by (cbn; first [lia | reflexivity]).
  rewrite init_response_handlers_lookup, <- Hclients.
  destruct (value <=? 100);
    cbn [Z.eqb Pos.eqb ACK NACK BEACON RESPONSE_CURRENT_TIME EVENT_LOG_END
         EVENT_LOG EVENT];
    unfold Server.handle_ack, Server.handle_nack;
    destruct (m_request_clients st1 !! id); reflexivity.
Qed.




End SatelliteFacts.

Section LogFacts.
Context `{Platform}.
Import Satellite.

(** the packet of one entry of an event log *)
Lemma send_event_log_frame (event_data : list EventData) (data : EventData)
    (messagePacket : MessagePacket) (send_data : Queue) (id : Z) :
  data_len messagePacket = 11 -> packetType messagePacket = EVENT_LOG ->
  m_respnse_id messagePacket = id -> checksum messagePacket = 8 ->
  buffer messagePacket 5%nat = indeterminate 5 ->
  exists messagePacket',
    send_event_log event_data (Some (messagePacket, send_data)) data =
      Some (messagePacket',
            send_data ++
              [[11; EVENT_LOG; id; 8; u8 (event data)]
               ++ map (byte_of (ev_timestamp
                                  (nth 0 event_data Server.indeterminate_EventData)))
                    (seq 0 4)
               ++ [indeterminate 5; END_MARK]])
    /\ data_len messagePacket' = 11 /\ packetType messagePacket' = EVENT_LOG
    /\ m_respnse_id messagePacket' = id /\ checksum messagePacket' = 8
    /\ buffer messagePacket' 5%nat = indeterminate 5.
Proof.
  intros Hlen Htype Hid Hsum Hfree.
  unfold send_event_log. cbn [mbind option_bind].
  rewrite send_message_frame by (cbn; lia).
  cbn [with_buffer data_len packetType m_respnse_id checksum buffer
       mbind option_bind].
  rewrite Hlen, Htype, Hid, Hsum.
  eexists. split.
  { do 3 f_equal.
    change (Z.to_nat (11 - HEADER_LEN)) with 6%nat.
    cbn [seq map app]. unfold memcpy, store. cbn. rewrite Hfree. reflexivity. }
  cbn [data_len packetType m_respnse_id checksum buffer].
  repeat split; try assumption.
Qed.

Lemma send_event_logs_loop (event_data entries : list EventData)
    (messagePacket : MessagePacket) (send_data : Queue) (id : Z) :
  data_len messagePacket = 11 -> packetType messagePacket = EVENT_LOG ->
  m_respnse_id messagePacket = id -> checksum messagePacket = 8 ->
  buffer messagePacket 5%nat = indeterminate 5 ->
  exists messagePacket',
    foldl (send_event_log event_data) (Some (messagePacket, send_data)) entries =
      Some (messagePacket',
            send_data ++
              map (fun data =>
                     [11; EVENT_LOG; id; 8; u8 (event data)]
                     ++ map (byte_of (ev_timestamp
                                        (nth 0 event_data
                                           Server.indeterminate_EventData)))
                          (seq 0 4)
                     ++ [indeterminate 5; END_MARK]) entries).
Proof.
  revert messagePacket send_data.
  induction entries as [| data entries IH];
    intros messagePacket send_data Hlen Htype Hid Hsum Hfree.
  - exists messagePacket. cbn. rewrite app_nil_r. reflexivity.
  - destruct (send_event_log_frame event_data data messagePacket send_data id
                Hlen Htype Hid Hsum Hfree)
      as (packet1 & Hstep & Hlen1 & Htype1 & Hid1 & Hsum1 & Hfree1).
    cbn [foldl]. rewrite Hstep.
    match goal with
    | |- context [foldl _ (Some (packet1, ?queue)) entries] =>
        destruct (IH packet1 queue Hlen1 Htype1 Hid1 Hsum1 Hfree1)
          as (packet2 & Hrest)
    end.
    exists packet2. etransitivity; [exact Hrest |].
    rewrite map_cons, <- app_assoc. reflexivity.
Qed.

Lemma send_event_logs_frames (event_data : list EventData) (id : Z)
    (send_data : Queue) :
  send_event_logs event_data id send_data =
    Some (send_data ++
            map (fun data =>
                   [11; EVENT_LOG; id; 8; u8 (event data)]
                   ++ map (byte_of (ev_timestamp
                                      (nth 0 event_data
                                         Server.indeterminate_EventData)))
                        (seq 0 4)
                   ++ [indeterminate 5; END_MARK]) event_data
            ++ [[5; EVENT_LOG_END; id; 0; END_MARK]]).
Proof.
  unfold send_event_logs.
  destruct (send_event_logs_loop event_data event_data
              (packet_of PACKET_TYPE_EVENT_LOG 11 id 8) send_data id)
    as (packet & ->); try reflexivity.
  cbn [mbind option_bind].
  rewrite send_message_frame by (compute; split; discriminate).
  rewrite <- app_assoc. reflexivity.
Qed.

(** X29: the reply to an event-log request carries one packet for every
    entry found, in their order, and then the end packet; but every packet
    carries the timestamp of the first entry, so that the ground station
    reads each event with the time of the first one. *)
Theorem event_logs_first_timestamp (first : EventData)
    (rest : list EventData) (id : Z) (send_data : Queue) :
  0 <= ev_timestamp first < 2 ^ 32 ->
  exists frames,
    send_event_logs (first :: rest) id send_data =
      Some (send_data ++ frames ++ [[5; EVENT_LOG_END; id; 0; END_MARK]])
    /\ length frames = length (first :: rest)
    /\ forall i data, (first :: rest) !! i = Some data ->
         exists frame,
           frames !! i = Some frame
           /\ nth 1 frame 0 = EVENT_LOG /\ nth 2 frame 0 = id
           /\ Access.checked frame
                (PacketParser.parse_event_data frame
                   Server.indeterminate_EventData)
              = Some {| ev_timestamp := ev_timestamp first;
                        event := u8 (event data) |}.
Proof.
  intros Hrange. eexists. split; [apply send_event_logs_frames |].
  split; [apply length_map |].
  intros i data Hdata. eexists.
  split; [rewrite list_lookup_fmap, Hdata; reflexivity |].
  split; [reflexivity |]. split; [reflexivity |].
  cbn [nth seq map app].
  change (Access.checked ?f (PacketParser.parse_event_data ?f ?d))
    with (Some {| ev_timestamp :=
                    le32 (byte_of (ev_timestamp first) 0)
                         (byte_of (ev_timestamp first) 1)
                         (byte_of (ev_timestamp first) 2)
                         (byte_of (ev_timestamp first) 3);
                  event := u8 (event data) |}).
  rewrite le32_byte_of by exact Hrange. reflexivity.
Qed.

Lemma filter_none {A : Type} (f : A -> bool) (l : list A) :
  (forall x, x ∈ l -> f x = false) -> List.filter f l = [].
Proof.
  induction l as [| a l IH]; intros Hnone; [reflexivity |].
  cbn [List.filter]. rewrite (Hnone a) by (apply elem_of_cons; left; reflexivity).
  apply IH. intros x Hx. apply Hnone. apply elem_of_cons. right. exact Hx.
Qed.

(** the read loop on a file in the order of time *)
Lemma read_events_sorted (file buffer : list EventData)
    (timestamp_start timestamp_end max_entries : Z) :
  chronological file -> Z.of_nat (length buffer) < max_entries ->
  read_events file timestamp_start timestamp_end max_entries buffer =
    buffer ++ take (Z.to_nat max_entries - length buffer)
                (List.filter (in_range timestamp_start timestamp_end) file).
Proof.
  revert buffer. induction file as [| data file IH]; intros buffer Hsorted Hroom.
  - cbn. rewrite take_nil, app_nil_r. reflexivity.
  - assert (chronological file) as Hsorted'.
    { intros i j a b Hij Ha Hb.
      apply (Hsorted (S i) (S j) a b); [lia | exact Ha | exact Hb]. }
    cbn [read_events List.filter]. unfold in_range at 1.
    destruct (timestamp_end <? ev_timestamp data) eqn:Hlate.
    + apply Z.ltb_lt in Hlate.
      assert ((ev_timestamp data <=? timestamp_end) = false) as ->
        by (apply Z.leb_gt; lia).
      rewrite andb_false_r.
      assert (List.filter (in_range timestamp_start timestamp_end) file = [])
        as ->.
      { apply filter_none. intros b [j Hj]%list_elem_of_lookup.
        pose proof (Hsorted 0%nat (S j) data b ltac:(lia) eq_refl Hj).
        unfold in_range. apply andb_false_iff. right. apply Z.leb_gt. lia. }
      rewrite take_nil, app_nil_r. reflexivity.
    + apply Z.ltb_ge in Hlate.
      assert ((ev_timestamp data <=? timestamp_end) = true) as ->
        by (apply Z.leb_le; lia).
      rewrite andb_true_r.
      destruct (timestamp_start <=? ev_timestamp data).
      * rewrite length_app. cbn [length].
        destruct (max_entries <=? Z.of_nat (length buffer + 1)) eqn:Hfull.
        -- apply Z.leb_le in Hfull.
           replace (Z.to_nat max_entries - length buffer)%nat with 1%nat by lia.
           reflexivity.
        -- apply Z.leb_gt in Hfull.
           rewrite IH by (try rewrite length_app; cbn [length]; try lia;
                          exact Hsorted').
           rewrite length_app, <- app_assoc. cbn [length app].
           replace (Z.to_nat max_entries - length buffer)%nat
             with (S (Z.to_nat max_entries - (length buffer + 1)))%nat by lia.
           reflexivity.
      * apply IH; assumption.
Qed.

(** X30: on an event file in the order of time and a range that is not
    inverted, the extraction returns the first [max_entries] events of the
    file with a timestamp in the range, and reports partial data exactly if
    there are fewer than [max_entries] of them. *)
Theorem extract_event_data_chronological (file : list EventData)
    (timestamp_start timestamp_end max_entries : Z) :
  chronological file -> timestamp_start <= timestamp_end -> 0 < max_entries ->
  let found := List.filter (in_range timestamp_start timestamp_end) file in
  extract_event_data_between_timestamp (Some file) timestamp_start
    timestamp_end max_entries =
  (if Z.of_nat (length found) <? max_entries
   then EVENT_STATUS_PARTIAL_DATA else EVENT_STATUS_SUCCESS,
   take (Z.to_nat max_entries) found).
Proof.
  intros Hsorted Hrange Hmax. cbn zeta.
  unfold extract_event_data_between_timestamp.
  assert (((timestamp_end <? timestamp_start) || (max_entries =? 0)) = false)
    as ->.
  { apply orb_false_iff. split; [apply Z.ltb_ge | apply Z.eqb_neq]; lia. }
  rewrite read_events_sorted by (cbn; first [exact Hsorted | lia]).
  cbn [app length]. rewrite Nat.sub_0_r, length_take.
  set (found := List.filter _ file).
  destruct (Z.of_nat (length found) <? max_entries) eqn:Hfew.
  - apply Z.ltb_lt in Hfew.
    assert ((Z.of_nat (Z.to_nat max_entries `min` length found) <? max_entries)
            = true) as -> by (apply Z.ltb_lt; lia).
    reflexivity.
  - apply Z.ltb_ge in Hfew.
    assert ((Z.of_nat (Z.to_nat max_entries `min` length found) <? max_entries)
            = false) as -> by (apply Z.ltb_ge; lia).
    reflexivity.
Qed.

End LogFacts.

(** * Concrete runs of the further properties *)

Lemma getSensorDataInRange_window_witness :
  let index := [reading 3; reading 10] in
  exists slice,
    ServerDataManager.getSensorDataInRange 5 20 index = Returns (Some slice)
    /\ (forall x, x ∈ slice <-> x ∈ index /\ 5 <= timestamp x <= 20)
    /\ sorted_index slice.
Proof.
  cbn zeta. apply getSensorDataInRange_window.
  - apply (reachable_insert (reading 10) _
             (reachable_insert (reading 3) _ reachable_empty)).
  - discriminate.
  - vm_compute. discriminate.
  - simpl. lia.
  - lia.
Defined.

Lemma generateID_cycle_witness :
  let ids := fst (generate 256 7) in
  length ids = 256%nat
  /\ NoDup ids
  /\ Forall (fun id => 0 <= id < 256) ids
  /\ snd (generate 256 7) = 7
  /\ fst (IDGenerator.generateID (snd (generate 256 7))) = 7.
Proof. apply (generateID_cycle 7). lia. Defined.

Lemma listen_text_line_witness :
  let on_frame := @Server.handle_response zeroed (@Server.init_response_handlers zeroed) in
  @Server.listen_from zeroed on_frame (map Some [79; 75; 10]) ([], constructed 0)
  = Some ([], Server.print (SatelliteDebug [79; 75; 10]) (constructed 0)).
Proof.
  cbn zeta. apply (@listen_text_line zeroed).
  exists 79, [75]. split; [reflexivity |]. split; [reflexivity |].
  repeat constructor. discriminate.
Defined.

Lemma listen_binary_frame_whole_witness :
  let on_frame := @Server.handle_response zeroed (@Server.init_response_handlers zeroed) in
  @Server.listen_from zeroed on_frame (map Some [5; 8; 3; 0; 85]) ([], constructed 0)
  = st' ← on_frame [5; 8; 3; 0; 85] (constructed 0); Some ([], st').
Proof.
  cbn zeta. apply (@listen_binary_frame_whole zeroed).
  exists 5, [8; 3; 0]. split; [reflexivity |]. split; [discriminate |].
  split; [reflexivity |]. split; [discriminate |]. split; [simpl; lia |].
  intros i Hi. destruct i as [| [| [| i]]]; simpl in Hi; discriminate.
Defined.

Lemma handle_response_drops_witness :
  exists line,
    @Server.handle_response zeroed (@Server.init_response_handlers zeroed)
      [1; 2; 3] (constructed 0)
    = Some (Server.print line (constructed 0))
    /\ (line = InvalidResponseSize
        \/ line = UnknownResponseType (nth 1 (compensated [1; 2; 3]) 0)).
Proof. apply (@handle_response_drops zeroed). left. simpl. lia. Defined.

Lemma terminal_reply_completes_witness :
  let st := Server.register 3 7 (constructed 0) in
  let delivered frame :=
    exists st',
      @Server.handle_response zeroed (@Server.init_response_handlers zeroed)
        frame st = Some st'
      /\ m_tcp_server st' = m_tcp_server st ++ [(7%nat, "Sucess operation"%string)]
      /\ m_request_clients st' = delete 3 (m_request_clients st)
      /\ m_connection st' = m_connection st
      /\ m_sensor_data_manager st' = m_sensor_data_manager st
      /\ m_latest_data st' = m_latest_data st
      /\ m_id_generator st' = m_id_generator st in
  delivered [5; 8; 3; 0; 85] /\ delivered [8; 3; 0; 0; 0; 0; 0; 0; 85].
Proof.
  cbn zeta. split.
  - apply (@terminal_reply_completes zeroed [5; 8; 3; 0; 85] ACK 3);
      [simpl; lia | reflexivity | reflexivity | reflexivity | reflexivity].
  - apply (@terminal_reply_completes zeroed [8; 3; 0; 0; 0; 0; 0; 0; 85] ACK 3);
      [simpl; lia | reflexivity | reflexivity | reflexivity | reflexivity].
Defined.

Lemma correlator_miss_is_silent_witness :
  @Server.handle_response zeroed (@Server.init_response_handlers zeroed)
    [5; 8; 3; 0; 85] (constructed 0) = Some (constructed 0)
  /\ @Server.handle_response zeroed (@Server.init_response_handlers zeroed)
       [8; 3; 0; 0; 0; 0; 0; 0; 85] (constructed 0) = Some (constructed 0).
Proof.
  split.
  - apply (@correlator_miss_is_silent zeroed [5; 8; 3; 0; 85] ACK 3);
      [simpl; lia | reflexivity | reflexivity | constructor | reflexivity].
  - apply (@correlator_miss_is_silent zeroed [8; 3; 0; 0; 0; 0; 0; 0; 85] ACK 3);
      [simpl; lia | reflexivity | reflexivity | constructor | reflexivity].
Defined.

Lemma response_current_time_delivers_witness :
  let st := Server.register 3 7 (constructed 0) in
  let delivered frame :=
    exists st',
      @Server.handle_response zeroed (@Server.init_response_handlers zeroed)
        frame st = Some st'
      /\ m_tcp_server st' = m_tcp_server st ++
           [(7%nat,
             "Current time: " +:+ @PacketParser.format_timestamp zeroed 10000000
             +:+ nl)]
      /\ m_request_clients st' = delete 3 (m_request_clients st)
      /\ m_connection st' = m_connection st
      /\ m_sensor_data_manager st' = m_sensor_data_manager st in
  delivered [11; 0x18; 3; 8; 0x80; 0x96; 0x98; 0x00; 0; 0; 0x55]
  /\ delivered [0x18; 3; 8; 0x80; 0x96; 0x98; 0x00; 0; 0x55].
Proof.
  cbn zeta. split.
  - apply (@response_current_time_delivers zeroed
             [11; 0x18; 3; 8; 0x80; 0x96; 0x98; 0x00; 0; 0; 0x55] 3 7%nat);
      [simpl; lia | reflexivity | reflexivity | reflexivity].
  - apply (@response_current_time_delivers zeroed
             [0x18; 3; 8; 0x80; 0x96; 0x98; 0x00; 0; 0x55] 3 7%nat);
      [simpl; lia | reflexivity | reflexivity | reflexivity].
Defined.


Lemma event_log_streams_witness :
  let st := constructed 0 in
  let frame := [11; 0x14; 3; 8; 3; 0x80; 0x96; 0x98; 0x00; 0; 0x55] in
  let event_data := {| ev_timestamp := 10000000; event := INIT |} in
  exists st',
    @Server.handle_response zeroed (@Server.init_response_handlers zeroed)
      frame st = Some st'
    /\ cout st' = cout st ++ [PrintEvent event_data]
    /\ m_request_clients st' = m_request_clients st
    /\ m_tcp_server st' = m_tcp_server st ++
         match m_request_clients st !! 3 with
         | Some client =>
           [(client, nl +:+ "Event log data:" +:+ nl
                     +:+ PacketParser.event_data_to_string event_data)]
         | None => []
         end
    /\ m_connection st' = m_connection st
    /\ m_sensor_data_manager st' = m_sensor_data_manager st.
Proof.
  cbn zeta.
  apply (@event_log_streams zeroed
           [11; 0x14; 3; 8; 3; 0x80; 0x96; 0x98; 0x00; 0; 0x55] 3);
    [simpl; lia | reflexivity | reflexivity].
Defined.

Lemma time_request_reply_witness :
  let st := constructed 10000000 in
  exists st' wire_id b0 b1 b2 b3,
    @Server.handle_response zeroed (@Server.init_response_handlers zeroed)
      [5; 0x10; 0xFF; 0; 0x55] st = Some st'
    /\ m_connection st' = m_connection st ++
         [[9; TIME_SEND; wire_id; 0; b0; b1; b2; b3; END_MARK]]
    /\ le32 b0 b1 b2 b3 = u32 (system_clock st)
    /\ cout st' = cout st ++ [SendingTime (u32 (system_clock st))]
    /\ m_request_clients st' = m_request_clients st
    /\ m_tcp_server st' = m_tcp_server st.
Proof.
  cbn zeta.
  apply (@time_request_reply zeroed [5; 0x10; 0xFF; 0; 0x55]);
    [simpl; lia | reflexivity].
Defined.

Lemma server_invariant_kept_witness :
  let link := map Some beacon_frame ++ [None] ++ map Some [5; 8; 0; 0; 85] in
  server_invariant (constructed 0)
  /\ (exists loop',
        @Server.listen zeroed link (constructed 0) = Some loop'
        /\ server_invariant (snd loop')
        /\ sorted_index (m_sensor_data_manager (snd loop')))
  /\ (exists st',
        @Server.handle_request zeroed "get_current_time" 7 (constructed 0)
          = Some st'
        /\ server_invariant st'
        /\ sorted_index (m_sensor_data_manager st')).
Proof.
  cbn zeta.
  assert (server_invariant (constructed 0)) as Hinv.
  { split; [apply reachable_empty |]. split; [simpl; lia | constructor]. }
  split; [exact Hinv |]. split.
  - eexists. split; [vm_compute; reflexivity |].
    apply (@server_invariant_kept zeroed (constructed 0) _ Hinv).
    left.
    exists (map Some beacon_frame ++ [None] ++ map Some [5; 8; 0; 0; 85]), [], [].
    vm_compute. reflexivity.
  - eexists. split; [vm_compute; reflexivity |].
    apply (@server_invariant_kept zeroed (constructed 0) _ Hinv).
    right. exists "get_current_time"%string, 7%nat. vm_compute. reflexivity.
Defined.

Lemma set_time_monotone_witness :
  let st := Server.set_latest_data (reading 10000000) (constructed 0) in
  let latest := timestamp (m_latest_data st) in
  exists st',
    @Server.handle_request zeroed "set_time 9999999" 7 st = Some st'
    /\ m_request_clients st' = m_request_clients st
    /\ if (0 <? latest) && (9999999 <? latest)
       then m_connection st' = m_connection st
            /\ m_tcp_server st' = m_tcp_server st ++
                 [(7%nat,
                   "Error: Cannot set time before the latest sensor data timestamp ("
                   +:+ pretty latest +:+ ")")]
       else exists id,
            m_connection st' = m_connection st ++
              [[9; TIME_SEND; id; 0] ++ map (byte_of 9999999) (seq 0 4)
               ++ [END_MARK]]
            /\ m_tcp_server st' = m_tcp_server st ++
                 [(7%nat,
                   nl +:+ "Set custom time to:"
                   +:+ @PacketParser.format_timestamp zeroed 9999999 +:+ nl)].
Proof.
  cbn zeta.
  eapply (@set_time_monotone zeroed "set_time 9999999" 7 9999999);
    [vm_compute; reflexivity | vm_compute; reflexivity | reflexivity].
Defined.

Lemma update_humidity_range_witness :
  let st := constructed 0 in
  exists st',
    @Server.handle_request zeroed "update_humidity 40" 7 st = Some st'
    /\ m_request_clients st' = m_request_clients st
    /\ if (0 <=? 40) && (40 <=? 100)
       then exists id,
            m_connection st' = m_connection st ++
              [[6; UPDATE_HUMIDITY; id; 0; 40; END_MARK]]
            /\ m_tcp_server st' = m_tcp_server st ++
                 [(7%nat, "Humidity updated to " +:+ pretty 40 +:+ "%")]
       else m_connection st' = m_connection st
            /\ m_tcp_server st' = m_tcp_server st ++
                 [(7%nat, "Error: Humidity value must be between 0 and 100"%string)].
Proof.
  cbn zeta.
  eapply (@update_humidity_range zeroed "update_humidity 40" 7 40);
    [vm_compute; reflexivity | vm_compute; reflexivity | reflexivity].
Defined.

Lemma update_temp_truncates_witness :
  let st := constructed 0 in
  exists st' id,
    @Server.handle_request zeroed "update_min_temp 300" 7 st = Some st'
    /\ m_connection st' = m_connection st ++
         [[6; UPDATE_MIN_TEMP; id; 0; 300 mod 256; END_MARK]]
    /\ m_tcp_server st' = m_tcp_server st ++
         [(7%nat, "Minimum temperature updated to " +:+ pretty 300 +:+ "°C")].
Proof.
  cbn zeta.
  eapply (@update_temp_truncates zeroed "update_min_temp 300" 7 300 _ _ _ true);
    [vm_compute; reflexivity | vm_compute; reflexivity | reflexivity].
Defined.

Lemma get_recent_sensor_data_window_witness :
  let st := Server.set_latest_data (reading 30) (constructed 0) in
  let latest := timestamp (m_latest_data st) in
  exists st',
    @Server.handle_request zeroed "get_recent_sensor_data" 7 st = Some st'
    /\ if 0 <? latest
       then m_connection st' = m_connection st ++
              [[13; REQUEST_SENSOR_LOGS; m_id_generator st; 0]
               ++ map (byte_of (Z.max (latest - 50) 0)) (seq 0 4)
               ++ map (byte_of latest) (seq 0 4) ++ [END_MARK]]
            /\ m_request_clients st' !! m_id_generator st = Some 7%nat
            /\ m_tcp_server st' = m_tcp_server st ++
                 [(7%nat, "Retrieving sensor data from the last minute..."%string)]
       else m_connection st' = m_connection st
            /\ m_request_clients st' = m_request_clients st
            /\ m_tcp_server st' = m_tcp_server st ++
                 [(7%nat,
                   "Error: No sensor data available yet. Wait for a beacon."%string)].
Proof.
  cbn zeta.
  eapply (@get_recent_sensor_data_window zeroed "get_recent_sensor_data" 7);
    [vm_compute; reflexivity | simpl; lia].
Defined.

Lemma event_packet_arrives_witness :
  let event_data := {| ev_timestamp := 10000000; event := INIT |} in
  exists frame,
    @Satellite.send_event_packet zeroed event_data [] = Some ([] ++ [frame])
    /\ @Server.listen zeroed (map Some frame) (constructed 0) =
       Some ([], Server.print
                   (PrintEvent {| ev_timestamp := 10000000; event := u8 INIT |})
                   (Server.print EventHeading (constructed 0))).
Proof.
  cbn zeta.
  apply (@event_packet_arrives zeroed
           {| ev_timestamp := 10000000; event := INIT |});
    [simpl; lia | vm_compute; discriminate | vm_compute; discriminate].
Defined.

Lemma event_packet_cut_witness :
  let event_data := {| ev_timestamp := 1750401024; event := INIT |} in
  exists frame,
    @Satellite.send_event_packet zeroed event_data [] = Some ([] ++ [frame])
    /\ @Server.listen zeroed
         (map Some (take (if byte_of 1750401024 2 =? END_MARK then 8 else 9)
                      frame)) (constructed 0) =
       Some ([], Server.print (UnknownResponseType 0xFF) (constructed 0))
    /\ (byte_of 1750401024 2 <> END_MARK ->
        @Server.listen zeroed (map Some frame) (constructed 0) =
        Some ([END_MARK], Server.print (UnknownResponseType 0xFF) (constructed 0))).
Proof.
  cbn zeta.
  apply (@event_packet_cut zeroed
           {| ev_timestamp := 1750401024; event := INIT |}).
  left. vm_compute. reflexivity.
Defined.

Lemma update_round_trip_witness :
  let st := constructed 0 in
  let fw := booted 10000000 in
  exists st1 id reply,
    @Server.send_value zeroed 1 UPDATE_HUMIDITY 40 st = Some st1
    /\ m_connection st1 = m_connection st ++ [[6; UPDATE_HUMIDITY; id; 0; 40; END_MARK]]
    /\ @Satellite.altair_message_handler zeroed []
         [6; UPDATE_HUMIDITY; id; 0; 40; END_MARK] fw =
         Some ([] ++ [reply],
               if 40 <=? 100
               then Satellite.put_limits
                      {| Satellite.setting_buffer := [40];
                         Satellite.update_attribute := Satellite.UPDATE_HUMIDITY_LIMIT |} fw
               else fw)
    /\ reply = [5; if 40 <=? 100 then ACK else NACK; id; 0; END_MARK]
    /\ @Server.listen zeroed (map Some reply) st1 =
         Some ([], match m_request_clients st !! id with
                   | Some other =>
                       Server.erase id
                         (Server.sendMessage other
                            (if 40 <=? 100 then "Sucess operation"
                             else "Request failed. Please try again.") st1)
                   | None => st1
                   end).
Proof.
  cbn zeta.
  apply (@update_round_trip zeroed UPDATE_HUMIDITY 40
           Satellite.UPDATE_HUMIDITY_LIMIT); [reflexivity | lia].
Defined.


Lemma event_logs_first_timestamp_witness :
  let first := {| ev_timestamp := 10; event := INIT |} in
  let rest := [{| ev_timestamp := 20; event := OK_TO_ERROR |}] in
  exists frames,
    @Satellite.send_event_logs zeroed (first :: rest) 3 [] =
      Some ([] ++ frames ++ [[5; EVENT_LOG_END; 3; 0; END_MARK]])
    /\ length frames = length (first :: rest)
    /\ forall i data, (first :: rest) !! i = Some data ->
         exists frame,
           frames !! i = Some frame
           /\ nth 1 frame 0 = EVENT_LOG /\ nth 2 frame 0 = 3
           /\ Access.checked frame
                (@PacketParser.parse_event_data zeroed frame
                   (@Server.indeterminate_EventData zeroed))
              = Some {| ev_timestamp := ev_timestamp first;
                        event := u8 (event data) |}.
Proof.
  cbn zeta.
  apply (@event_logs_first_timestamp zeroed
           {| ev_timestamp := 10; event := INIT |}).
  simpl. lia.
Defined.

Lemma extract_event_data_chronological_witness :
  let file := [{| ev_timestamp := 10; event := INIT |};
               {| ev_timestamp := 20; event := OK_TO_ERROR |};
               {| ev_timestamp := 30; event := ERROR_TO_OK |}] in
  let found := List.filter (in_range 15 30) file in
  Satellite.extract_event_data_between_timestamp (Some file) 15 30 10 =
  (if Z.of_nat (length found) <? 10
   then Satellite.EVENT_STATUS_PARTIAL_DATA else Satellite.EVENT_STATUS_SUCCESS,
   take (Z.to_nat 10) found).
Proof.
  cbn zeta. apply extract_event_data_chronological; [| lia | lia].
  intros i j a b Hij Ha Hb.
  destruct i as [| [| [| i]]]; destruct j as [| [| [| j]]];
    simpl in Ha, Hb; try discriminate; try lia;
    injection Ha as <-; injection Hb as <-; simpl; lia.
Defined.
